(** * Holiday rule sets of python-holidays: Hungary, Thailand and the
      US government securities market

    A shallow embedding of [holidays/countries/hungary.py],
    [holidays/countries/thailand.py] and
    [holidays/financial/us_government_securities.py], together with the
    parts of Python's [datetime] and of [dateutil] they call, and the
    properties of the rule sets stated in the specification. *)

From Stdlib Require Import ZArith Lia List Bool.
From stdpp Require Import base option gmap strings list fin_maps.

Local Open Scope Z_scope.

(** ** Exceptions and fallible results *)

(** The two exceptions the calendar primitives can raise. *)
Inductive exn : Set := ValueError | OverflowError.

Inductive result (A : Type) : Type :=
  | Ok (a : A)
  | Raise (e : exn).
Arguments Ok {A} a.
Arguments Raise {A} e.

#[global] Instance result_ret : MRet result := @Ok.
#[global] Instance result_bind : MBind result := λ A B f r,
  match r with
  | Ok a => f a
  | Raise e => Raise e
  end.

(** ** Python's [datetime.date]

    A [date] is represented by its proleptic Gregorian ordinal, the value
    of [date.toordinal()]: 1 is 0001-01-01 and [_MAXORDINAL] is
    9999-12-31.  The functions below are the ones of CPython's
    [datetime.py]. *)

Abbreviation date := Z (only parsing).

Module datetime.

Definition MINYEAR : Z := 1.
Definition MAXYEAR : Z := 9999.
Definition _MAXORDINAL : Z := 3652059.

Definition _is_leap (year : Z) : bool :=
  (year mod 4 =? 0) && (negb (year mod 100 =? 0) || (year mod 400 =? 0)).

Definition _days_before_year (year : Z) : Z :=
  let y := year - 1 in
  y * 365 + y / 4 - y / 100 + y / 400.

(** [_DAYS_IN_MONTH] *)
Definition _DAYS_IN_MONTH (month : Z) : Z :=
  match month with
  | 1 => 31 | 2 => 28 | 3 => 31 | 4 => 30 | 5 => 31 | 6 => 30
  | 7 => 31 | 8 => 31 | 9 => 30 | 10 => 31 | 11 => 30 | 12 => 31
  | _ => -1
  end.

(** [_DAYS_BEFORE_MONTH] *)
Definition _DAYS_BEFORE_MONTH (month : Z) : Z :=
  match month with
  | 1 => 0 | 2 => 31 | 3 => 59 | 4 => 90 | 5 => 120 | 6 => 151
  | 7 => 181 | 8 => 212 | 9 => 243 | 10 => 273 | 11 => 304 | 12 => 334
  | _ => -1
  end.

Definition _days_in_month (year month : Z) : Z :=
  if (month =? 2) && _is_leap year then 29 else _DAYS_IN_MONTH month.

Definition _days_before_month (year month : Z) : Z :=
  _DAYS_BEFORE_MONTH month + (if (2 <? month) && _is_leap year then 1 else 0).

Definition _ymd2ord (year month day : Z) : Z :=
  _days_before_year year + _days_before_month year month + day.

Definition _DI400Y : Z := 146097.
Definition _DI100Y : Z := 36524.
Definition _DI4Y : Z := 1461.

(** [_ord2ymd]: the (year, month, day) of an ordinal. *)
Definition _ord2ymd (n : Z) : Z * Z * Z :=
  let n := n - 1 in
  let n400 := n / _DI400Y in
  let n := n mod _DI400Y in
  let year := n400 * 400 + 1 in
  let n100 := n / _DI100Y in
  let n := n mod _DI100Y in
  let n4 := n / _DI4Y in
  let n := n mod _DI4Y in
  let n1 := n / 365 in
  let n := n mod 365 in
  let year := year + n100 * 100 + n4 * 4 + n1 in
  if (n1 =? 4) || (n100 =? 4) then (year - 1, 12, 31)
  else
    let leapyear := (n1 =? 3) && (negb (n4 =? 24) || (n100 =? 3)) in
    let month := Z.shiftr (n + 50) 5 in
    let preceding :=
      _DAYS_BEFORE_MONTH month + (if (2 <? month) && leapyear then 1 else 0) in
    if n <? preceding then
      let month := month - 1 in
      let preceding :=
        preceding
        - (_DAYS_IN_MONTH month + (if (month =? 2) && leapyear then 1 else 0)) in
      (year, month, n - preceding + 1)
    else (year, month, n - preceding + 1).

(** [date(year, month, day)]: the constructor checks its fields and
    raises [ValueError] on a date that does not exist. *)
Definition date_ (year month day : Z) : result date :=
  if (MINYEAR <=? year) && (year <=? MAXYEAR)
     && (1 <=? month) && (month <=? 12)
     && (1 <=? day) && (day <=? _days_in_month year month)
  then Ok (_ymd2ord year month day)
  else Raise ValueError.

Definition year (d : date) : Z := (_ord2ymd d).1.1.
Definition month (d : date) : Z := (_ord2ymd d).1.2.
Definition day (d : date) : Z := (_ord2ymd d).2.

(** [date.weekday()]: Monday is 0, Sunday is 6. *)
Definition weekday (d : date) : Z := (d + 6) mod 7.

(** [date.isoweekday()]: Monday is 1, Sunday is 7. *)
Definition isoweekday (d : date) : Z :=
  if d mod 7 =? 0 then 7 else d mod 7.

(** [d + timedelta(days=n)], which raises [OverflowError] outside
    0001-01-01 .. 9999-12-31. *)
Definition add_days (d : date) (n : Z) : result date :=
  let o := d + n in
  if (0 <? o) && (o <=? _MAXORDINAL) then Ok o else Raise OverflowError.

End datetime.

Abbreviation JAN := 1 (only parsing).
Abbreviation FEB := 2 (only parsing).
Abbreviation MAR := 3 (only parsing).
Abbreviation APR := 4 (only parsing).
Abbreviation MAY := 5 (only parsing).
Abbreviation JUN := 6 (only parsing).
Abbreviation JUL := 7 (only parsing).
Abbreviation AUG := 8 (only parsing).
Abbreviation SEP := 9 (only parsing).
Abbreviation OCT := 10 (only parsing).
Abbreviation NOV := 11 (only parsing).
Abbreviation DEC := 12 (only parsing).

(** ** [dateutil]: weekday-relative deltas and Easter *)

Module dateutil.
Import datetime.

Abbreviation MO := 0 (only parsing).
Abbreviation TU := 1 (only parsing).
Abbreviation WE := 2 (only parsing).
Abbreviation TH := 3 (only parsing).
Abbreviation FR := 4 (only parsing).
Abbreviation SA := 5 (only parsing).
Abbreviation SU := 6 (only parsing).

(** [d + relativedelta(weekday=wd(nth))], for [nth] other than 0. *)
Definition rd_weekday (wd nth : Z) (d : date) : result date :=
  let jumpdays := (Z.abs nth - 1) * 7 in
  let jumpdays :=
    if 0 <? nth then jumpdays + (7 - weekday d + wd) mod 7
    else (jumpdays + (weekday d - wd) mod 7) * -1 in
  add_days d jumpdays.

(** [d + relativedelta(days=n)] *)
Definition rd_days (n : Z) (d : date) : result date := add_days d n.

(** [easter(year)] with the default method, [EASTER_WESTERN]. *)
Definition easter (y : Z) : result date :=
  let g := y mod 19 in
  let e := 0 in
  let c := y / 100 in
  let h := (c - c / 4 - (8 * c + 13) / 25 + 19 * g + 15) mod 30 in
  let i := h - (h / 28) * (1 - (h / 28) * (29 / (h + 1)) * ((21 - g) / 11)) in
  let j := (y + y / 4 + i + 2 - c + c / 4) mod 7 in
  let p := i - j + e in
  let d := 1 + (p + 27 + (p + 6) / 40) mod 31 in
  let m := 3 + (p + 26) / 30 in
  date_ y m d.

End dateutil.

Import datetime dateutil.

(** ** The holiday map and the population monad *)

(** A rule set fills a Python [dict] from dates to labels by assignments
    [self[d] = label]; a population either finishes with the new map or
    raises.  [M] threads the map and the exception through the code. *)
Definition M (A : Type) : Type := gmap Z string → result (A * gmap Z string).

#[global] Instance M_ret : MRet M := λ A a m, Ok (a, m).
#[global] Instance M_bind : MBind M := λ A B f c m,
  match c m with
  | Ok (a, m') => f a m'
  | Raise e => Raise e
  end.

(** A date computation used inside a population. *)
Definition lift {A} (r : result A) : M A := λ m,
  match r with
  | Ok a => Ok (a, m)
  | Raise e => Raise e
  end.

(** [if b: c] *)
Definition when (b : bool) (c : M unit) : M unit :=
  if b then c else mret tt.

(** The map a population builds from the empty [dict]. *)
Definition run (c : M unit) : result (gmap Z string) :=
  match c ∅ with
  | Ok (_, m) => Ok m
  | Raise e => Raise e
  end.

(** ** [HolidayBase] *)

Module HolidayBase.

(** Modelled from the spec: [HolidayBase.__setitem__] is not among the
    sources.  A date maps to exactly one label and the later-applied
    rule wins, so [self[d] = label] is the plain [dict] assignment. *)
Definition setitem (d : date) (label : string) : M unit :=
  λ m, Ok (tt, <[d := label]> m).

(** The special-holiday table of a rule set: year, then the ordered
    (month, day, label) entries of that year. *)
Definition special_table : Type := list (Z * list (Z * Z * string)).

(** [special_holidays.get(year, ())] *)
Fixpoint get (t : special_table) (year : Z) : list (Z * Z * string) :=
  match t with
  | [] => []
  | (y, es) :: t => if y =? year then es else get t year
  end.

Fixpoint add_special (year : Z) (es : list (Z * Z * string)) : M unit :=
  match es with
  | [] => mret tt
  | (month, day, name) :: es =>
      d ← lift (date_ year month day);
      setitem d name;;
      add_special year es
  end.

(** Modelled from the spec: [HolidayBase._populate] is not among the
    sources.  It applies the special-holiday table of the exact year,
    unconditionally and in order, before the rules of the rule set. *)
Definition _populate (special_holidays : special_table) (year : Z) : M unit :=
  add_special year (get special_holidays year).

(** Modelled from the spec: the weekday tests of [HolidayBase]
    ([isSaturday], [isSunday], [isWeekend], ...) are not among the
    sources.  The weekend is Saturday and Sunday. *)
Definition _is_monday (d : date) : bool := weekday d =? MO.
Definition _is_friday (d : date) : bool := weekday d =? FR.
Definition _is_saturday (d : date) : bool := weekday d =? SA.
Definition _is_sunday (d : date) : bool := weekday d =? SU.
Definition _is_weekend (d : date) : bool := _is_saturday d || _is_sunday d.

End HolidayBase.

Notation "'self[' d ']' '=' l" := (HolidayBase.setitem d l)
  (at level 10, d at level 99, l at level 9, only parsing).

(** ** Hungary *)

Module Hungary.
Import HolidayBase.

(** [Hungary] defines no special holidays. *)
Definition special_holidays : special_table := [].

Definition _add_with_observed_day_off (observed : bool)
    (day : date) (desc : string) (since : Z) (before after : bool) : M unit :=
  self[day] = desc;;
  when (observed && (since <=? datetime.year day))
    (if (weekday day =? TU) && before
        && negb ((datetime.month day =? JAN) && (datetime.day day =? 1))
     then
       d ← lift (rd_days (-1) day);
       self[d] = (desc +:+ " előtti pihenőnap")
     else if (weekday day =? TH) && after then
       d ← lift (rd_days 1 day);
       self[d] = (desc +:+ " utáni pihenőnap")
     else mret tt).

Definition _populate (observed : bool) (year : Z) : M unit :=
  HolidayBase._populate special_holidays year;;
  (* New years *)
  d ← lift (date_ year JAN 1);
  _add_with_observed_day_off observed d "Újév" 2014 true true;;
  when (2014 <=? year)
    (when observed
       (dec31 ← lift (date_ year DEC 31);
        when (weekday dec31 =? MO)
          (self[dec31] = "Újév előtti pihenőnap")));;
  (* National Day *)
  when ((1945 <=? year) && (year <=? 1950) || (1989 <=? year))
    (d ← lift (date_ year MAR 15);
     _add_with_observed_day_off observed d "Nemzeti ünnep" 2010 true true);;
  (* Soviet era *)
  when ((1950 <=? year) && (year <=? 1989))
    (d ← lift (date_ year MAR 21);
     self[d] = "A Tanácsköztársaság kikiáltásának ünnepe";;
     d ← lift (date_ year APR 4);
     self[d] = "A felszabadulás ünnepe";;
     when (negb ((year =? 1956) || (year =? 1989)))
       (d ← lift (date_ year NOV 7);
        self[d] = "A nagy októberi szocialista forradalom ünnepe"));;
  easter_date ← lift (easter year);
  (* Good Friday *)
  when (2017 <=? year)
    (d ← lift (rd_weekday FR (-1) easter_date);
     self[d] = "Nagypéntek");;
  (* Easter *)
  self[easter_date] = "Húsvét";;
  (* Second easter day *)
  when (negb (1955 =? year))
    (d ← lift (rd_days 1 easter_date);
     self[d] = "Húsvét Hétfő");;
  (* Pentecost *)
  d ← lift (rd_days 49 easter_date);
  self[d] = "Pünkösd";;
  (* Pentecost monday *)
  when ((year <=? 1952) || (1992 <=? year))
    (d ← lift (rd_days 50 easter_date);
     self[d] = "Pünkösdhétfő");;
  (* International Workers' Day *)
  when (1946 <=? year)
    (d ← lift (date_ year MAY 1);
     _add_with_observed_day_off observed d "A Munka ünnepe" 2010 true true);;
  when ((1950 <=? year) && (year <=? 1953))
    (d ← lift (date_ year MAY 2);
     self[d] = "A Munka ünnepe");;
  (* State Foundation Day *)
  (if (1950 <=? year) && (year <? 1990) then
     d ← lift (date_ year AUG 20);
     self[d] = "A kenyér ünnepe"
   else
     d ← lift (date_ year AUG 20);
     _add_with_observed_day_off observed d "Az államalapítás ünnepe"
       2010 true true);;
  (* National Day *)
  when (1991 <=? year)
    (d ← lift (date_ year OCT 23);
     _add_with_observed_day_off observed d "Nemzeti ünnep" 2010 true true);;
  (* All Saints' Day *)
  when (1999 <=? year)
    (d ← lift (date_ year NOV 1);
     _add_with_observed_day_off observed d "Mindenszentek" 2010 true true);;
  (* Christmas Eve *)
  when (observed && (2010 <=? year))
    (d ← lift (date_ year DEC 24);
     when (negb (_is_weekend d)) (self[d] = "Szenteste"));;
  (* First christmas *)
  d ← lift (date_ year DEC 25);
  self[d] = "Karácsony";;
  (* Second christmas *)
  when (negb (1955 =? year))
    (d ← lift (date_ year DEC 26);
     _add_with_observed_day_off observed d "Karácsony másnapja"
       2013 false true);;
  (* New Year's Eve *)
  when (observed && (2014 <=? year))
    (d ← lift (date_ year DEC 31);
     when (weekday d =? MO) (self[d] = "Szilveszter")).

End Hungary.

(** ** The US government securities market *)

Module UnitedStatesGovernmentSecurities.
Import HolidayBase.

(** The class defines no special-holiday table; its two special
    closures are written in [_populate]. *)
Definition special_holidays : special_table := [].

Definition _get_observed (d : date) : result date :=
  let wdnum := isoweekday d in
  if wdnum =? 6 then rd_weekday FR (-1) d
  else if wdnum =? 7 then rd_weekday MO 1 d
  else Ok d.

Definition _set_observed_date (holiday_date : date) (name : string) : M unit :=
  date_obs ← lift (_get_observed holiday_date);
  if date_obs =? holiday_date then self[holiday_date] = name
  else self[date_obs] = (name +:+ " (Observed)").

(** The rule set never reads [self.observed]: the shifts below apply
    whatever the flag. *)
Definition _populate (observed : bool) (year : Z) : M unit :=
  HolidayBase._populate special_holidays year;;
  (* NEW YEAR'S DAY *)
  nyd ← lift (date_ year JAN 1);
  when (negb (_is_saturday nyd)) (_set_observed_date nyd "New Year's Day");;
  (* MLK DAY *)
  when (1986 <=? year)
    (d ← lift (d ← date_ year JAN 1; rd_weekday MO 3 d);
     self[d] = "Martin Luther King Jr. Day");;
  (* WASHINGTON'S BIRTHDAY *)
  (if year <? 1971 then
     wash ← lift (date_ year FEB 22);
     _set_observed_date wash "Washington's Birthday"
   else
     d ← lift (d ← date_ year FEB 1; rd_weekday MO 3 d);
     self[d] = "Washington's Birthday");;
  (* GOOD FRIDAY - except when Employment Situation is released *)
  third_friday_after_reference ←
    lift (d ← date_ year MAR 12; d ← add_days d 21; rd_weekday FR 1 d);
  good_friday ← lift (e ← easter year; add_days e (-2));
  when (negb (good_friday =? third_friday_after_reference))
    (self[good_friday] = "Good Friday");;
  (* MEM DAY *)
  (if year <? 1971 then
     memday ← lift (date_ year MAY 30);
     _set_observed_date memday "Memorial Day"
   else
     d ← lift (d ← date_ year MAY 31; rd_weekday MO (-1) d);
     self[d] = "Memorial Day");;
  (* JUNETEENTH *)
  when (2021 <=? year)
    (juneteenth ← lift (date_ year JUN 19);
     _set_observed_date juneteenth "Juneteenth National Independence Day");;
  (* INDEPENDENCE DAY *)
  j4th ← lift (date_ year JUL 4);
  _set_observed_date j4th "Independence Day";;
  (* LABOR DAY *)
  d ← lift (d ← date_ year SEP 1; rd_weekday MO 1 d);
  self[d] = "Labor Day";;
  (* COLOMBUS DAY *)
  colday ← lift (date_ year OCT 12);
  _set_observed_date colday "Columbus Day";;
  (* VETERANS DAY *)
  vetday ← lift (date_ year NOV 11);
  when (negb (_is_saturday vetday)) (_set_observed_date vetday "Veteran's Day");;
  (* THANKSGIVING DAY *)
  d ← lift (d ← date_ year NOV 1; rd_weekday TH 4 d);
  self[d] = "Thanksgiving Day";;
  (* CHRISTMAS DAY *)
  xmas ← lift (date_ year DEC 25);
  _set_observed_date xmas "Christmas Day";;
  (* SPECIAL HOLIDAYS *)
  when (year =? 2012)
    (d ← lift (date_ year OCT 30);
     self[d] = "Hurricane Sandy");;
  when (year =? 2018)
    (d ← lift (date_ year DEC 5);
     self[d] = "Death of George H.W. Bush").

End UnitedStatesGovernmentSecurities.

(** ** Thailand *)

(** [holidays.utils._ThaiLuniSolar] is not among the sources: the four
    lunisolar lookups are taken as they are used, from a Gregorian year
    to a date or to [None] outside the supported window. *)
Record _ThaiLuniSolar : Type := {
  makha_bucha_date : Z → option date;
  visakha_bucha_date : Z → option date;
  asarnha_bucha_date : Z → option date;
  khao_phansa_date : Z → option date
}.

Module Thailand.
Import HolidayBase.

Definition thai_special_in_lieu_holidays : string := "Special In Lieu Holiday".
Definition thai_election : string := "Thai Election Day".
Definition thai_election_in_lieu : string := "Thai Election Day (in lieu)".
Definition thai_bridge_public_holiday : string := "Bridge Public Holiday".
Definition rama_ix_golden_jubilee : string :=
  "HM King Bhumibol Adulyadej's Golden Jubilee".
Definition rama_ix_sixty_accession : string :=
  "HM King Bhumibol Adulyadej's 60th Anniversary of Accession Event".
Definition thai_military_emergency_lockdown : string :=
  "Emergency Lockdown (Thai Military Coup d'état)".
Definition thai_political_emergency_lockdown : string :=
  "Emergency Lockdown (Thai Political Unrest)".
Definition thai_flood_2011_emergency_lockdown : string :=
  "Emergency Lockdown (2011 Thailand Floods)".
Definition rama_ix_mourning : string :=
  "Day of Mourning for HM King Bhumibol Adulyadej".
Definition rama_ix_cremation : string :=
  "HM King Bhumibol Adulyadej's Royal Cremation Ceremony".
Definition rama_x_coronation_celebrations : string :=
  "HM King Maha Vajiralongkorn's Coronation Celebrations".
Definition songkran_festival_in_lieu_covid : string :=
  "Songkran Festival (in lieu)".

Definition special_holidays : special_table := [
  (1992, [(MAY, 18, thai_special_in_lieu_holidays);
          (DEC, 7, thai_special_in_lieu_holidays)]);
  (1993, [(MAR, 8, thai_special_in_lieu_holidays);
          (MAY, 3, thai_special_in_lieu_holidays);
          (OCT, 25, thai_special_in_lieu_holidays);
          (DEC, 6, thai_special_in_lieu_holidays)]);
  (1994, [(JAN, 3, thai_special_in_lieu_holidays);
          (MAY, 2, thai_special_in_lieu_holidays);
          (JUL, 25, thai_special_in_lieu_holidays);
          (OCT, 24, thai_special_in_lieu_holidays);
          (DEC, 12, thai_special_in_lieu_holidays)]);
  (1996, [(JUN, 10, rama_ix_golden_jubilee)]);
  (1998, [(MAY, 11, thai_special_in_lieu_holidays);
          (DEC, 7, thai_special_in_lieu_holidays)]);
  (1999, [(MAY, 3, thai_special_in_lieu_holidays);
          (MAY, 31, thai_special_in_lieu_holidays);
          (OCT, 25, thai_special_in_lieu_holidays);
          (DEC, 6, thai_special_in_lieu_holidays)]);
  (2000, [(JAN, 3, thai_special_in_lieu_holidays);
          (FEB, 21, thai_special_in_lieu_holidays);
          (AUG, 14, thai_special_in_lieu_holidays);
          (DEC, 11, thai_special_in_lieu_holidays);
          (DEC, 29, thai_election)]);
  (2006, [(APR, 19, thai_election);
          (JUN, 9, rama_ix_sixty_accession);
          (JUN, 12, rama_ix_sixty_accession);
          (JUN, 13, rama_ix_sixty_accession);
          (SEP, 20, thai_military_emergency_lockdown)]);
  (2007, [(DEC, 24, thai_election_in_lieu)]);
  (2009, [(JAN, 2, thai_bridge_public_holiday);
          (APR, 10, thai_political_emergency_lockdown);
          (APR, 16, thai_political_emergency_lockdown);
          (APR, 17, thai_political_emergency_lockdown);
          (JUL, 6, thai_bridge_public_holiday)]);
  (2010, [(MAY, 20, thai_bridge_public_holiday);
          (MAY, 21, thai_bridge_public_holiday);
          (AUG, 13, thai_bridge_public_holiday)]);
  (2011, [(MAY, 16, thai_bridge_public_holiday);
          (OCT, 27, thai_flood_2011_emergency_lockdown);
          (OCT, 28, thai_flood_2011_emergency_lockdown);
          (OCT, 31, thai_flood_2011_emergency_lockdown)]);
  (2012, [(APR, 9, thai_bridge_public_holiday)]);
  (2013, [(DEC, 30, thai_bridge_public_holiday)]);
  (2014, [(AUG, 11, thai_bridge_public_holiday)]);
  (2015, [(JAN, 2, thai_bridge_public_holiday);
          (MAY, 4, thai_bridge_public_holiday)]);
  (2016, [(MAY, 6, thai_bridge_public_holiday);
          (JUL, 18, thai_bridge_public_holiday);
          (OCT, 14, rama_ix_mourning)]);
  (2017, [(OCT, 26, rama_ix_cremation)]);
  (2019, [(MAY, 6, rama_x_coronation_celebrations)]);
  (2020, [(JUL, 27, songkran_festival_in_lieu_covid);
          (SEP, 4, songkran_festival_in_lieu_covid);
          (SEP, 7, songkran_festival_in_lieu_covid);
          (NOV, 19, thai_bridge_public_holiday);
          (NOV, 20, thai_bridge_public_holiday);
          (DEC, 11, thai_bridge_public_holiday)]);
  (2021, [(FEB, 12, thai_bridge_public_holiday);
          (APR, 12, thai_bridge_public_holiday);
          (SEP, 24, thai_bridge_public_holiday)]);
  (2022, [(JUL, 15, thai_bridge_public_holiday);
          (JUL, 29, thai_bridge_public_holiday);
          (OCT, 14, thai_bridge_public_holiday);
          (DEC, 30, thai_bridge_public_holiday)]);
  (2023, [(MAY, 5, thai_bridge_public_holiday)])
].

(** The years in which a holiday on a weekend automatically gets a
    workday in lieu. *)
Definition in_lieu_years (year : Z) : bool :=
  (1961 <=? year) && (year <=? 1973)
  || (1995 <=? year) && (year <=? 1997)
  || (2001 <=? year).

(** The closure [_add_with_observed] of [_populate]; it captures
    [self] and [year]. *)
Definition _add_with_observed (observed : bool) (year : Z)
    (dt : date) (holiday_name : string) : M unit :=
  self[dt] = holiday_name;;
  when (in_lieu_years year)
    (when (observed && _is_weekend dt)
       (in_lieu ← lift (add_days dt (if _is_saturday dt then 2 else 1));
        self[in_lieu] = (holiday_name +:+ " (in lieu)"))).

Definition raeknakhwan_dates : list (Z * (Z * Z)) := [
  (1997, (MAY, 13)); (1998, (MAY, 13));
  (2000, (MAY, 15)); (2001, (MAY, 16)); (2002, (MAY, 9));
  (2003, (MAY, 8)); (2004, (MAY, 7)); (2005, (MAY, 11));
  (2006, (MAY, 11)); (2007, (MAY, 10)); (2008, (MAY, 9));
  (2009, (MAY, 11)); (2010, (MAY, 10)); (2011, (MAY, 13));
  (2012, (MAY, 9)); (2013, (MAY, 13)); (2014, (MAY, 9));
  (2015, (MAY, 13)); (2016, (MAY, 9)); (2017, (MAY, 12));
  (2018, (MAY, 14)); (2019, (MAY, 9)); (2020, (MAY, 11));
  (2021, (MAY, 13)); (2022, (MAY, 17)); (2023, (MAY, 11))
].

(** [raeknakhwan_dates[year]] when [year in raeknakhwan_dates] *)
Fixpoint lookup_year {V} (t : list (Z * V)) (year : Z) : option V :=
  match t with
  | [] => None
  | (y, v) :: t => if y =? year then Some v else lookup_year t year
  end.

Section populate.
Variable thls : _ThaiLuniSolar.
Variable observed : bool.
Variable year : Z.

(** [_add_with_observed(date(year, month, day), holiday_name)] *)
Let add (month day : Z) (holiday_name : string) : M unit :=
  dt ← lift (date_ year month day);
  _add_with_observed observed year dt holiday_name.

(** [self[date(year, month, day)] = holiday_name] *)
Let put (month day : Z) (holiday_name : string) : M unit :=
  dt ← lift (date_ year month day);
  self[dt] = holiday_name.

(** The rules of [_populate] that follow [super()._populate(year)]. *)
Definition rules : M unit :=
  (* New Year's Day *)
  add JAN 1 "New Year's Day";;
  (* New Year's Eve (in lieu) *)
  when (observed && ((1995 <=? year) && (year <=? 1997) || (2001 <=? year)))
    (eve ← lift (date_ (year - 1) DEC 31);
     if _is_saturday eve then put JAN 3 "New Year's Eve (in lieu)"
     else if _is_sunday eve then put JAN 2 "New Year's Eve (in lieu)"
     else mret tt);;
  (* Chakri Memorial Day *)
  add APR 6 "Chakri Memorial Day";;
  (* Songkran Festival *)
  (if (1948 <=? year) && (year <=? 1953) then
     put APR 13 "Songkran Festival";;
     put APR 14 "Songkran Festival";;
     put APR 15 "Songkran Festival"
   else if (1957 <=? year) && (year <=? 1988) then
     add APR 13 "Songkran Festival"
   else if (1989 <=? year) && (year <=? 1997) then
     put APR 12 "Songkran Festival";;
     put APR 13 "Songkran Festival";;
     put APR 14 "Songkran Festival"
   else if (1998 <=? year) && negb (year =? 2020) then
     put APR 13 "Songkran Festival";;
     put APR 14 "Songkran Festival";;
     put APR 15 "Songkran Festival"
   else mret tt);;
  (* Songkran Festival (in lieu) *)
  when (observed && ((1995 <=? year) && (year <=? 1997) || (2001 <=? year)))
    (dt ← lift (if 2001 <=? year then date_ year APR 15
                else date_ year APR 14);
     if _is_saturday dt then
       d ← lift (add_days dt 2); self[d] = "Songkran Festival (in lieu)"
     else if _is_sunday dt then
       d ← lift (add_days dt 1); self[d] = "Songkran Festival (in lieu)"
     else if _is_monday dt then
       d ← lift (add_days dt 1); self[d] = "Songkran Festival (in lieu)"
     else mret tt);;
  (* National Labour day *)
  when (1974 <=? year) (add MAY 1 "National Labour Day");;
  (* National Day (24 June) *)
  when (year <=? 1959) (add JUN 24 "National Day");;
  (* Coronation Day *)
  (if (1958 <=? year) && (year <=? 2016) then add MAY 5 "Coronation Day"
   else if 2020 <=? year then add MAY 4 "Coronation Day"
   else mret tt);;
  (* HM Queen Suthida's Birthday *)
  when (2019 <=? year) (add JUN 3 "HM Queen Suthida's Birthday");;
  (* HM King Maha Vajiralongkorn's Birthday *)
  when (2017 <=? year)
    (add JUL 28 "HM King Maha Vajiralongkorn's Birthday");;
  (* HM Queen Sirikit the Queen Mother's Birthday *)
  (if (1976 <=? year) && (year <=? 2016) then
     add AUG 12 "HM Queen Sirikit's Birthday"
   else if 2017 <=? year then
     add AUG 12 "HM Queen Sirikit The Queen Mother's Birthday"
   else mret tt);;
  (* National Mother's Day *)
  (if (1950 <=? year) && (year <=? 1957) then
     add APR 15 "National Mother's Day"
   else if 1976 <=? year then add AUG 12 "National Mother's Day"
   else mret tt);;
  (* Anniversary for the Death of King Bhumibol Adulyadej *)
  when (2017 <=? year)
    (add OCT 13 "HM King Bhumibol Adulyadej Memorial Day");;
  (* Chulalongkorn Memorial Day *)
  add OCT 23 "Chulalongkorn Memorial Day";;
  (* HM King Bhumibol Adulyadej's Birthday Anniversary *)
  when (1960 <=? year)
    (add DEC 5 "HM King Bhumibol Adulyadej's Birthday");;
  (* National Father's Day *)
  when (1980 <=? year) (add DEC 5 "National Father's Day");;
  (* Constitution Day *)
  add DEC 10 "Constitution Day";;
  (* New Year's Eve *)
  put DEC 31 "New Year's Eve";;
  (* Makha Bucha *)
  match makha_bucha_date thls year with
  | Some makha_bucha_date =>
      _add_with_observed observed year makha_bucha_date "Makha Bucha"
  | None => mret tt
  end;;
  (* Visakha Bucha *)
  match visakha_bucha_date thls year with
  | Some visakha_bucha_date =>
      _add_with_observed observed year visakha_bucha_date "Visakha Bucha"
  | None => mret tt
  end;;
  (* Asarnha Bucha *)
  match asarnha_bucha_date thls year with
  | Some asarnha_bucha_date => self[asarnha_bucha_date] = "Asarnha Bucha"
  | None => mret tt
  end;;
  (* Buddhist Lent Day *)
  match khao_phansa_date thls year with
  | Some khao_phansa_date => self[khao_phansa_date] = "Buddhist Lent Day"
  | None => mret tt
  end;;
  (* Asarnha Bucha/Buddhist Lent Day (in lieu) *)
  match asarnha_bucha_date thls year with
  | Some asarnha_bucha_date =>
      when (observed && in_lieu_years year)
        (if _is_friday asarnha_bucha_date then
           d ← lift (add_days asarnha_bucha_date 3);
           self[d] = "Buddhist Lent Day (in lieu)"
         else if _is_weekend asarnha_bucha_date then
           d ← lift (add_days asarnha_bucha_date 2);
           self[d] = "Asarnha Bucha (in lieu)"
         else mret tt)
  | None => mret tt
  end;;
  (* Royal Ploughing Ceremony *)
  match lookup_year raeknakhwan_dates year with
  | Some (month, day) => add month day "Royal Ploughing Ceremony"
  | None =>
      when ((1957 <=? year) && (year <=? 1996))
        (add MAY 13 "Royal Ploughing Ceremony")
  end.

Definition _populate : M unit :=
  if year <=? 1940 then mret tt
  else HolidayBase._populate special_holidays year;; rules.

End populate.

End Thailand.

(** * The vocabulary of the properties *)

(** The years of Python's calendar. *)
Definition valid_year (y : Z) : Prop := MINYEAR <= y <= MAXYEAR.

(** A date object: an ordinal of the calendar. *)
Definition valid_date (d : date) : Prop := 0 < d <= _MAXORDINAL.

Definition leap_day (y : Z) : Z := if _is_leap y then 1 else 0.

(** No entry of the map carries the label. *)
Definition no_label (l : string) (m : gmap Z string) : Prop :=
  ∀ d, m !! d ≠ Some l.

(** A population never reads the map it fills: it either raises or lays a
    fixed map of writes over the map it started from.  [writes W c a]
    says that [c] finishes with result [a] and that every entry it leaves
    satisfies [W]. *)
Definition writes {A} (W : Z → string → Prop) (c : M A) (a : A) : Prop :=
  ∃ w : gmap Z string, (∀ m, c m = Ok (a, w ∪ m)) ∧ map_Forall W w.

(** [settles k v c]: [c] finishes and leaves the label [v] at the date
    [k], whatever the map it started from. *)
Definition settles (k : Z) (v : string) (c : M unit) : Prop :=
  ∃ w : gmap Z string, (∀ m, c m = Ok (tt, w ∪ m)) ∧ w !! k = Some v.

(** The eras of Thailand's automatic in-lieu days, as the rule states
    them. *)
Definition in_lieu_era (year : Z) : Prop :=
  1961 <= year <= 1973 ∨ 1995 <= year <= 1997 ∨ 2001 <= year.

(** The day in lieu of a weekend date: two days after a Saturday, one
    day after a Sunday. *)
Definition in_lieu_date (dt : date) : date :=
  dt + (if HolidayBase._is_saturday dt then 2 else 1).

(** What is assumed of the lunisolar lookups where a property depends on
    them: the feast dates of a year lie between two dates. *)
Definition feasts_between (thls : _ThaiLuniSolar) (year lo hi : Z) : Prop :=
  ∀ d, makha_bucha_date thls year = Some d
       ∨ visakha_bucha_date thls year = Some d
       ∨ asarnha_bucha_date thls year = Some d
       ∨ khao_phansa_date thls year = Some d →
       lo <= d <= hi.

(** A check of all the years from [y] on, [n] of them. *)
Fixpoint all_from (n : nat) (y : Z) (p : Z → bool) : bool :=
  match n with
  | O => true
  | S n => p y && all_from n (y + 1) p
  end.

(** Easter of the year exists, is a Sunday and lies between March 22 and
    April 25; January 1 of the year is read back as January 1. *)
Definition calendar_check (y : Z) : bool :=
  match easter y with
  | Ok e =>
      (weekday e =? SU)
      && (_ymd2ord y MAR 22 <=? e) && (e <=? _ymd2ord y APR 25)
      && (datetime.month (_ymd2ord y JAN 1) =? JAN)
      && (datetime.day (_ymd2ord y JAN 1) =? 1)
  | Raise _ => false
  end.

(** Every entry of a special-holiday table satisfies [p]. *)
Definition table_forall (p : Z → Z → Z → string → bool)
    (t : HolidayBase.special_table) : bool :=
  forallb (λ ye, forallb (λ e, p ye.1 e.1.1 e.1.2 e.2) ye.2) t.

(** A month and a day that exist in every year. *)
Definition month_day_ok (month day : Z) : bool :=
  (1 <=? month) && (month <=? 12) && (1 <=? day)
  && (day <=? _DAYS_IN_MONTH month).

(** The labels of Thailand's four lunisolar holidays. *)
Definition lunisolar_label (name : string) : bool :=
  existsb (String.eqb name)
    ["Makha Bucha"; "Visakha Bucha"; "Asarnha Bucha"; "Buddhist Lent Day"].

(** The label of a lunisolar holiday whose lookup is absent for the
    year. *)
Definition absent_feast_label (thls : _ThaiLuniSolar) (year : Z)
    (name : string) : Prop :=
  (makha_bucha_date thls year = None ∧ name = "Makha Bucha")
  ∨ (visakha_bucha_date thls year = None ∧ name = "Visakha Bucha")
  ∨ (asarnha_bucha_date thls year = None ∧ name = "Asarnha Bucha")
  ∨ (khao_phansa_date thls year = None ∧ name = "Buddhist Lent Day").

(** Lookups for the examples: no feast at all, and the feasts of 2011
    (February 18, May 17, July 15 and July 16). *)
Definition no_feasts : _ThaiLuniSolar := {|
  makha_bucha_date := λ _, None;
  visakha_bucha_date := λ _, None;
  asarnha_bucha_date := λ _, None;
  khao_phansa_date := λ _, None
|}.

Definition feasts_2011 : _ThaiLuniSolar := {|
  makha_bucha_date := λ y, if y =? 2011 then Some (_ymd2ord 2011 FEB 18) else None;
  visakha_bucha_date := λ y, if y =? 2011 then Some (_ymd2ord 2011 MAY 17) else None;
  asarnha_bucha_date := λ y, if y =? 2011 then Some (_ymd2ord 2011 JUL 15) else None;
  khao_phansa_date := λ y, if y =? 2011 then Some (_ymd2ord 2011 JUL 16) else None
|}.

(** Checks of the map of one concrete year, by evaluation. *)
Definition run_check (c : M unit) (p : gmap Z string → bool) : bool :=
  match run c with
  | Ok m => p m
  | Raise _ => false
  end.

Definition label_at (d : date) (l : string) (m : gmap Z string) : bool :=
  match m !! d with
  | Some l' => String.eqb l' l
  | None => false
  end.

Definition absent_at (d : date) (m : gmap Z string) : bool :=
  match m !! d with
  | Some _ => false
  | None => true
  end.

Definition no_label_in (l : string) (m : gmap Z string) : bool :=
  forallb (λ kv, negb (String.eqb kv.2 l)) (map_to_list m).

(** The date and the label of Washington's Birthday before 1971. *)
Definition washington_date (year : Z) : date :=
  let wash := _ymd2ord year FEB 22 in
  if isoweekday wash =? 6 then wash - 1
  else if isoweekday wash =? 7 then wash + 1 else wash.

Definition washington_label (year : Z) : string :=
  let wash := _ymd2ord year FEB 22 in
  if (isoweekday wash =? 6) || (isoweekday wash =? 7)
  then "Washington's Birthday" +:+ " (Observed)"
  else "Washington's Birthday".

(** The entry is dated within the year. *)
Definition dated_in (year : Z) : Z → string → Prop :=
  λ d _, datetime.year d = year.

(** ** The vocabulary of the further properties *)

(** The date is a Monday to a Friday. *)
Definition on_weekday (d : date) : Prop := weekday d <= FR.

(** [d + relativedelta(weekday=wd(n))] for a positive [n], as an ordinal:
    the [n]-th day [wd] on or after [d]. *)
Definition nth_weekday (wd n : Z) (d : date) : date :=
  d + ((n - 1) * 7 + (7 - weekday d + wd) mod 7).

(** [d + relativedelta(weekday=wd(-1))], as an ordinal: the last day [wd]
    on or before [d]. *)
Definition last_weekday (wd : Z) (d : date) : date :=
  d + - ((- -1 - 1) * 7 + (weekday d - wd) mod 7).

(** The date [_get_observed] gives, and the label [_set_observed_date]
    writes there. *)
Definition observed_date (d : date) : date :=
  if isoweekday d =? 6 then d - 1
  else if isoweekday d =? 7 then d + 1 else d.

Definition observed_label (d : date) (name : string) : string :=
  if (isoweekday d =? 6) || (isoweekday d =? 7)
  then name +:+ " (Observed)" else name.


(** The label ends in the given suffix. *)
Fixpoint ends_with (suffix s : string) : bool :=
  String.eqb suffix s
  || match s with
     | EmptyString => false
     | String _ s' => ends_with suffix s'
     end.

(** The label of a day off that Hungary adds beside a holiday. *)
Definition day_off_label (l : string) : bool := ends_with " pihenőnap" l.

(** The label of a day in lieu. *)
Definition in_lieu_label (l : string) : bool := ends_with " (in lieu)" l.

(** The years in which the rules of Thailand give a label, for the
    holidays that the rules bound in time; the other labels are free. *)
Definition thailand_era (name : string) (year : Z) : bool :=
  if String.eqb name "Songkran Festival" then
    (1948 <=? year) && (year <=? 1953)
    || (1957 <=? year) && negb (year =? 2020)
  else if String.eqb name "National Labour Day" then 1974 <=? year
  else if String.eqb name "National Day" then year <=? 1959
  else if String.eqb name "Coronation Day" then
    (1958 <=? year) && (year <=? 2016) || (2020 <=? year)
  else if String.eqb name "HM Queen Suthida's Birthday" then 2019 <=? year
  else if String.eqb name "HM King Maha Vajiralongkorn's Birthday" then
    2017 <=? year
  else if String.eqb name "HM Queen Sirikit's Birthday" then
    (1976 <=? year) && (year <=? 2016)
  else if String.eqb name "HM Queen Sirikit The Queen Mother's Birthday" then
    2017 <=? year
  else if String.eqb name "National Mother's Day" then
    (1950 <=? year) && (year <=? 1957) || (1976 <=? year)
  else if String.eqb name "HM King Bhumibol Adulyadej Memorial Day" then
    2017 <=? year
  else if String.eqb name "HM King Bhumibol Adulyadej's Birthday" then
    1960 <=? year
  else if String.eqb name "National Father's Day" then 1980 <=? year
  else if String.eqb name "Royal Ploughing Ceremony" then
    (1957 <=? year) && (year <=? 2023) && negb (year =? 1999)
  else if String.eqb name "New Year's Eve (in lieu)" then
    (1995 <=? year) && (year <=? 1997) || (2001 <=? year)
  else if in_lieu_label name then
    (1961 <=? year) && (year <=? 1973)
    || (1995 <=? year) && (year <=? 1997) || (2001 <=? year)
  else true.

(** The lunisolar feasts of a year are date objects, their days in lieu
    included, and none of them falls from [lo] to [hi]. *)
Definition feasts_outside (thls : _ThaiLuniSolar) (year lo hi : Z) : Prop :=
  ∀ d, makha_bucha_date thls year = Some d
       ∨ visakha_bucha_date thls year = Some d
       ∨ asarnha_bucha_date thls year = Some d
       ∨ khao_phansa_date thls year = Some d →
       0 < d <= _MAXORDINAL - 3 ∧ (d < lo ∨ hi < d).

(** The labels of the birthday of Queen Sirikit, with their days in
    lieu. *)
Definition queen_sirikit_label (name : string) : bool :=
  existsb (String.eqb name)
    ["HM Queen Sirikit's Birthday";
     "HM Queen Sirikit's Birthday (in lieu)";
     "HM Queen Sirikit The Queen Mother's Birthday";
     "HM Queen Sirikit The Queen Mother's Birthday (in lieu)"].

(** * Proofs *)

(** ** The calendar *)

(** The embedding on known dates: 2023-01-01 is ordinal 738521 and a
    Sunday, February 29 exists in leap years only, the calendar ends on
    9999-12-31, and Easter fell on April 16 in 2017 and April 9 in 2023. *)
Example new_year_2023 :
  date_ 2023 JAN 1 = Ok 738521 ∧ weekday 738521 = SU ∧ isoweekday 738521 = 7
  ∧ _ord2ymd 738521 = (2023, JAN, 1).
Proof. repeat split. Qed.

Example leap_days :
  date_ 2023 FEB 29 = Raise ValueError
  ∧ (d ← date_ 2024 FEB 29; Ok (_ord2ymd d)) = Ok (2024, FEB, 29)
  ∧ date_ 1900 FEB 29 = Raise ValueError
  ∧ (d ← date_ 2000 FEB 29; Ok (_ord2ymd d)) = Ok (2000, FEB, 29).
Proof. repeat split. Qed.

Example calendar_ends :
  date_ 9999 DEC 31 = Ok _MAXORDINAL ∧ date_ 10000 JAN 1 = Raise ValueError
  ∧ date_ 0 JAN 1 = Raise ValueError
  ∧ add_days _MAXORDINAL 1 = Raise OverflowError
  ∧ weekday _MAXORDINAL = FR ∧ weekday 1 = MO.
Proof. repeat split. Qed.

Example easter_2017_2023 :
  (e ← easter 2017; Ok (_ord2ymd e)) = Ok (2017, APR, 16)
  ∧ (e ← easter 2023; Ok (_ord2ymd e)) = Ok (2023, APR, 9).
Proof. repeat split. Qed.

(** The weekday-relative deltas: the last Monday of May 2023 is the 29th,
    the fourth Thursday of November 2023 the 23rd. *)
Example relative_weekdays_2023 :
  (d ← date_ 2023 MAY 31; d ← rd_weekday MO (-1) d; Ok (_ord2ymd d))
  = Ok (2023, MAY, 29)
  ∧ (d ← date_ 2023 NOV 1; d ← rd_weekday TH 4 d; Ok (_ord2ymd d))
    = Ok (2023, NOV, 23).
Proof. repeat split. Qed.

Section calendar.

Lemma _is_leap_spec y :
  _is_leap y = true ↔ y mod 4 = 0 ∧ (y mod 100 ≠ 0 ∨ y mod 400 = 0).
Proof.
  unfold _is_leap.
  rewrite andb_true_iff, orb_true_iff, negb_true_iff, !Z.eqb_eq, Z.eqb_neq.
  tauto.
Qed.

Lemma days_before_next_year y :
  _days_before_year (y + 1) = _days_before_year y + 365 + leap_day y.
Proof.
  unfold leap_day.
  destruct (_is_leap y) eqn:E.
  - apply _is_leap_spec in E. unfold _days_before_year.
    Z.div_mod_to_equations. lia.
  - assert (H : ¬ (y mod 4 = 0 ∧ (y mod 100 ≠ 0 ∨ y mod 400 = 0))).
    { rewrite <- _is_leap_spec, E. discriminate. }
    unfold _days_before_year. Z.div_mod_to_equations. lia.
Qed.

Lemma days_before_year_bounds y :
  valid_year y →
  0 <= _days_before_year y ∧ _days_before_year (y + 1) <= _MAXORDINAL.
Proof.
  unfold valid_year, MINYEAR, MAXYEAR, _MAXORDINAL, _days_before_year.
  intros. Z.div_mod_to_equations. lia.
Qed.

Lemma year_of_ordinal y d :
  1 <= y →
  _days_before_year y < d <= _days_before_year (y + 1) →
  datetime.year d = y.
Proof.
  unfold datetime.year, _ord2ymd, _days_before_year, _DI400Y, _DI100Y, _DI4Y.
  intros Hy Hd. cbv zeta.
  repeat match goal with
         | |- context [if ?b then _ else _] => destruct b eqn:?
         end; cbn [fst snd];
    repeat match goal with
           | H : (_ || _) = true |- _ => apply orb_true_iff in H
           | H : (_ || _) = false |- _ => apply orb_false_iff in H; destruct H
           | H : (_ =? _) = true |- _ => apply Z.eqb_eq in H
           | H : (_ =? _) = false |- _ => apply Z.eqb_neq in H
           end;
    Z.div_mod_to_equations; lia.
Qed.

(** A date of year [y] lies between the ends of the years around it. *)
Lemma ymd2ord_in_year y m d :
  1 <= m <= 12 → 1 <= d <= _days_in_month y m →
  _days_before_year y < _ymd2ord y m d <= _days_before_year (y + 1).
Proof.
  intros Hm Hd. rewrite days_before_next_year.
  unfold _ymd2ord, _days_before_month, _days_in_month, leap_day in *.
  assert (Hc : m = 1 ∨ m = 2 ∨ m = 3 ∨ m = 4 ∨ m = 5 ∨ m = 6 ∨ m = 7
               ∨ m = 8 ∨ m = 9 ∨ m = 10 ∨ m = 11 ∨ m = 12) by lia.
  destruct (_is_leap y);
    repeat (destruct Hc as [-> | Hc]); try subst m; cbn in *; lia.
Qed.

Lemma days_in_month_ge y m : _DAYS_IN_MONTH m <= _days_in_month y m.
Proof.
  unfold _days_in_month.
  destruct ((m =? 2) && _is_leap y) eqn:E; [| lia].
  apply andb_true_iff in E as [->%Z.eqb_eq _]. cbn. lia.
Qed.

(** The constructor succeeds on every month and day that exist in all
    years. *)
Lemma date_ok y m d :
  valid_year y → 1 <= m <= 12 → 1 <= d <= _DAYS_IN_MONTH m →
  date_ y m d = Ok (_ymd2ord y m d).
Proof.
  unfold valid_year, date_. intros Hy Hm Hd.
  pose proof (days_in_month_ge y m).
  replace (_ <=? _days_in_month y m) with true by (symmetry; apply Z.leb_le; lia).
  repeat match goal with
         | |- context [?a <=? ?b] =>
             replace (a <=? b) with true by (symmetry; apply Z.leb_le; lia)
         end.
  reflexivity.
Qed.

Lemma ymd2ord_valid y m d :
  valid_year y → 1 <= m <= 12 → 1 <= d <= _DAYS_IN_MONTH m →
  0 < _ymd2ord y m d <= _MAXORDINAL.
Proof.
  intros Hy Hm Hd.
  pose proof (days_in_month_ge y m).
  pose proof (ymd2ord_in_year y m d Hm ltac:(lia)).
  pose proof (days_before_year_bounds y Hy). lia.
Qed.

Lemma year_ymd2ord y m d :
  valid_year y → 1 <= m <= 12 → 1 <= d <= _DAYS_IN_MONTH m →
  datetime.year (_ymd2ord y m d) = y.
Proof.
  intros Hy Hm Hd. pose proof (days_in_month_ge y m).
  apply year_of_ordinal; [unfold valid_year, MINYEAR in Hy; lia |].
  apply ymd2ord_in_year; lia.
Qed.

Lemma add_days_ok d n :
  0 < d + n <= _MAXORDINAL → add_days d n = Ok (d + n).
Proof.
  unfold add_days. intros [H1 H2].
  apply Z.ltb_lt in H1. apply Z.leb_le in H2. cbv zeta. by rewrite H1, H2.
Qed.

(** 9999-12-31 is a Friday: a workday in lieu of a weekend date never
    leaves the calendar. *)
Lemma weekend_shift_valid d :
  0 < d <= _MAXORDINAL → HolidayBase._is_weekend d = true →
  0 < d + (if HolidayBase._is_saturday d then 2 else 1) <= _MAXORDINAL
  ∧ weekday (d + (if HolidayBase._is_saturday d then 2 else 1)) = MO.
Proof.
  unfold HolidayBase._is_weekend, HolidayBase._is_saturday,
    HolidayBase._is_sunday, weekday, _MAXORDINAL.
  intros Hd Hw.
  destruct ((d + 6) mod 7 =? 5) eqn:E.
  - apply Z.eqb_eq in E. Z.div_mod_to_equations. lia.
  - cbn in Hw. apply Z.eqb_eq in Hw. Z.div_mod_to_equations. lia.
Qed.

End calendar.

(** ** Facts checked year by year *)

Section year_by_year.

Lemma all_from_spec n : ∀ y0 p, all_from n y0 p = true →
  ∀ y, y0 <= y < y0 + Z.of_nat n → p y = true.
Proof.
  induction n as [| n IH]; intros y0 p H y Hy; [lia |].
  cbn [all_from] in H. apply andb_true_iff in H as [H1 H2].
  destruct (decide (y = y0)) as [-> | Hne]; [done |].
  apply (IH _ _ H2). lia.
Qed.

Lemma calendar_all : all_from (Z.to_nat 9999) 1 calendar_check = true.
Proof. vm_cast_no_check (eq_refl true). Qed.

Lemma calendar_year y : valid_year y → calendar_check y = true.
Proof.
  intros Hy. apply (all_from_spec _ _ _ calendar_all).
  unfold valid_year, MINYEAR, MAXYEAR in Hy. lia.
Qed.

(** Easter is a Sunday between March 22 and April 25. *)
Lemma easter_facts y :
  valid_year y →
  ∃ e, easter y = Ok e ∧ weekday e = SU
       ∧ _ymd2ord y MAR 22 <= e <= _ymd2ord y APR 25.
Proof.
  intros Hy. pose proof (calendar_year y Hy) as H.
  unfold calendar_check in H. destruct (easter y) as [e |]; [| done].
  exists e. rewrite !andb_true_iff, !Z.leb_le, !Z.eqb_eq in H. tauto.
Qed.

Lemma new_year_month_day y :
  valid_year y →
  datetime.month (_ymd2ord y JAN 1) = JAN ∧ datetime.day (_ymd2ord y JAN 1) = 1.
Proof.
  intros Hy. pose proof (calendar_year y Hy) as H.
  unfold calendar_check in H. destruct (easter y) as [e |]; [| done].
  rewrite !andb_true_iff, !Z.eqb_eq in H. tauto.
Qed.

Lemma ymd2ord_unfold y m d :
  _ymd2ord y m d
  = _days_before_year y + _DAYS_BEFORE_MONTH m + d
    + (if 2 <? m then leap_day y else 0).
Proof.
  unfold _ymd2ord, _days_before_month, leap_day.
  destruct (2 <? m), (_is_leap y); cbn; lia.
Qed.

End year_by_year.

(** ** Populations as sets of writes

    A population never reads the map it fills: it either raises or lays a
    fixed map of writes over the map it started from.  [writes W c a]
    says that [c] finishes with result [a] and that every entry it leaves
    satisfies [W]. *)

Section writes.

Context (W : Z → string → Prop).

Lemma writes_ret {A} (a : A) : writes W (mret a) a.
Proof.
  exists ∅. split; [| apply map_Forall_empty].
  intros m. by rewrite (left_id_L ∅ (∪)).
Qed.

Lemma writes_lift {A} (r : result A) a : r = Ok a → writes W (lift r) a.
Proof.
  intros ->. exists ∅. split; [| apply map_Forall_empty].
  intros m. unfold lift. by rewrite (left_id_L ∅ (∪)).
Qed.

Lemma writes_setitem d l : W d l → writes W (HolidayBase.setitem d l) tt.
Proof.
  intros H. exists {[d := l]}. split; [| by apply map_Forall_singleton].
  intros m. unfold HolidayBase.setitem. by rewrite insert_union_singleton_l.
Qed.

Lemma writes_bind {A B} (c : M A) (f : A → M B) a b :
  writes W c a → writes W (f a) b → writes W (c ≫= f) b.
Proof.
  intros (w1 & H1 & F1) (w2 & H2 & F2). exists (w2 ∪ w1). split.
  - intros m. unfold mbind, M_bind. rewrite H1, H2.
    by rewrite (assoc_L (∪)).
  - intros d l [? | [_ ?]]%lookup_union_Some_raw; eauto.
Qed.

Lemma writes_when b c :
  (b = true → writes W c tt) → writes W (when b c) tt.
Proof. destruct b; cbn; auto using writes_ret. Qed.

Lemma writes_weaken {A} (W' : Z → string → Prop) (c : M A) a :
  (∀ d l, W' d l → W d l) → writes W' c a → writes W c a.
Proof.
  intros HW (w & H & F). exists w. split; [done |].
  intros d l Hd. eauto.
Qed.

(** What a population that [writes] leaves at a date. *)
Lemma writes_lookup {A} (c : M A) a m :
  writes W c a →
  ∃ m', c m = Ok (a, m')
        ∧ ∀ d, m' !! d = m !! d ∨ ∃ l, m' !! d = Some l ∧ W d l.
Proof.
  intros (w & H & F). exists (w ∪ m). split; [done |].
  intros d. destruct (w !! d) as [l |] eqn:E.
  - right. exists l. split; [| by eapply F].
    by apply lookup_union_Some_l.
  - left. by apply lookup_union_r.
Qed.

End writes.

Section settles.

Context (k : Z) (v : string).

Lemma settles_setitem : settles k v (HolidayBase.setitem k v).
Proof.
  exists {[k := v]}. split; [| apply lookup_singleton_eq].
  intros m. unfold HolidayBase.setitem. by rewrite insert_union_singleton_l.
Qed.

(** A statement that finishes, before the one that settles the date. *)
Lemma settles_skip {A} (c : M A) (f : A → M unit) a :
  writes (λ _ _, True) c a → settles k v (f a) → settles k v (c ≫= f).
Proof.
  intros (w1 & H1 & _) (w2 & H2 & L). exists (w2 ∪ w1). split.
  - intros m. unfold mbind, M_bind. rewrite H1, H2.
    by rewrite (assoc_L (∪)).
  - by apply lookup_union_Some_l.
Qed.

(** The statements after it leave the date alone. *)
Lemma settles_then (c : M unit) (f : unit → M unit) :
  settles k v c → writes (λ d _, d ≠ k) (f tt) tt → settles k v (c ≫= f).
Proof.
  intros (w1 & H1 & L) (w2 & H2 & F). exists (w2 ∪ w1). split.
  - intros m. unfold mbind, M_bind. rewrite H1, H2.
    by rewrite (assoc_L (∪)).
  - rewrite lookup_union_r; [done |].
    destruct (w2 !! k) as [l |] eqn:E; [| done].
    by destruct (F k l E).
Qed.

Lemma settles_when b c : b = true → settles k v c → settles k v (when b c).
Proof. by intros ->. Qed.

Lemma settles_at c m :
  settles k v c → ∃ m', c m = Ok (tt, m') ∧ m' !! k = Some v.
Proof.
  intros (w & H & L). exists (w ∪ m). split; [done |].
  by apply lookup_union_Some_l.
Qed.

End settles.

Section runs.

Lemma writes_run W (c : M unit) :
  writes W c tt → ∃ m, run c = Ok m ∧ map_Forall W m.
Proof.
  intros (w & H & F). exists w. split; [| done].
  unfold run. by rewrite H, (right_id_L ∅ (∪)).
Qed.

Lemma settles_run k v (c : M unit) :
  settles k v c → ∃ m, run c = Ok m ∧ m !! k = Some v.
Proof.
  intros (m & H & L)%(settles_at _ _ _ ∅). exists m.
  unfold run. by rewrite H.
Qed.

Lemma map_Forall_no_label (W : Z → string → Prop) l (m : gmap Z string) :
  map_Forall W m → (∀ d, ¬ W d l) → no_label l m.
Proof. intros F H d E. exact (H d (F d l E)). Qed.

Lemma map_Forall_absent (W : Z → string → Prop) d (m : gmap Z string) :
  map_Forall W m → (∀ l, ¬ W d l) → m !! d = None.
Proof.
  intros F H. destruct (m !! d) as [l |] eqn:E; [| done].
  destruct (H l (F d l E)).
Qed.

Lemma rbind_ok {A B} (r : result A) (f : A → result B) a b :
  r = Ok a → f a = Ok b → (r ≫= f) = Ok b.
Proof. by intros -> <-. Qed.

Lemma rd_weekday_forward wd nth d :
  0 < nth →
  rd_weekday wd nth d
  = add_days d ((nth - 1) * 7 + (7 - weekday d + wd) mod 7).
Proof.
  intros H. unfold rd_weekday. cbv zeta.
  replace (0 <? nth) with true by (symmetry; apply Z.ltb_lt; lia).
  by rewrite Z.abs_eq by lia.
Qed.

Lemma rd_weekday_backward wd nth d :
  nth < 0 →
  rd_weekday wd nth d
  = add_days d (- ((- nth - 1) * 7 + (weekday d - wd) mod 7)).
Proof.
  intros H. unfold rd_weekday. cbv zeta.
  replace (0 <? nth) with false by (symmetry; apply Z.ltb_ge; lia).
  rewrite Z.abs_neq by lia. f_equal. lia.
Qed.

End runs.

(** ** The special-holiday table *)

Section special.
Import HolidayBase.

Lemma get_forall p t y :
  table_forall p t = true →
  Forall (λ e, p y e.1.1 e.1.2 e.2 = true) (get t y).
Proof.
  unfold table_forall. induction t as [| [y0 es] t IH]; cbn [get forallb].
  - constructor.
  - intros [H1 H2]%andb_true_iff. destruct (y0 =? y) eqn:E; [| auto].
    apply Z.eqb_eq in E. subst y0. cbn in H1.
    apply Forall_forall. intros e He.
    rewrite forallb_forall in H1. apply H1. by apply list_elem_of_In.
Qed.

Lemma month_day_ok_spec month day :
  month_day_ok month day = true →
  1 <= month <= 12 ∧ 1 <= day <= _DAYS_IN_MONTH month.
Proof. unfold month_day_ok. lia. Qed.

Lemma writes_add_special W year es :
  valid_year year →
  Forall (λ e, month_day_ok e.1.1 e.1.2 = true
               ∧ W (_ymd2ord year e.1.1 e.1.2) e.2) es →
  writes W (add_special year es) tt.
Proof.
  intros Hy. induction 1 as [| [[month day] name] es [Hmd HW] _ IH];
    cbn [add_special]; [apply writes_ret |].
  cbn in Hmd, HW. apply month_day_ok_spec in Hmd as [Hm Hd].
  eapply writes_bind; [apply writes_lift, date_ok; done |].
  eapply writes_bind; [by apply writes_setitem | done].
Qed.

Lemma writes_populate_special W p t year :
  valid_year year →
  table_forall p t = true →
  (∀ month day name, p year month day name = true →
     month_day_ok month day = true ∧ W (_ymd2ord year month day) name) →
  writes W (HolidayBase._populate t year) tt.
Proof.
  intros Hy Ht Hp. apply writes_add_special; [done |].
  eapply Forall_impl; [apply (get_forall _ _ year Ht) |].
  intros [[month day] name]; cbn. apply Hp.
Qed.

End special.

(** ** The map of one concrete year *)

Section checks.

Lemma run_check_spec c p :
  run_check c p = true → ∃ m, run c = Ok m ∧ p m = true.
Proof.
  unfold run_check. destruct (run c) as [m |]; [| done]. eauto.
Qed.

Lemma label_at_spec d l m : label_at d l m = true → m !! d = Some l.
Proof.
  unfold label_at. destruct (m !! d) as [l' |]; [| done].
  by intros ->%String.eqb_eq.
Qed.

Lemma absent_at_spec d m : absent_at d m = true → m !! d = None.
Proof. unfold absent_at. by destruct (m !! d). Qed.

Lemma no_label_in_spec l m : no_label_in l m = true → no_label l m.
Proof.
  unfold no_label_in. intros H d Hd. rewrite forallb_forall in H.
  apply elem_of_map_to_list, list_elem_of_In, H in Hd. cbn in Hd.
  by rewrite String.eqb_refl in Hd.
Qed.

End checks.

(** ** Thailand: the generic observed path *)

Section thailand_observed.
Import HolidayBase.

Lemma in_lieu_years_spec year :
  Thailand.in_lieu_years year = true ↔ in_lieu_era year.
Proof. unfold Thailand.in_lieu_years, in_lieu_era. lia. Qed.

Lemma add_with_observed_eq observed year dt name m :
  0 < dt <= _MAXORDINAL →
  Thailand._add_with_observed observed year dt name m
  = Ok (tt, if Thailand.in_lieu_years year && (observed && _is_weekend dt)
            then <[in_lieu_date dt := name +:+ " (in lieu)"]> (<[dt := name]> m)
            else <[dt := name]> m).
Proof.
  intros Hdt. unfold Thailand._add_with_observed, mbind, M_bind, setitem, when.
  destruct (Thailand.in_lieu_years year); [| done].
  destruct observed; [| done]. cbn [andb].
  destruct (_is_weekend dt) eqn:Hw; [| done].
  destruct (weekend_shift_valid dt Hdt Hw) as [Hv _].
  unfold lift. by rewrite (add_days_ok _ _ Hv).
Qed.

Lemma writes_add_with_observed W observed year dt name :
  0 < dt <= _MAXORDINAL →
  W dt name →
  (Thailand.in_lieu_years year = true → observed = true →
   _is_weekend dt = true → W (in_lieu_date dt) (name +:+ " (in lieu)")) →
  writes W (Thailand._add_with_observed observed year dt name) tt.
Proof.
  intros Hdt H1 H2. unfold Thailand._add_with_observed.
  eapply writes_bind; [by apply writes_setitem |].
  apply writes_when; intros Hy. apply writes_when; intros [-> Hw]%andb_true_iff.
  destruct (weekend_shift_valid dt Hdt Hw) as [Hv _].
  eapply writes_bind; [apply writes_lift, add_days_ok, Hv |].
  apply writes_setitem. by apply H2.
Qed.

End thailand_observed.

(** ** Hungary: a holiday with its day off *)

Section hungary_day_off.
Import HolidayBase.

(** 0001-01-01 is a Monday and 9999-12-31 a Friday: the day before a
    Tuesday and the day after a Thursday are dates. *)
Lemma tuesday_thursday_valid d :
  valid_date d →
  (weekday d = TU → valid_date (d - 1))
  ∧ (weekday d = TH → valid_date (d + 1)).
Proof.
  unfold valid_date, weekday, _MAXORDINAL. intros Hd.
  split; intros H; Z.div_mod_to_equations; lia.
Qed.

Lemma writes_day_off W observed d desc since before after :
  valid_date d →
  W d desc →
  (observed = true → (weekday d =? TU) = true → before = true →
   negb ((datetime.month d =? JAN) && (datetime.day d =? 1)) = true →
   W (d + -1) (desc +:+ " előtti pihenőnap")) →
  (observed = true → (weekday d =? TH) = true → after = true →
   W (d + 1) (desc +:+ " utáni pihenőnap")) →
  writes W
    (Hungary._add_with_observed_day_off observed d desc since before after) tt.
Proof.
  intros Hd H0 H1 H2. unfold Hungary._add_with_observed_day_off.
  destruct (tuesday_thursday_valid d Hd) as [Vtu Vth].
  eapply writes_bind; [by apply writes_setitem |].
  apply writes_when; intros [-> _]%andb_true_iff.
  destruct ((weekday d =? TU) && before
            && negb ((datetime.month d =? JAN) && (datetime.day d =? 1))) eqn:E1.
  - apply andb_true_iff in E1 as [[Ew Eb]%andb_true_iff En].
    eapply writes_bind.
    + apply writes_lift, add_days_ok. apply Z.eqb_eq in Ew.
      specialize (Vtu Ew). unfold valid_date in Vtu.
      by replace (d + -1) with (d - 1) by lia.
    + apply writes_setitem. auto.
  - destruct ((weekday d =? TH) && after) eqn:E2; [| apply writes_ret].
    apply andb_true_iff in E2 as [Ew Ea].
    eapply writes_bind.
    + apply writes_lift, add_days_ok. apply Z.eqb_eq in Ew. by apply Vth.
    + apply writes_setitem. auto.
Qed.

End hungary_day_off.

(** ** The securities market: observed dates *)

Section usgs_observed.
Import UnitedStatesGovernmentSecurities.

(** The date a holiday is observed on: the Friday before a Saturday,
    the Monday after a Sunday. *)
Lemma get_observed_eq d :
  valid_date d →
  _get_observed d
  = Ok (if isoweekday d =? 6 then d - 1
        else if isoweekday d =? 7 then d + 1 else d).
Proof.
  unfold valid_date, _get_observed, _MAXORDINAL. intros Hd. cbv zeta.
  destruct (isoweekday d =? 6) eqn:E6; [| destruct (isoweekday d =? 7) eqn:E7]; [| | done].
  - rewrite rd_weekday_backward by lia.
    apply Z.eqb_eq in E6. unfold isoweekday, weekday in *.
    destruct (d mod 7 =? 0) eqn:E0; [lia |].
    rewrite add_days_ok; [f_equal |]; unfold _MAXORDINAL;
      Z.div_mod_to_equations; lia.
  - rewrite rd_weekday_forward by lia.
    apply Z.eqb_eq in E7. unfold isoweekday, weekday in *.
    destruct (d mod 7 =? 0) eqn:E0;
      [apply Z.eqb_eq in E0 | Z.div_mod_to_equations; lia].
    rewrite add_days_ok; [f_equal |]; unfold _MAXORDINAL;
      Z.div_mod_to_equations; lia.
Qed.

Lemma set_observed_date_eq d name m :
  valid_date d →
  _set_observed_date d name m
  = Ok (tt, if isoweekday d =? 6 then <[d - 1 := name +:+ " (Observed)"]> m
            else if isoweekday d =? 7 then <[d + 1 := name +:+ " (Observed)"]> m
            else <[d := name]> m).
Proof.
  intros Hd. unfold _set_observed_date, mbind, M_bind, lift.
  rewrite (get_observed_eq d Hd).
  destruct (isoweekday d =? 6); [| destruct (isoweekday d =? 7)].
  - replace (d - 1 =? d) with false by (symmetry; apply Z.eqb_neq; lia). done.
  - replace (d + 1 =? d) with false by (symmetry; apply Z.eqb_neq; lia). done.
  - by rewrite Z.eqb_refl.
Qed.

Lemma writes_set_observed_date W d name :
  valid_date d →
  ((isoweekday d =? 6) = true → W (d - 1) (name +:+ " (Observed)")) →
  ((isoweekday d =? 6) = false → (isoweekday d =? 7) = true →
   W (d + 1) (name +:+ " (Observed)")) →
  ((isoweekday d =? 6) = false → (isoweekday d =? 7) = false → W d name) →
  writes W (_set_observed_date d name) tt.
Proof.
  intros Hd H6 H7 H0.
  destruct (isoweekday d =? 6) eqn:E6; [| destruct (isoweekday d =? 7) eqn:E7].
  - exists {[d - 1 := name +:+ " (Observed)"]}.
    split; [| apply map_Forall_singleton; auto].
    intros m. rewrite (set_observed_date_eq _ _ _ Hd), E6.
    by rewrite insert_union_singleton_l.
  - exists {[d + 1 := name +:+ " (Observed)"]}.
    split; [| apply map_Forall_singleton; auto].
    intros m. rewrite (set_observed_date_eq _ _ _ Hd), E6, E7.
    by rewrite insert_union_singleton_l.
  - exists {[d := name]}.
    split; [| apply map_Forall_singleton; auto].
    intros m. rewrite (set_observed_date_eq _ _ _ Hd), E6, E7.
    by rewrite insert_union_singleton_l.
Qed.

Lemma settles_set_observed_date d name :
  valid_date d →
  settles (if isoweekday d =? 6 then d - 1
           else if isoweekday d =? 7 then d + 1 else d)
    (if (isoweekday d =? 6) || (isoweekday d =? 7)
     then name +:+ " (Observed)" else name)
    (_set_observed_date d name).
Proof.
  intros Hd.
  destruct (isoweekday d =? 6) eqn:E6; [| destruct (isoweekday d =? 7) eqn:E7];
    cbn [orb];
    (eexists (<[_ := _]> ∅); split; [| apply lookup_insert_eq]);
    intros m; rewrite (set_observed_date_eq _ _ _ Hd), E6, ?E7;
    by rewrite insert_union_singleton_l, insert_empty.
Qed.

End usgs_observed.

Lemma settles_setitem_eq k v d : d = k → settles k v (HolidayBase.setitem d v).
Proof. intros ->. apply settles_setitem. Qed.

(** ** Stepping through a population *)

Lemma lookup_year_elem_of {V} (t : list (Z * V)) y v :
  Thailand.lookup_year t y = Some v → (y, v) ∈ t.
Proof.
  induction t as [| [y' v'] t IH]; cbn; [done |].
  destruct (y' =? y) eqn:E; [| by right; auto].
  apply Z.eqb_eq in E. intros [= ->]. subst. by left.
Qed.

Lemma raeknakhwan_dates_may y month day :
  Thailand.lookup_year Thailand.raeknakhwan_dates y = Some (month, day) →
  month = MAY ∧ 7 <= day <= 17.
Proof.
  intros H%lookup_year_elem_of.
  assert (F : Forall (λ e, e.2.1 = MAY ∧ 7 <= e.2.2 <= 17)
                Thailand.raeknakhwan_dates).
  { unfold Thailand.raeknakhwan_dates. repeat constructor; cbn; lia. }
  rewrite Forall_forall in F. apply (F _ H).
Qed.

(** Boolean path conditions, as arithmetic. *)
Ltac bool_hyps :=
  repeat match goal with
    | H : (_ && _) = true |- _ => apply andb_true_iff in H; destruct H
    | H : (_ || _) = false |- _ => apply orb_false_iff in H; destruct H
    | H : (_ && _) = false |- _ => apply andb_false_iff in H; destruct H
    | H : (_ || _) = true |- _ => apply orb_true_iff in H; destruct H
    | H : negb _ = true |- _ => apply negb_true_iff in H
    | H : negb _ = false |- _ => apply negb_false_iff in H
    | H : (_ <=? _) = true |- _ => apply Z.leb_le in H
    | H : (_ <=? _) = false |- _ => apply Z.leb_gt in H
    | H : (_ <? _) = true |- _ => apply Z.ltb_lt in H
    | H : (_ <? _) = false |- _ => apply Z.ltb_ge in H
    | H : (_ =? _) = true |- _ => apply Z.eqb_eq in H
    | H : (_ =? _) = false |- _ => apply Z.eqb_neq in H
    | H : true = false |- _ => discriminate H
    | H : false = true |- _ => discriminate H
    end.

Ltac use_feasts :=
  repeat match goal with
    | Hf : feasts_between ?t ?y _ _, E : makha_bucha_date ?t ?y = Some ?d |- _ =>
        pose proof (Hf d (or_introl E)); clear E
    | Hf : feasts_between ?t ?y _ _, E : visakha_bucha_date ?t ?y = Some ?d |- _ =>
        pose proof (Hf d (or_intror (or_introl E))); clear E
    | Hf : feasts_between ?t ?y _ _, E : asarnha_bucha_date ?t ?y = Some ?d |- _ =>
        pose proof (Hf d (or_intror (or_intror (or_introl E)))); clear E
    | Hf : feasts_between ?t ?y _ _, E : khao_phansa_date ?t ?y = Some ?d |- _ =>
        pose proof (Hf d (or_intror (or_intror (or_intror E)))); clear E
    end.

Ltac pose_next_year y :=
  lazymatch y with
  | _ + 1 => fail
  | _ =>
      lazymatch goal with
      | _ : _days_before_year (y + 1) = _ |- _ => fail
      | _ => pose proof (days_before_next_year y)
      end
  end.

Ltac unfold_dates :=
  unfold in_lieu_date, valid_date, HolidayBase._is_weekend,
    HolidayBase._is_saturday, HolidayBase._is_sunday, HolidayBase._is_monday,
    HolidayBase._is_friday, isoweekday, weekday in *.

Ltac split_ifs :=
  repeat match goal with
    | H : context [if ?b then _ else _] |- _ => destruct b eqn:?
    | |- context [if ?b then _ else _] => destruct b eqn:?
    end.

(** Arithmetic on the dates of a year: ordinals are linear in the days
    before the year, the leap day and the remainders modulo 7. *)
Ltac date_lia :=
  use_feasts;
  unfold_dates;
  rewrite ?ymd2ord_unfold in *;
  cbn [_DAYS_BEFORE_MONTH Z.ltb Z.compare Pos.compare Pos.compare_cont] in *;
  repeat match goal with
    | |- context [_days_before_year ?y] => pose_next_year y
    | _ : context [_days_before_year ?y] |- _ => pose_next_year y
    end;
  repeat match goal with
    | H : valid_year ?y |- _ =>
        pose proof (days_before_year_bounds y H);
        unfold valid_year, MINYEAR, MAXYEAR in H
    end;
  unfold leap_day, _MAXORDINAL in *;
  bool_hyps; split_ifs; bool_hyps;
  try (exfalso; Z.div_mod_to_equations; lia);
  Z.div_mod_to_equations; lia.

Ltac valid_year_tac :=
  first [ assumption | unfold valid_year, MINYEAR, MAXYEAR in *; lia ].

Ltac label_neq := apply String.eqb_neq; vm_compute; reflexivity.

Ltac lift_ok :=
  lazymatch goal with
  | |- date_ _ _ _ = Ok _ => apply date_ok; [valid_year_tac | lia | cbn; lia]
  | |- easter _ = Ok _ => eassumption
  | |- add_days _ _ = Ok _ => apply add_days_ok
  | |- rd_days _ _ = Ok _ => apply add_days_ok
  | |- rd_weekday _ ?n _ = Ok _ =>
      first [ rewrite rd_weekday_forward by lia
            | rewrite rd_weekday_backward by lia ];
      apply add_days_ok
  | |- mbind _ _ = Ok _ => eapply rbind_ok; [lift_ok | cbv beta; lift_ok]
  end.

Ltac writes_step :=
  cbv beta;
  lazymatch goal with
  | |- writes _ (mret _) _ => apply writes_ret
  | |- writes _ (when _ _) _ => apply writes_when; intros ?
  | |- writes _ (mbind _ (lift (if ?b then _ else _))) _ => destruct b eqn:?
  | |- writes _ (mbind _ _) _ => eapply writes_bind
  | |- writes _ (HolidayBase.setitem _ _) _ => apply writes_setitem
  | |- writes _ (Thailand._add_with_observed _ _ _ _) _ =>
      apply writes_add_with_observed; [| | intros ? ? ?]
  | |- writes _ (Hungary._add_with_observed_day_off _ _ _ _ _ _) _ =>
      apply writes_day_off; [| | intros ? ? ? ? | intros ? ? ?]
  | |- writes _ (UnitedStatesGovernmentSecurities._set_observed_date _ _) _ =>
      apply writes_set_observed_date; [| intros ? | intros ? ? | intros ? ?]
  | |- writes _ (HolidayBase._populate ?t _) _ =>
      apply (writes_populate_special _ (λ _ _ _ _, false));
      [valid_year_tac | reflexivity | discriminate]
  | |- writes _ (lift _) _ => apply writes_lift; lift_ok
  | |- writes _ (if ?b then _ else _) _ => destruct b eqn:?
  | |- writes _ (match Thailand.lookup_year Thailand.raeknakhwan_dates ?y
                 with Some _ => _ | None => _ end) _ =>
      let E := fresh "E" in
      destruct (Thailand.lookup_year Thailand.raeknakhwan_dates y)
        as [[? ?] |] eqn:E;
      [apply raeknakhwan_dates_may in E as [-> ?] |]
  | |- writes _ (match ?o with Some _ => _ | None => _ end) _ =>
      let E := fresh "E" in destruct o as [? |] eqn:E
  end.

(** Walk to the statement that writes the label [lbl]: the statements
    before it only have to finish ([total] proves that), the ones after
    it have to leave the date alone. *)
Ltac settles_nav lbl total :=
  cbv beta;
  lazymatch goal with
  | |- settles _ _ (mbind _ ?c) =>
      lazymatch c with
      | context [lbl] => apply settles_then
      | _ => eapply settles_skip; [total | settles_nav lbl total]
      end
  end.

Ltac finishes := solve [repeat writes_step; first [exact I | date_lia]].

(** ** Thailand: the rules of a year *)

Section thailand.
Import HolidayBase.

Variable thls : _ThaiLuniSolar.
Variable observed : bool.
Variable year : Z.
Hypothesis Hy : valid_year year.

Lemma thailand_special_ok :
  table_forall (λ _ month day name,
                  month_day_ok month day && negb (lunisolar_label name))
    Thailand.special_holidays = true.
Proof. vm_compute. reflexivity. Qed.

Lemma thailand_special_writes W :
  (∀ month day name,
     month_day_ok month day = true → lunisolar_label name = false →
     W (_ymd2ord year month day) name) →
  writes W (HolidayBase._populate Thailand.special_holidays year) tt.
Proof.
  intros HW.
  eapply writes_populate_special; [done | apply thailand_special_ok |].
  intros month day name [H1 H2%negb_true_iff]%andb_true_iff. auto.
Qed.

Lemma thailand_rules_in_year :
  feasts_between thls year (_ymd2ord year JAN 1) (_ymd2ord year DEC 28) →
  writes (dated_in year) (Thailand.rules thls observed year) tt.
Proof.
  intros Hf. cbv beta zeta delta [Thailand.rules].
  repeat writes_step.
  all: try (apply year_of_ordinal; [unfold valid_year, MINYEAR in *; lia |]).
  all: date_lia.
Qed.

Lemma thailand_populate_in_year :
  feasts_between thls year (_ymd2ord year JAN 1) (_ymd2ord year DEC 28) →
  writes (dated_in year)
    (Thailand._populate thls observed year) tt.
Proof.
  intros Hf. unfold Thailand._populate.
  destruct (year <=? 1940); [apply writes_ret |].
  eapply writes_bind; [| by apply thailand_rules_in_year].
  apply thailand_special_writes. intros month day name Hmd _.
  apply month_day_ok_spec in Hmd as [? ?]. by apply year_ymd2ord.
Qed.

Lemma not_absent_feast_label name :
  lunisolar_label name = false → ¬ absent_feast_label thls year name.
Proof.
  intros H [[_ ->] | [[_ ->] | [[_ ->] | [_ ->]]]]; vm_compute in H; discriminate.
Qed.

Ltac feast_label :=
  first
    [ apply not_absent_feast_label; vm_compute; reflexivity
    | intros [[? ?] | [[? ?] | [[? ?] | [? ?]]]]; congruence ].

Lemma thailand_rules_omit_absent_feasts :
  feasts_between thls year 1 (_MAXORDINAL - 3) →
  writes (λ _ name, ¬ absent_feast_label thls year name)
    (Thailand.rules thls observed year) tt.
Proof.
  intros Hf. cbv beta zeta delta [Thailand.rules].
  repeat writes_step.
  all: first [ feast_label | date_lia ].
Qed.

Lemma thailand_populate_omits_absent_feasts :
  1940 < year →
  feasts_between thls year 1 (_MAXORDINAL - 3) →
  writes (λ _ name, ¬ absent_feast_label thls year name)
    (Thailand._populate thls observed year) tt.
Proof.
  intros H1940 Hf. unfold Thailand._populate.
  destruct (year <=? 1940); [apply writes_ret |].
  eapply writes_bind; [| by apply thailand_rules_omit_absent_feasts].
  apply thailand_special_writes. intros month day name _.
  apply not_absent_feast_label.
Qed.

End thailand.

(** ** Thailand: the properties of the rule set *)

Section thailand_properties.
Import HolidayBase.

Lemma append_neq (name suffix : string) :
  suffix ≠ EmptyString → name +:+ suffix ≠ name.
Proof.
  intros Hs H. apply Hs. apply (String.app_inj name).
  rewrite H. clear. induction name as [| a name IH]; [done |].
  change (String a name +:+ EmptyString)
    with (String a (name +:+ EmptyString)).
  by rewrite <- IH.
Qed.

Lemma settles_add_with_observed observed year dt name :
  valid_date dt →
  settles dt name (Thailand._add_with_observed observed year dt name).
Proof.
  intros Hdt. unfold Thailand._add_with_observed.
  apply settles_then; [apply settles_setitem |].
  apply writes_when; intros Hy. apply writes_when; intros [-> Hw]%andb_true_iff.
  destruct (weekend_shift_valid dt Hdt Hw) as [Hv _].
  eapply writes_bind; [apply writes_lift, add_days_ok, Hv |].
  apply writes_setitem. unfold in_lieu_date.
  destruct (_is_saturday dt); lia.
Qed.

(** C7. A holiday added through [_add_with_observed] with
    [observed=True] gets an entry "<name> (in lieu)" exactly when its
    date falls on a weekend and the year lies in 1961-1973, 1995-1997 or
    from 2001 on; the entry is on the following Monday, two days after a
    Saturday and one day after a Sunday.  In 1974-1994 and 1998-2000
    only the holiday itself is written. *)
Theorem thailand_generic_in_lieu (year dt : Z) (holiday_name : string)
    (m : gmap Z string) :
  valid_date dt →
  Thailand._add_with_observed true year dt holiday_name m
  = Ok (tt, if decide (_is_weekend dt = true ∧ in_lieu_era year)
            then <[in_lieu_date dt := holiday_name +:+ " (in lieu)"]>
                   (<[dt := holiday_name]> m)
            else <[dt := holiday_name]> m)
  ∧ (_is_weekend dt = true →
     weekday (in_lieu_date dt) = MO
     ∧ in_lieu_date dt = dt + (if weekday dt =? SA then 2 else 1))
  ∧ (∃ m', Thailand._add_with_observed true year dt holiday_name ∅
           = Ok (tt, m')
           ∧ ((∃ d, m' !! d = Some (holiday_name +:+ " (in lieu)"))
              ↔ _is_weekend dt = true ∧ in_lieu_era year))
  ∧ (1974 <= year <= 1994 ∨ 1998 <= year <= 2000 →
     Thailand._add_with_observed true year dt holiday_name m
     = Ok (tt, <[dt := holiday_name]> m)).
Proof.
  intros Hdt.
  assert (E : ∀ m0, Thailand._add_with_observed true year dt holiday_name m0
    = Ok (tt, if decide (_is_weekend dt = true ∧ in_lieu_era year)
              then <[in_lieu_date dt := holiday_name +:+ " (in lieu)"]>
                     (<[dt := holiday_name]> m0)
              else <[dt := holiday_name]> m0)).
  { intros m0. rewrite (add_with_observed_eq _ _ _ _ _ Hdt). cbn [andb].
    destruct (Thailand.in_lieu_years year) eqn:Ey, (_is_weekend dt) eqn:Ew;
      cbn [andb]; case_decide as Hc; try done.
    - destruct Hc. split; [done |]. by apply in_lieu_years_spec.
    - destruct Hc as [? _]. done.
    - destruct Hc as [_ Hc]. apply in_lieu_years_spec in Hc. congruence.
    - destruct Hc as [? _]. done. }
  split; [apply E |]. split; [| split].
  - intros Hw. split; [by apply weekend_shift_valid |]. done.
  - eexists. split; [apply E |].
    case_decide as Hc; split; try done.
    + intros _. eexists. apply lookup_insert_eq.
    + intros [d Hd]. apply lookup_insert_Some in Hd as [[_ Hd] | [_ Hd]].
      * symmetry in Hd. by apply append_neq in Hd.
      * done.
  - intros Hyr. rewrite E. case_decide as Hc; [| done].
    destruct Hc as [_ Hc]. unfold in_lieu_era in Hc. lia.
Qed.

Lemma thailand_generic_in_lieu_witness :
  valid_date (_ymd2ord 2022 JAN 1)
  ∧ Thailand._add_with_observed true 2022 (_ymd2ord 2022 JAN 1)
      "New Year's Day" ∅
    = Ok (tt, <[_ymd2ord 2022 JAN 3 := "New Year's Day (in lieu)"]>
                (<[_ymd2ord 2022 JAN 1 := "New Year's Day"]> ∅)).
Proof.
  assert (H : valid_date (_ymd2ord 2022 JAN 1))
    by (vm_compute; split; [reflexivity | discriminate]).
  split; [exact H |].
  exact (proj1 (thailand_generic_in_lieu 2022 _ "New Year's Day" ∅ H)).
Defined.

Lemma no_feasts_between year lo hi : feasts_between no_feasts year lo hi.
Proof. intros d [H | [H | [H | H]]]; discriminate H. Qed.

(** C9. A year outside the supported window gives fewer or no entries
    and no error: Thailand's population of a year up to 1940 finishes
    and writes nothing, and the population of a later year finishes and
    leaves no entry labelled with a lunisolar holiday whose lookup is
    absent.  The years are those of the calendar, and the feast dates
    that the lookups do return are dates of the calendar, up to
    9999-12-28. *)
Theorem thailand_out_of_range_is_silent (thls : _ThaiLuniSolar)
    (observed : bool) (year : Z) :
  year <= 1940
  ∨ (valid_year year ∧ feasts_between thls year 1 (_MAXORDINAL - 3)) →
  ∃ m, run (Thailand._populate thls observed year) = Ok m
       ∧ (year <= 1940 →
          m = ∅ ∧ ∀ m0, Thailand._populate thls observed year m0 = Ok (tt, m0))
       ∧ (makha_bucha_date thls year = None → no_label "Makha Bucha" m)
       ∧ (visakha_bucha_date thls year = None → no_label "Visakha Bucha" m)
       ∧ (asarnha_bucha_date thls year = None → no_label "Asarnha Bucha" m)
       ∧ (khao_phansa_date thls year = None → no_label "Buddhist Lent Day" m).
Proof.
  intros H. destruct (decide (year <= 1940)) as [Hold | Hnew].
  - exists ∅. unfold run, Thailand._populate.
    replace (year <=? 1940) with true by (symmetry; apply Z.leb_le; lia).
    repeat split; done.
  - destruct H as [? | [Hy Hf]]; [done |].
    destruct (writes_run _ _
      (thailand_populate_omits_absent_feasts thls observed year Hy
         ltac:(lia) Hf)) as (m & Hm & F).
    exists m. split; [done |]. split; [done |].
    unfold absent_feast_label in F.
    repeat split; intros Hnone; eapply map_Forall_no_label; eauto;
      cbn; intros _ Hl; apply Hl; tauto.
Qed.

Lemma thailand_out_of_range_is_silent_witness :
  (2060 <= 1940
   ∨ (valid_year 2060 ∧ feasts_between no_feasts 2060 1 (_MAXORDINAL - 3)))
  ∧ ∃ m, run (Thailand._populate no_feasts true 2060) = Ok m
         ∧ no_label "Makha Bucha" m.
Proof.
  assert (H : 2060 <= 1940
              ∨ (valid_year 2060
                 ∧ feasts_between no_feasts 2060 1 (_MAXORDINAL - 3))).
  { right. split; [| apply no_feasts_between].
    unfold valid_year, MINYEAR, MAXYEAR. lia. }
  split; [exact H |].
  destruct (thailand_out_of_range_is_silent no_feasts true 2060 H)
    as (m & Hm & _ & Hmakha & _).
  exists m. split; [exact Hm | exact (Hmakha eq_refl)].
Defined.

(** C8. A date maps to one label and the rule applied later wins: two
    assignments to a date leave the second label, and in every year from
    1980 on Thailand's map has "National Father's Day" on December 5,
    not the "HM King Bhumibol Adulyadej's Birthday" written there
    before.  The feast dates that the lunisolar lookups return are taken
    to lie in the year, up to December 1. *)
Theorem last_write_wins (thls : _ThaiLuniSolar) (observed : bool)
    (year : Z) (m0 : gmap Z string) :
  valid_year year → 1980 <= year →
  feasts_between thls year (_ymd2ord year JAN 1) (_ymd2ord year DEC 1) →
  (∀ d l1 l2, ∃ m, (self[d] = l1;; self[d] = l2) m0 = Ok (tt, m)
                   ∧ m !! d = Some l2)
  ∧ ∃ m, Thailand._populate thls observed year m0 = Ok (tt, m)
         ∧ m !! _ymd2ord year DEC 5 = Some "National Father's Day"
         ∧ m !! _ymd2ord year DEC 5
           ≠ Some "HM King Bhumibol Adulyadej's Birthday".
Proof.
  intros Hy H1980 Hf. split.
  - intros d l1 l2. eexists. split; [reflexivity |]. apply lookup_insert_eq.
  - assert (S : settles (_ymd2ord year DEC 5) "National Father's Day"
                  (Thailand._populate thls observed year)).
    { unfold Thailand._populate.
      replace (year <=? 1940) with false by (symmetry; apply Z.leb_gt; lia).
      eapply settles_skip.
      { by apply thailand_special_writes. }
      cbv beta zeta delta [Thailand.rules].
      settles_nav "National Father's Day" finishes.
      - apply settles_when; [apply Z.leb_le; lia |].
        eapply settles_skip; [apply writes_lift; lift_ok |].
        apply settles_add_with_observed. date_lia.
      - repeat writes_step. all: date_lia. }
    destruct (settles_at _ _ _ m0 S) as (m & Hm & L).
    exists m. split; [done |]. split; [done |]. rewrite L. discriminate.
Qed.

Lemma last_write_wins_witness :
  (valid_year 2011 ∧ 1980 <= 2011
   ∧ feasts_between feasts_2011 2011
       (_ymd2ord 2011 JAN 1) (_ymd2ord 2011 DEC 1))
  ∧ ∃ m, Thailand._populate feasts_2011 true 2011 ∅ = Ok (tt, m)
         ∧ m !! _ymd2ord 2011 DEC 5 = Some "National Father's Day".
Proof.
  assert (Hy : valid_year 2011) by (unfold valid_year, MINYEAR, MAXYEAR; lia).
  assert (H1980 : 1980 <= 2011) by lia.
  assert (Hf : feasts_between feasts_2011 2011
                 (_ymd2ord 2011 JAN 1) (_ymd2ord 2011 DEC 1)).
  { intros d [H | [H | [H | H]]]; injection H as <-; vm_compute;
      split; discriminate. }
  split; [exact (conj Hy (conj H1980 Hf)) |].
  destruct (last_write_wins feasts_2011 true 2011 ∅ Hy H1980 Hf)
    as (_ & m & Hm & L & _).
  exists m. exact (conj Hm L).
Defined.

Lemma thailand_special_2011 :
  HolidayBase._populate Thailand.special_holidays 2011 ∅
  = Ok (tt, <[_ymd2ord 2011 OCT 31 := Thailand.thai_flood_2011_emergency_lockdown]>
              (<[_ymd2ord 2011 OCT 28 := Thailand.thai_flood_2011_emergency_lockdown]>
                 (<[_ymd2ord 2011 OCT 27 := Thailand.thai_flood_2011_emergency_lockdown]>
                    (<[_ymd2ord 2011 MAY 16 := Thailand.thai_bridge_public_holiday]> ∅)))).
Proof. vm_compute. reflexivity. Qed.

Lemma thailand_rules_2011 thls observed :
  feasts_between thls 2011 (_ymd2ord 2011 JAN 1) (_ymd2ord 2011 OCT 23) →
  writes (λ d name, (d <= _ymd2ord 2011 OCT 26 ∨ _ymd2ord 2011 NOV 1 <= d)
                    ∧ name ≠ Thailand.thai_flood_2011_emergency_lockdown)
    (Thailand.rules thls observed 2011) tt.
Proof.
  intros Hf.
  assert (Hy : valid_year 2011) by (unfold valid_year, MINYEAR, MAXYEAR; lia).
  cbv beta zeta delta [Thailand.rules].
  repeat writes_step.
  all: first [ split; [date_lia | label_neq] | date_lia ].
Qed.

(** C2. Thailand's map for 2011 holds the three flood-lockdown entries,
    on October 27, 28 and 31 and nowhere else, together with every
    entry the rules of the year derive, and it has no entry on October
    29; what is in the map and not from the rules is from the special
    table of the year, these three entries and the bridge holiday of
    May 16.  The feast dates that the lunisolar lookups return for 2011 are
    taken to lie in 2011, up to October 23. *)
Theorem thailand_2011_flood_lockdown (thls : _ThaiLuniSolar)
    (observed : bool) :
  feasts_between thls 2011 (_ymd2ord 2011 JAN 1) (_ymd2ord 2011 OCT 23) →
  ∃ m g,
    run (Thailand._populate thls observed 2011) = Ok m
    ∧ run (Thailand.rules thls observed 2011) = Ok g
    ∧ m !! _ymd2ord 2011 OCT 27 = Some "Emergency Lockdown (2011 Thailand Floods)"
    ∧ m !! _ymd2ord 2011 OCT 28 = Some "Emergency Lockdown (2011 Thailand Floods)"
    ∧ m !! _ymd2ord 2011 OCT 31 = Some "Emergency Lockdown (2011 Thailand Floods)"
    ∧ (∀ d, m !! d = Some "Emergency Lockdown (2011 Thailand Floods)" →
            d = _ymd2ord 2011 OCT 27 ∨ d = _ymd2ord 2011 OCT 28
            ∨ d = _ymd2ord 2011 OCT 31)
    ∧ (∀ d l, g !! d = Some l → m !! d = Some l)
    ∧ (∀ d l, m !! d = Some l →
              g !! d = Some l
              ∨ (d = _ymd2ord 2011 MAY 16 ∧ l = "Bridge Public Holiday")
              ∨ ((d = _ymd2ord 2011 OCT 27 ∨ d = _ymd2ord 2011 OCT 28
                  ∨ d = _ymd2ord 2011 OCT 31)
                 ∧ l = "Emergency Lockdown (2011 Thailand Floods)"))
    ∧ m !! _ymd2ord 2011 OCT 29 = None.
Proof.
  intros Hf. destruct (thailand_rules_2011 thls observed Hf) as (w & Hw & F).
  pose proof thailand_special_2011 as Hs.
  set (s := <[_ymd2ord 2011 OCT 31 := _]> _) in Hs.
  exists (w ∪ s), w. split; [| split].
  - unfold run, Thailand._populate. cbn [Z.leb Z.compare Pos.compare Pos.compare_cont].
    unfold mbind, M_bind. by rewrite Hs, Hw.
  - unfold run. by rewrite Hw, (right_id_L ∅ (∪)).
  - assert (Hnone : ∀ d, _ymd2ord 2011 OCT 27 <= d <= _ymd2ord 2011 OCT 31 →
                         w !! d = None).
    { intros d Hd. destruct (w !! d) as [l |] eqn:E; [| done].
      destruct (F d l E) as [Hr _]. exfalso. clear -Hd Hr. date_lia. }
    assert (Hlook : ∀ d, _ymd2ord 2011 OCT 27 <= d <= _ymd2ord 2011 OCT 31 →
                         (w ∪ s) !! d = s !! d).
    { intros d Hd. by apply lookup_union_r, Hnone. }
    repeat split.
    + rewrite Hlook by (vm_compute; split; discriminate). reflexivity.
    + rewrite Hlook by (vm_compute; split; discriminate). reflexivity.
    + rewrite Hlook by (vm_compute; split; discriminate). reflexivity.
    + intros d [Hd | [_ Hd]]%lookup_union_Some_raw.
      * by destruct (F d _ Hd) as [_ []].
      * subst s. rewrite !lookup_insert_Some in Hd.
        destruct Hd as [[<- _] | [_ [[<- _] | [_ [[<- _] | [_ [[_ Hd] | [_ Hd]]]]]]]];
          auto; [discriminate Hd | done].
    + intros d l Hd. by apply lookup_union_Some_l.
    + intros d l [Hd | [_ Hd]]%lookup_union_Some_raw; [by left | right].
      subst s. rewrite !lookup_insert_Some in Hd.
      destruct Hd as [[<- <-] | [_ [[<- <-] | [_ [[<- <-] | [_ [[<- <-] | [_ Hd]]]]]]]];
        auto; done.
    + rewrite Hlook by (vm_compute; split; discriminate). reflexivity.
Qed.

Lemma thailand_2011_flood_lockdown_witness :
  feasts_between feasts_2011 2011 (_ymd2ord 2011 JAN 1) (_ymd2ord 2011 OCT 23)
  ∧ ∃ m, run (Thailand._populate feasts_2011 true 2011) = Ok m
         ∧ m !! _ymd2ord 2011 OCT 29 = None.
Proof.
  assert (Hf : feasts_between feasts_2011 2011
                 (_ymd2ord 2011 JAN 1) (_ymd2ord 2011 OCT 23)).
  { intros d [H | [H | [H | H]]]; injection H as <-; vm_compute;
      split; discriminate. }
  split; [exact Hf |].
  destruct (thailand_2011_flood_lockdown feasts_2011 true Hf)
    as (m & g & Hm & _ & _ & _ & _ & _ & _ & _ & Hnone).
  exists m. exact (conj Hm Hnone).
Defined.

End thailand_properties.

(** ** Hungary *)

Section hungary.
Import HolidayBase.

Variable observed : bool.
Variable year : Z.
Hypothesis Hy : valid_year year.

Lemma hungary_populate_in_year :
  writes (dated_in year) (Hungary._populate observed year) tt.
Proof.
  destruct (easter_facts year Hy) as (e & He & Hsun & Hrange).
  pose proof (new_year_month_day year Hy) as [Hm Hd].
  unfold Hungary._populate.
  repeat writes_step.
  all: try (apply year_of_ordinal; [unfold valid_year, MINYEAR in *; lia |]).
  all: date_lia.
Qed.

Lemma hungary_no_good_friday_before_2017 :
  year < 2017 →
  writes (λ _ name, name ≠ "Nagypéntek") (Hungary._populate observed year) tt.
Proof.
  intros Hlt.
  destruct (easter_facts year Hy) as (e & He & Hsun & Hrange).
  unfold Hungary._populate.
  repeat writes_step.
  all: first [ label_neq | date_lia ].
Qed.

Lemma hungary_good_friday_since_2017 e :
  easter year = Ok e → weekday e = SU →
  _ymd2ord year MAR 22 <= e <= _ymd2ord year APR 25 →
  2017 <= year →
  settles (e - 2) "Nagypéntek" (Hungary._populate observed year).
Proof.
  intros He Hsun Hrange Hge.
  pose proof (new_year_month_day year Hy) as [Hm Hd].
  unfold Hungary._populate.
  settles_nav "Nagypéntek" finishes.
  - apply settles_when; [apply Z.leb_le; lia |].
    eapply settles_skip; [apply writes_lift; lift_ok; date_lia |].
    cbv beta. apply settles_setitem_eq. date_lia.
  - repeat writes_step. all: date_lia.
Qed.

End hungary.

Section hungary_properties.

(** C1, as the code has it.  In Hungary's map of a year before 2017 no
    entry is labelled "Nagypéntek"; from 2017 on the entry is there, on
    the Friday two days before Easter Sunday.  The years are those of
    the calendar. *)
Theorem hungary_good_friday (observed : bool) (year : Z) :
  valid_year year →
  ∃ m e, run (Hungary._populate observed year) = Ok m
         ∧ easter year = Ok e
         ∧ (year < 2017 → no_label "Nagypéntek" m)
         ∧ (2017 <= year →
            m !! (e - 2) = Some "Nagypéntek" ∧ weekday (e - 2) = FR).
Proof.
  intros Hy. destruct (easter_facts year Hy) as (e & He & Hsun & Hrange).
  destruct (decide (year < 2017)) as [Hlt | Hge].
  - destruct (writes_run _ _
      (hungary_no_good_friday_before_2017 observed year Hy Hlt))
      as (m & Hm & F).
    exists m, e. repeat split; [done | done | | lia | lia].
    intros _. eapply map_Forall_no_label; [exact F |]. intros _ H. by apply H.
  - destruct (settles_run _ _ _
      (hungary_good_friday_since_2017 observed year Hy e He Hsun Hrange
         ltac:(lia))) as (m & Hm & L).
    exists m, e. repeat split; [done | done | lia | done |].
    unfold weekday in *. Z.div_mod_to_equations. lia.
Qed.

Lemma hungary_good_friday_witness :
  valid_year 2017
  ∧ ∃ m e, run (Hungary._populate true 2017) = Ok m
           ∧ easter 2017 = Ok e
           ∧ m !! (e - 2) = Some "Nagypéntek".
Proof.
  assert (Hy : valid_year 2017) by (unfold valid_year, MINYEAR, MAXYEAR; lia).
  split; [exact Hy |].
  destruct (hungary_good_friday true 2017 Hy) as (m & e & Hm & He & _ & H).
  exists m, e. split; [exact Hm |]. split; [exact He |].
  apply H. lia.
Defined.

(** C1, as it is stated, fails in 2017: Easter is April 16, the day
    before it carries no entry, and "Nagypéntek" is on April 14. *)
Lemma hungary_good_friday_not_the_day_before_easter :
  ∃ m, run (Hungary._populate true 2017) = Ok m
       ∧ easter 2017 = Ok (_ymd2ord 2017 APR 16)
       ∧ m !! (_ymd2ord 2017 APR 16 - 1) ≠ Some "Nagypéntek"
       ∧ m !! (_ymd2ord 2017 APR 16 - 1) = None
       ∧ m !! (_ymd2ord 2017 APR 16 - 2) = Some "Nagypéntek".
Proof.
  assert (H : run_check (Hungary._populate true 2017)
                (λ m, absent_at (_ymd2ord 2017 APR 16 - 1) m
                      && label_at (_ymd2ord 2017 APR 16 - 2) "Nagypéntek" m)
              = true) by (vm_compute; reflexivity).
  apply run_check_spec in H as (m & Hm & [Ha Hl]%andb_true_iff).
  apply absent_at_spec in Ha. apply label_at_spec in Hl.
  exists m. split; [done |]. split; [vm_compute; reflexivity |].
  rewrite Ha. repeat split; done.
Qed.

(** C6. Hungary's map of 1955 has no entry labelled "Húsvét Hétfő" and
    none labelled "Karácsony másnapja"; the map of 1956 has "Húsvét
    Hétfő" on the day after Easter. *)
Theorem hungary_1955_exclusions (observed : bool) :
  ∃ m55 m56 e56,
    run (Hungary._populate observed 1955) = Ok m55
    ∧ no_label "Húsvét Hétfő" m55
    ∧ no_label "Karácsony másnapja" m55
    ∧ run (Hungary._populate observed 1956) = Ok m56
    ∧ easter 1956 = Ok e56
    ∧ m56 !! (e56 + 1) = Some "Húsvét Hétfő".
Proof.
  assert (H55 : run_check (Hungary._populate observed 1955)
                  (λ m, no_label_in "Húsvét Hétfő" m
                        && no_label_in "Karácsony másnapja" m) = true)
    by (destruct observed; vm_compute; reflexivity).
  assert (H56 : run_check (Hungary._populate observed 1956)
                  (label_at (_ymd2ord 1956 APR 1 + 1) "Húsvét Hétfő") = true)
    by (destruct observed; vm_compute; reflexivity).
  apply run_check_spec in H55 as (m55 & Hm55 & [H1 H2]%andb_true_iff).
  apply run_check_spec in H56 as (m56 & Hm56 & H3).
  exists m55, m56, (_ymd2ord 1956 APR 1).
  split; [done |]. split; [by apply no_label_in_spec |].
  split; [by apply no_label_in_spec |]. split; [done |].
  split; [vm_compute; reflexivity | by apply label_at_spec].
Qed.

End hungary_properties.

(** ** The US government securities market *)

Section usgs.
Import HolidayBase UnitedStatesGovernmentSecurities.

Variable observed : bool.
Variable year : Z.
Hypothesis Hy : valid_year year.

Lemma usgs_populate_in_year :
  writes (dated_in year) (_populate observed year) tt.
Proof.
  destruct (easter_facts year Hy) as (e & He & Hsun & Hrange).
  unfold _populate.
  repeat writes_step.
  all: try (apply year_of_ordinal; [unfold valid_year, MINYEAR in *; lia |]).
  all: date_lia.
Qed.

(** Whatever the year, nothing is written after December 26. *)
Lemma usgs_populate_until_december_26 :
  writes (λ d _, d <= _ymd2ord year DEC 26) (_populate observed year) tt.
Proof.
  destruct (easter_facts year Hy) as (e & He & Hsun & Hrange).
  unfold _populate.
  repeat writes_step.
  all: date_lia.
Qed.

(** With January 1 on a Saturday, nothing is written before January 4
    and nothing under the name of New Year's Day. *)
Lemma usgs_saturday_new_year_writes :
  _is_saturday (_ymd2ord year JAN 1) = true →
  writes (λ d name, name ≠ "New Year's Day"
                    ∧ name ≠ "New Year's Day (Observed)"
                    ∧ _ymd2ord year JAN 1 + 2 < d)
    (_populate observed year) tt.
Proof.
  intros Hsat.
  destruct (easter_facts year Hy) as (e & He & Hsun & Hrange).
  unfold _populate.
  repeat writes_step.
  all: first [ repeat split; first [ label_neq | date_lia ] | date_lia ].
Qed.

Lemma usgs_washington_settles :
  year < 1971 →
  settles (washington_date year) (washington_label year)
    (_populate observed year).
Proof.
  intros Hlt.
  destruct (easter_facts year Hy) as (e & He & Hsun & Hrange).
  unfold _populate, washington_date, washington_label. cbv zeta.
  settles_nav "Washington's Birthday" finishes.
  - replace (year <? 1971) with true by (symmetry; apply Z.ltb_lt; lia).
    eapply settles_skip; [apply writes_lift; lift_ok |].
    cbv beta. apply settles_set_observed_date. date_lia.
  - repeat writes_step. all: date_lia.
Qed.

Lemma usgs_washington_writes :
  year < 1971 →
  writes (λ d _, isoweekday (_ymd2ord year FEB 22) = 6
                 ∨ isoweekday (_ymd2ord year FEB 22) = 7 →
                 d ≠ _ymd2ord year FEB 22)
    (_populate observed year) tt.
Proof.
  intros Hlt.
  destruct (easter_facts year Hy) as (e & He & Hsun & Hrange).
  unfold _populate.
  repeat writes_step.
  all: date_lia.
Qed.

End usgs.

Section usgs_properties.
Import HolidayBase UnitedStatesGovernmentSecurities.

(** C3. The map of 2023, with [observed=True], has "New Year's Day
    (Observed)" on January 2, as January 1 is a Sunday, and no entry
    labelled "Good Friday": in 2023 Good Friday is the third Friday after
    the reference week of March, April 7. *)
Theorem usgs_2023 :
  ∃ m, run (_populate true 2023) = Ok m
       ∧ weekday (_ymd2ord 2023 JAN 1) = SU
       ∧ m !! _ymd2ord 2023 JAN 2 = Some "New Year's Day (Observed)"
       ∧ no_label "Good Friday" m
       ∧ (e ← easter 2023; add_days e (-2)) = Ok (_ymd2ord 2023 APR 7)
       ∧ (d ← date_ 2023 MAR 12; d ← add_days d 21; rd_weekday FR 1 d)
         = Ok (_ymd2ord 2023 APR 7).
Proof.
  assert (H : run_check (_populate true 2023)
                (λ m, label_at (_ymd2ord 2023 JAN 2)
                        "New Year's Day (Observed)" m
                      && no_label_in "Good Friday" m) = true)
    by (vm_compute; reflexivity).
  apply run_check_spec in H as (m & Hm & [H1 H2]%andb_true_iff).
  exists m. split; [done |]. split; [vm_compute; reflexivity |].
  split; [by apply label_at_spec |]. split; [by apply no_label_in_spec |].
  split; vm_compute; reflexivity.
Qed.

Example saturday_new_years :
  _is_saturday (_ymd2ord 2011 JAN 1) = true
  ∧ _is_saturday (_ymd2ord 2022 JAN 1) = true.
Proof. split; reflexivity. Qed.

(** C4. In a year whose January 1 is a Saturday no New Year's Day entry
    is written: no entry carries the label, with or without
    "(Observed)", and January 1, the Friday before it and the two days
    after it are not in the map of the year; nor is the Friday, December
    31, in the map of the year it belongs to.  The years are those of
    the calendar. *)
Theorem usgs_saturday_new_year (observed : bool) (year : Z) :
  valid_year year →
  _is_saturday (_ymd2ord year JAN 1) = true →
  ∃ m, run (_populate observed year) = Ok m
       ∧ no_label "New Year's Day" m
       ∧ no_label "New Year's Day (Observed)" m
       ∧ m !! (_ymd2ord year JAN 1 - 1) = None
       ∧ m !! _ymd2ord year JAN 1 = None
       ∧ m !! (_ymd2ord year JAN 1 + 1) = None
       ∧ m !! (_ymd2ord year JAN 1 + 2) = None
       ∧ (valid_year (year - 1) →
          ∃ m', run (_populate observed (year - 1)) = Ok m'
                ∧ _ymd2ord (year - 1) DEC 31 = _ymd2ord year JAN 1 - 1
                ∧ m' !! (_ymd2ord year JAN 1 - 1) = None).
Proof.
  intros Hy Hsat.
  destruct (writes_run _ _ (usgs_saturday_new_year_writes observed year Hy Hsat))
    as (m & Hm & F).
  exists m. split; [done |].
  split; [eapply map_Forall_no_label; [exact F |]; intros _ [H _]; by apply H |].
  split; [eapply map_Forall_no_label; [exact F |]; intros _ (_ & H & _);
          by apply H |].
  repeat split;
    try (eapply map_Forall_absent; [exact F |]; intros l (_ & _ & H); lia).
  intros Hy'.
  destruct (writes_run _ _ (usgs_populate_until_december_26 observed _ Hy'))
    as (m' & Hm' & F').
  assert (E : _ymd2ord (year - 1) DEC 31 = _ymd2ord year JAN 1 - 1).
  { pose proof (days_before_next_year (year - 1)) as Hn.
    replace (year - 1 + 1) with year in Hn by lia.
    rewrite !ymd2ord_unfold. cbn. lia. }
  exists m'. split; [done |]. split; [done |].
  eapply map_Forall_absent; [exact F' |]. intros l H. cbn in H.
  rewrite <- E in H. revert H. rewrite !ymd2ord_unfold. cbn. lia.
Qed.

Lemma usgs_saturday_new_year_witness :
  (valid_year 2011 ∧ _is_saturday (_ymd2ord 2011 JAN 1) = true)
  ∧ ∃ m, run (_populate true 2011) = Ok m
         ∧ no_label "New Year's Day" m
         ∧ m !! _ymd2ord 2011 JAN 1 = None.
Proof.
  assert (Hy : valid_year 2011) by (unfold valid_year, MINYEAR, MAXYEAR; lia).
  assert (Hs : _is_saturday (_ymd2ord 2011 JAN 1) = true) by reflexivity.
  split; [exact (conj Hy Hs) |].
  destruct (usgs_saturday_new_year true 2011 Hy Hs)
    as (m & Hm & H1 & _ & _ & H2 & _).
  exists m. exact (conj Hm (conj H1 H2)).
Defined.

(** C5. Before 1971 Washington's Birthday is February 22, moved to the
    Friday before a Saturday and to the Monday after a Sunday and then
    labelled "(Observed)", February 22 itself staying out of the map; in
    1970, February 22 being a Sunday, the entry is on February 23.  The
    years are those of the calendar. *)
Theorem usgs_washington_before_1971 (observed : bool) (year : Z) :
  valid_year year → year < 1971 →
  ∃ m, run (_populate observed year) = Ok m
       ∧ (isoweekday (_ymd2ord year FEB 22) = 6 →
          m !! (_ymd2ord year FEB 22 - 1)
          = Some "Washington's Birthday (Observed)"
          ∧ m !! _ymd2ord year FEB 22 = None)
       ∧ (isoweekday (_ymd2ord year FEB 22) = 7 →
          m !! (_ymd2ord year FEB 22 + 1)
          = Some "Washington's Birthday (Observed)"
          ∧ m !! _ymd2ord year FEB 22 = None)
       ∧ (isoweekday (_ymd2ord year FEB 22) ≠ 6 →
          isoweekday (_ymd2ord year FEB 22) ≠ 7 →
          m !! _ymd2ord year FEB 22 = Some "Washington's Birthday")
       ∧ (year = 1970 →
          isoweekday (_ymd2ord 1970 FEB 22) = 7
          ∧ m !! _ymd2ord 1970 FEB 23
            = Some "Washington's Birthday (Observed)").
Proof.
  intros Hy Hlt.
  destruct (settles_run _ _ _ (usgs_washington_settles observed year Hy Hlt))
    as (m & Hm & L).
  destruct (writes_run _ _ (usgs_washington_writes observed year Hy Hlt))
    as (m2 & Hm2 & F).
  assert (m2 = m) as -> by congruence.
  assert (Habs : isoweekday (_ymd2ord year FEB 22) = 6
                 ∨ isoweekday (_ymd2ord year FEB 22) = 7 →
                 m !! _ymd2ord year FEB 22 = None).
  { intros H. eapply map_Forall_absent; [exact F |]. intros l Hl. by apply Hl. }
  unfold washington_date, washington_label in L. cbv zeta in L.
  exists m. split; [done |]. split; [| split; [| split]].
  - intros H. split; [| apply Habs; by left]. rewrite H in L. exact L.
  - intros H. split; [| apply Habs; by right]. rewrite H in L. exact L.
  - intros H6%Z.eqb_neq H7%Z.eqb_neq. rewrite H6, H7 in L. exact L.
  - intros ->. split; [reflexivity | exact L].
Qed.

Lemma usgs_washington_before_1971_witness :
  (valid_year 1970 ∧ 1970 < 1971)
  ∧ ∃ m, run (_populate true 1970) = Ok m
         ∧ m !! _ymd2ord 1970 FEB 23 = Some "Washington's Birthday (Observed)".
Proof.
  assert (Hy : valid_year 1970) by (unfold valid_year, MINYEAR, MAXYEAR; lia).
  assert (Hlt : 1970 < 1971) by lia.
  split; [exact (conj Hy Hlt) |].
  destruct (usgs_washington_before_1971 true 1970 Hy Hlt)
    as (m & Hm & _ & _ & _ & H).
  exists m. split; [exact Hm |]. exact (proj2 (H eq_refl)).
Defined.

End usgs_properties.

(** ** All three rule sets *)

Section all_rule_sets.

Lemma date_invalid_year y m d : ¬ valid_year y → date_ y m d = Raise ValueError.
Proof.
  unfold valid_year, date_. intros H.
  destruct ((MINYEAR <=? y) && (y <=? MAXYEAR)) eqn:E; [| done].
  apply andb_true_iff in E as [H1%Z.leb_le H2%Z.leb_le]. lia.
Qed.

Lemma thailand_special_after_2023 year :
  2023 < year → HolidayBase.get Thailand.special_holidays year = [].
Proof.
  intros Hy.
  assert (Ht : table_forall (λ y _ _ _, y <=? 2023) Thailand.special_holidays
               = true) by (vm_compute; reflexivity).
  pose proof (get_forall _ _ year Ht) as F.
  destruct (HolidayBase.get Thailand.special_holidays year) as [| e es];
    [done |].
  apply Forall_cons in F as [F _]. cbn in F. lia.
Qed.

(** C10. Every entry written by populating a year is dated within that
    year, whatever the map the population starts from: for Hungary, the
    securities market and Thailand the population of a year of the
    calendar finishes and writes only dates of the year, and for a year
    outside the calendar it writes nothing (Thailand returns at once up
    to 1940, and every other population raises at its first date, before
    any assignment).  The feast dates that Thailand's lunisolar lookups
    return are taken to lie in the year, up to December 28. *)
Theorem populate_stays_in_year (thls : _ThaiLuniSolar) (observed : bool)
    (year : Z) :
  feasts_between thls year (_ymd2ord year JAN 1) (_ymd2ord year DEC 28) →
  (valid_year year →
   writes (dated_in year) (Hungary._populate observed year) tt
   ∧ writes (dated_in year)
       (UnitedStatesGovernmentSecurities._populate observed year) tt)
  ∧ (valid_year year ∨ year <= 1940 →
     writes (dated_in year) (Thailand._populate thls observed year) tt)
  ∧ (¬ valid_year year →
     ∀ m0, Hungary._populate observed year m0 = Raise ValueError
           ∧ UnitedStatesGovernmentSecurities._populate observed year m0
             = Raise ValueError
           ∧ (1940 < year →
              Thailand._populate thls observed year m0 = Raise ValueError)).
Proof.
  intros Hf. split; [| split].
  - intros Hy. split.
    + by apply hungary_populate_in_year.
    + by apply usgs_populate_in_year.
  - intros [Hy | Hold].
    + by apply thailand_populate_in_year.
    + unfold Thailand._populate.
      replace (year <=? 1940) with true by (symmetry; apply Z.leb_le; lia).
      apply writes_ret.
  - intros Hy m0. split; [| split].
    + unfold Hungary._populate, HolidayBase._populate, mbind, M_bind, lift.
      cbn [HolidayBase.get HolidayBase.add_special Hungary.special_holidays].
      unfold mret, M_ret. by rewrite date_invalid_year.
    + unfold UnitedStatesGovernmentSecurities._populate,
        HolidayBase._populate, mbind, M_bind, lift.
      cbn [HolidayBase.get HolidayBase.add_special
             UnitedStatesGovernmentSecurities.special_holidays].
      unfold mret, M_ret. by rewrite date_invalid_year.
    + intros H1940. unfold Thailand._populate.
      replace (year <=? 1940) with false by (symmetry; apply Z.leb_gt; lia).
      unfold HolidayBase._populate, mbind, M_bind.
      rewrite thailand_special_after_2023
        by (unfold valid_year, MINYEAR, MAXYEAR in Hy; lia).
      cbn [HolidayBase.add_special]. unfold mret, M_ret.
      cbv beta zeta delta [Thailand.rules]. unfold mbind, M_bind, lift.
      by rewrite date_invalid_year.
Qed.

Lemma populate_stays_in_year_witness :
  feasts_between feasts_2011 2011 (_ymd2ord 2011 JAN 1) (_ymd2ord 2011 DEC 28)
  ∧ writes (dated_in 2011) (Thailand._populate feasts_2011 true 2011) tt.
Proof.
  assert (Hf : feasts_between feasts_2011 2011
                 (_ymd2ord 2011 JAN 1) (_ymd2ord 2011 DEC 28)).
  { intros d [H | [H | [H | H]]]; injection H as <-; vm_compute;
      split; discriminate. }
  split; [exact Hf |].
  apply (populate_stays_in_year feasts_2011 true 2011 Hf).
  left. unfold valid_year, MINYEAR, MAXYEAR. lia.
Defined.

End all_rule_sets.

(** * Further properties of the rule sets *)

(** ** The securities market *)

Section usgs_more.
Import HolidayBase UnitedStatesGovernmentSecurities.

(** X1. [_get_observed] returns a date from Monday to Friday: a weekday
    is returned as it is, a Saturday gives the Friday before and a
    Sunday the Monday after; observing the observed date changes
    nothing. *)
Theorem usgs_get_observed_weekday (d : date) :
  valid_date d →
  ∃ d', _get_observed d = Ok d'
        ∧ valid_date d' ∧ on_weekday d'
        ∧ (on_weekday d → d' = d)
        ∧ (weekday d = SA → d' = d - 1 ∧ weekday d' = FR)
        ∧ (weekday d = SU → d' = d + 1 ∧ weekday d' = MO)
        ∧ _get_observed d' = Ok d'.
Proof.
  intros Hd. rewrite (get_observed_eq d Hd).
  set (d' := if isoweekday d =? 6 then d - 1
             else if isoweekday d =? 7 then d + 1 else d).
  assert (Hv : valid_date d').
  { subst d'. date_lia. }
  exists d'. split; [done |]. split; [done |].
  assert (Hw : on_weekday d') by (subst d'; unfold on_weekday; date_lia).
  repeat split; try (subst d'; unfold on_weekday in *; date_lia).
  rewrite (get_observed_eq d' Hv). f_equal.
  unfold on_weekday in Hw. clear -Hw. date_lia.
Qed.

Lemma usgs_get_observed_weekday_witness :
  valid_date (_ymd2ord 2022 JUN 19)
  ∧ _get_observed (_ymd2ord 2022 JUN 19) = Ok (_ymd2ord 2022 JUN 20).
Proof.
  assert (H : valid_date (_ymd2ord 2022 JUN 19))
    by (vm_compute; split; [reflexivity | discriminate]).
  split; [exact H |].
  destruct (usgs_get_observed_weekday _ H) as (d' & Hd' & _ & _ & _ & _ & Hsun & _).
  rewrite Hd'. f_equal. exact (proj1 (Hsun eq_refl)).
Defined.

(** X2. [_set_observed_date] adds one entry and leaves the rest of the
    map alone: on a weekday the holiday under its name, otherwise the
    observed date under the name followed by " (Observed)", the holiday
    date itself staying as it was.  The entry is never on a weekend. *)
Theorem usgs_set_observed_date_entry (d : date) (name : string)
    (m : gmap Z string) :
  valid_date d →
  ∃ k v, _get_observed d = Ok k
         ∧ _set_observed_date d name m = Ok (tt, <[k := v]> m)
         ∧ on_weekday k
         ∧ (k = d → v = name)
         ∧ (k ≠ d → v = name +:+ " (Observed)"
                    ∧ <[k := v]> m !! d = m !! d).
Proof.
  intros Hd. rewrite (set_observed_date_eq d name m Hd), (get_observed_eq d Hd).
  destruct (isoweekday d =? 6) eqn:E6; [| destruct (isoweekday d =? 7) eqn:E7];
    eexists; eexists; (split; [reflexivity |]); (split; [reflexivity |]);
    (split; [unfold on_weekday; date_lia |]);
    (split; [intros ?; first [lia | reflexivity]
            | intros Hne; first [lia | split; [reflexivity |];
                                 by rewrite lookup_insert_ne]]).
Qed.

Lemma usgs_set_observed_date_entry_witness :
  valid_date (_ymd2ord 2021 DEC 25)
  ∧ _set_observed_date (_ymd2ord 2021 DEC 25) "Christmas Day" ∅
    = Ok (tt, {[_ymd2ord 2021 DEC 24 := "Christmas Day (Observed)"]}).
Proof.
  assert (H : valid_date (_ymd2ord 2021 DEC 25))
    by (vm_compute; split; [reflexivity | discriminate]).
  split; [exact H |].
  destruct (usgs_set_observed_date_entry _ "Christmas Day" ∅ H)
    as (k & v & Hk & Hs & _ & _ & Hv).
  injection Hk as <-. rewrite Hs.
  destruct (Hv ltac:(discriminate)) as [-> _]. reflexivity.
Defined.

Variable observed : bool.
Variable year : Z.
Hypothesis Hy : valid_year year.

Lemma usgs_populate_on_weekdays :
  writes (λ d _, on_weekday d) (_populate observed year) tt.
Proof.
  destruct (easter_facts year Hy) as (e & He & Hsun & Hrange).
  unfold _populate, on_weekday.
  repeat writes_step.
  all: try (bool_hyps; subst year; vm_compute; discriminate).
  all: date_lia.
Qed.

(** Good Friday kept: Easter less two days is not the Friday of April 2
    to 8. *)
Lemma usgs_good_friday_settles e :
  easter year = Ok e → weekday e = SU →
  _ymd2ord year MAR 22 <= e <= _ymd2ord year APR 25 →
  ¬ (_ymd2ord year APR 2 <= e - 2 <= _ymd2ord year APR 8) →
  settles (e - 2) "Good Friday" (_populate observed year).
Proof.
  intros He Hsun Hrange Hout.
  unfold _populate.
  settles_nav "Good Friday" finishes.
  - apply settles_when; [apply negb_true_iff, Z.eqb_neq; date_lia |].
    apply settles_setitem_eq. lia.
  - repeat writes_step. all: date_lia.
Qed.

Lemma usgs_good_friday_dropped e :
  easter year = Ok e → weekday e = SU →
  _ymd2ord year MAR 22 <= e <= _ymd2ord year APR 25 →
  _ymd2ord year APR 2 <= e - 2 <= _ymd2ord year APR 8 →
  writes (λ d name, name ≠ "Good Friday" ∧ d ≠ e - 2)
    (_populate observed year) tt.
Proof.
  intros He Hsun Hrange Hin.
  unfold _populate.
  repeat writes_step.
  all: first [ split; [first [label_neq | date_lia] | date_lia] | date_lia ].
Qed.

End usgs_more.

Section usgs_more_holidays.
Import HolidayBase UnitedStatesGovernmentSecurities.

(** X3. No entry of the market's map is on a weekend, whatever the
    year of the calendar. *)
Theorem usgs_never_on_weekend (observed : bool) (year : Z) :
  valid_year year →
  ∃ m, run (_populate observed year) = Ok m
       ∧ ∀ d name, m !! d = Some name → on_weekday d.
Proof.
  intros Hy.
  destruct (writes_run _ _ (usgs_populate_on_weekdays observed year Hy))
    as (m & Hm & F).
  exists m. split; [done |]. intros d name Hd. exact (F d name Hd).
Qed.

Lemma usgs_never_on_weekend_witness :
  valid_year 2022
  ∧ ∃ m, run (_populate true 2022) = Ok m
         ∧ ∀ d name, m !! d = Some name → on_weekday d.
Proof.
  assert (Hy : valid_year 2022) by (unfold valid_year, MINYEAR, MAXYEAR; lia).
  split; [exact Hy |]. exact (usgs_never_on_weekend true 2022 Hy).
Defined.

(** X4. Good Friday, two days before Easter, is a holiday of the market
    except when it is the Friday of April 2 to 8, the third Friday after
    March 12: then no entry is labelled "Good Friday" and the date is
    not in the map. *)
Theorem usgs_good_friday (observed : bool) (year : Z) :
  valid_year year →
  ∃ m e, run (_populate observed year) = Ok m
         ∧ easter year = Ok e
         ∧ weekday (e - 2) = FR
         ∧ (_ymd2ord year APR 2 <= e - 2 <= _ymd2ord year APR 8 →
            m !! (e - 2) = None ∧ no_label "Good Friday" m)
         ∧ (¬ (_ymd2ord year APR 2 <= e - 2 <= _ymd2ord year APR 8) →
            m !! (e - 2) = Some "Good Friday").
Proof.
  intros Hy. destruct (easter_facts year Hy) as (e & He & Hsun & Hrange).
  assert (Hfr : weekday (e - 2) = FR)
    by (unfold weekday in *; Z.div_mod_to_equations; lia).
  destruct (decide (_ymd2ord year APR 2 <= e - 2 <= _ymd2ord year APR 8))
    as [Hin | Hout].
  - destruct (writes_run _ _
      (usgs_good_friday_dropped observed year Hy e He Hsun Hrange Hin))
      as (m & Hm & F).
    exists m, e. split; [done |]. split; [done |]. split; [done |].
    split; [| done]. intros _. split.
    + eapply map_Forall_absent; [exact F |]. intros l [_ Hne]. by apply Hne.
    + eapply map_Forall_no_label; [exact F |]. intros _ [Hne _]. by apply Hne.
  - destruct (settles_run _ _ _
      (usgs_good_friday_settles observed year Hy e He Hsun Hrange Hout))
      as (m & Hm & L).
    exists m, e. split; [done |]. split; [done |]. split; [done |].
    split; [done |]. intros _. exact L.
Qed.

Lemma usgs_good_friday_witness :
  valid_year 2021
  ∧ ∃ m, run (_populate true 2021) = Ok m
         ∧ m !! _ymd2ord 2021 APR 2 = None.
Proof.
  assert (Hy : valid_year 2021) by (unfold valid_year, MINYEAR, MAXYEAR; lia).
  split; [exact Hy |].
  destruct (usgs_good_friday true 2021 Hy) as (m & e & Hm & He & _ & Hin & _).
  exists m. split; [exact Hm |].
  assert (E : Ok e = Ok (_ymd2ord 2021 APR 4))
    by (rewrite <- He; reflexivity).
  injection E as ->.
  change (_ymd2ord 2021 APR 2) with (_ymd2ord 2021 APR 4 - 2).
  apply Hin. vm_compute. split; discriminate.
Defined.

End usgs_more_holidays.

Section usgs_floating.
Import HolidayBase UnitedStatesGovernmentSecurities.

Variable observed : bool.
Variable year : Z.
Hypothesis Hy : valid_year year.

Lemma usgs_mlk_settles :
  1986 <= year →
  settles (nth_weekday MO 3 (_ymd2ord year JAN 1))
    "Martin Luther King Jr. Day" (_populate observed year).
Proof.
  intros Hge.
  destruct (easter_facts year Hy) as (e & He & Hsun & Hrange).
  unfold _populate.
  settles_nav "Martin Luther King Jr. Day" finishes.
  - apply settles_when; [apply Z.leb_le; lia |].
    eapply settles_skip; [apply writes_lift; lift_ok; date_lia |].
    cbv beta. by apply settles_setitem_eq.
  - unfold nth_weekday. repeat writes_step. all: date_lia.
Qed.

Lemma usgs_no_mlk_before_1986 :
  year < 1986 →
  writes (λ _ name, name ≠ "Martin Luther King Jr. Day")
    (_populate observed year) tt.
Proof.
  intros Hlt.
  destruct (easter_facts year Hy) as (e & He & Hsun & Hrange).
  unfold _populate.
  repeat writes_step.
  all: first [ label_neq | date_lia ].
Qed.

Lemma usgs_thanksgiving_settles :
  settles (nth_weekday TH 4 (_ymd2ord year NOV 1)) "Thanksgiving Day"
    (_populate observed year).
Proof.
  destruct (easter_facts year Hy) as (e & He & Hsun & Hrange).
  unfold _populate.
  settles_nav "Thanksgiving Day" finishes.
  - by apply settles_setitem_eq.
  - unfold nth_weekday. repeat writes_step. all: date_lia.
Qed.

Lemma usgs_thanksgiving_alone :
  writes (λ d _, d ≠ nth_weekday TH 4 (_ymd2ord year NOV 1) - 1
                 ∧ d ≠ nth_weekday TH 4 (_ymd2ord year NOV 1) + 1
                 ∧ d ≠ nth_weekday TH 4 (_ymd2ord year NOV 1) - 7
                 ∧ d ≠ nth_weekday TH 4 (_ymd2ord year NOV 1) + 7)
    (_populate observed year) tt.
Proof.
  destruct (easter_facts year Hy) as (e & He & Hsun & Hrange).
  unfold _populate, nth_weekday.
  repeat writes_step.
  all: try date_lia.
  bool_hyps. subst year. vm_compute. repeat split; discriminate.
Qed.

Lemma usgs_veterans_settles :
  _is_saturday (_ymd2ord year NOV 11) = false →
  settles (observed_date (_ymd2ord year NOV 11))
    (observed_label (_ymd2ord year NOV 11) "Veteran's Day")
    (_populate observed year).
Proof.
  intros Hsat.
  destruct (easter_facts year Hy) as (e & He & Hsun & Hrange).
  unfold _populate, observed_date, observed_label.
  settles_nav "Veteran's Day" finishes.
  - rewrite Hsat. apply settles_set_observed_date. date_lia.
  - repeat writes_step. all: date_lia.
Qed.

Lemma usgs_no_veterans_on_saturday :
  _is_saturday (_ymd2ord year NOV 11) = true →
  writes (λ d name, name ≠ "Veteran's Day"
                    ∧ name ≠ "Veteran's Day (Observed)"
                    ∧ d ≠ _ymd2ord year NOV 11 - 1
                    ∧ d ≠ _ymd2ord year NOV 11
                    ∧ d ≠ _ymd2ord year NOV 11 + 1)
    (_populate observed year) tt.
Proof.
  intros Hsat.
  destruct (easter_facts year Hy) as (e & He & Hsun & Hrange).
  unfold _populate.
  repeat writes_step.
  all: first [ repeat split; first [ label_neq | date_lia ] | date_lia ].
Qed.

Lemma usgs_christmas_settles :
  settles (observed_date (_ymd2ord year DEC 25))
    (observed_label (_ymd2ord year DEC 25) "Christmas Day")
    (_populate observed year).
Proof.
  destruct (easter_facts year Hy) as (e & He & Hsun & Hrange).
  unfold _populate, observed_date, observed_label.
  settles_nav "Christmas Day" finishes.
  - apply settles_set_observed_date. date_lia.
  - repeat writes_step. all: date_lia.
Qed.

Lemma usgs_christmas_alone :
  writes (λ d _, _ymd2ord year DEC 24 - 1 <= d <= _ymd2ord year DEC 26 + 1 →
                 d = observed_date (_ymd2ord year DEC 25))
    (_populate observed year) tt.
Proof.
  destruct (easter_facts year Hy) as (e & He & Hsun & Hrange).
  unfold _populate, observed_date.
  repeat writes_step.
  all: date_lia.
Qed.

Lemma usgs_memorial_since_1971 :
  1971 <= year →
  settles (last_weekday MO (_ymd2ord year MAY 31)) "Memorial Day"
    (_populate observed year).
Proof.
  intros Hge.
  destruct (easter_facts year Hy) as (e & He & Hsun & Hrange).
  unfold _populate, last_weekday.
  settles_nav "Memorial Day" finishes.
  - replace (year <? 1971) with false by (symmetry; apply Z.ltb_ge; lia).
    eapply settles_skip; [apply writes_lift; lift_ok; date_lia |].
    cbv beta. by apply settles_setitem_eq.
  - repeat writes_step. all: date_lia.
Qed.

Lemma usgs_memorial_before_1971 :
  year < 1971 →
  settles (observed_date (_ymd2ord year MAY 30))
    (observed_label (_ymd2ord year MAY 30) "Memorial Day")
    (_populate observed year).
Proof.
  intros Hlt.
  destruct (easter_facts year Hy) as (e & He & Hsun & Hrange).
  unfold _populate, observed_date, observed_label.
  settles_nav "Memorial Day" finishes.
  - replace (year <? 1971) with true by (symmetry; apply Z.ltb_lt; lia).
    eapply settles_skip; [apply writes_lift; lift_ok |].
    cbv beta. apply settles_set_observed_date. date_lia.
  - repeat writes_step. all: date_lia.
Qed.

End usgs_floating.

Section usgs_floating_holidays.
Import HolidayBase UnitedStatesGovernmentSecurities.

Lemma nth_weekday_spec wd n d :
  0 <= wd <= 6 → 1 <= n →
  weekday (nth_weekday wd n d) = wd
  ∧ d + 7 * (n - 1) <= nth_weekday wd n d <= d + 7 * n - 1.
Proof.
  unfold nth_weekday, weekday. intros Hwd Hn.
  Z.div_mod_to_equations. lia.
Qed.

Lemma last_weekday_spec wd d :
  0 <= wd <= 6 →
  weekday (last_weekday wd d) = wd ∧ d - 6 <= last_weekday wd d <= d.
Proof.
  unfold last_weekday, weekday. intros Hwd.
  Z.div_mod_to_equations. lia.
Qed.

(** X5. Martin Luther King Jr. Day is a holiday of the market from 1986
    on, on the third Monday of January, a date from January 15 to 21;
    before 1986 no entry carries its name. *)
Theorem usgs_martin_luther_king_day (observed : bool) (year : Z) :
  valid_year year →
  ∃ m, run (_populate observed year) = Ok m
       ∧ (year < 1986 → no_label "Martin Luther King Jr. Day" m)
       ∧ (1986 <= year →
          ∃ d, m !! d = Some "Martin Luther King Jr. Day"
               ∧ weekday d = MO
               ∧ _ymd2ord year JAN 15 <= d <= _ymd2ord year JAN 21).
Proof.
  intros Hy. destruct (decide (year < 1986)) as [Hlt | Hge].
  - destruct (writes_run _ _ (usgs_no_mlk_before_1986 observed year Hy Hlt))
      as (m & Hm & F).
    exists m. split; [done |]. split; [| lia].
    intros _. eapply map_Forall_no_label; [exact F |]. intros _ H. by apply H.
  - destruct (settles_run _ _ _
      (usgs_mlk_settles observed year Hy ltac:(lia))) as (m & Hm & L).
    exists m. split; [done |]. split; [lia |]. intros _.
    exists (nth_weekday MO 3 (_ymd2ord year JAN 1)). split; [done |].
    destruct (nth_weekday_spec MO 3 (_ymd2ord year JAN 1)) as [Hw Hr]; [lia.. |].
    split; [done |]. rewrite !ymd2ord_unfold in *. cbn in *. lia.
Qed.

Lemma usgs_martin_luther_king_day_witness :
  valid_year 1985
  ∧ ∃ m, run (_populate true 1985) = Ok m
         ∧ no_label "Martin Luther King Jr. Day" m.
Proof.
  assert (Hy : valid_year 1985) by (unfold valid_year, MINYEAR, MAXYEAR; lia).
  split; [exact Hy |].
  destruct (usgs_martin_luther_king_day true 1985 Hy) as (m & Hm & H & _).
  exists m. split; [exact Hm |]. apply H. lia.
Defined.

(** X6. Memorial Day is May 30, observed on the Friday before a
    Saturday and on the Monday after a Sunday, before 1971, and the last
    Monday of May, a date from May 25 to 31, from 1971 on. *)
Theorem usgs_memorial_day (observed : bool) (year : Z) :
  valid_year year →
  ∃ m, run (_populate observed year) = Ok m
       ∧ (year < 1971 →
          m !! observed_date (_ymd2ord year MAY 30)
          = Some (observed_label (_ymd2ord year MAY 30) "Memorial Day"))
       ∧ (1971 <= year →
          ∃ d, m !! d = Some "Memorial Day"
               ∧ weekday d = MO
               ∧ _ymd2ord year MAY 25 <= d <= _ymd2ord year MAY 31).
Proof.
  intros Hy. destruct (decide (year < 1971)) as [Hlt | Hge].
  - destruct (settles_run _ _ _
      (usgs_memorial_before_1971 observed year Hy Hlt)) as (m & Hm & L).
    exists m. split; [done |]. split; [done | lia].
  - destruct (settles_run _ _ _
      (usgs_memorial_since_1971 observed year Hy ltac:(lia))) as (m & Hm & L).
    exists m. split; [done |]. split; [lia |]. intros _.
    exists (last_weekday MO (_ymd2ord year MAY 31)). split; [done |].
    destruct (last_weekday_spec MO (_ymd2ord year MAY 31)) as [Hw Hr]; [lia |].
    split; [done |]. rewrite !ymd2ord_unfold in *. cbn in *. lia.
Qed.

Lemma usgs_memorial_day_witness :
  valid_year 1965
  ∧ ∃ m, run (_populate true 1965) = Ok m
         ∧ m !! _ymd2ord 1965 MAY 31 = Some "Memorial Day (Observed)".
Proof.
  assert (Hy : valid_year 1965) by (unfold valid_year, MINYEAR, MAXYEAR; lia).
  split; [exact Hy |].
  destruct (usgs_memorial_day true 1965 Hy) as (m & Hm & H & _).
  exists m. split; [exact Hm |]. apply H. lia.
Defined.

(** X7. Thanksgiving Day is in the map of every year on the fourth
    Thursday of November, a date from November 22 to 28; the day before
    and the day after it, and the Thursdays a week before and after, are
    not holidays. *)
Theorem usgs_thanksgiving_day (observed : bool) (year : Z) :
  valid_year year →
  ∃ m d, run (_populate observed year) = Ok m
         ∧ m !! d = Some "Thanksgiving Day"
         ∧ weekday d = TH
         ∧ _ymd2ord year NOV 22 <= d <= _ymd2ord year NOV 28
         ∧ m !! (d - 1) = None ∧ m !! (d + 1) = None
         ∧ m !! (d - 7) = None ∧ m !! (d + 7) = None.
Proof.
  intros Hy.
  destruct (settles_run _ _ _ (usgs_thanksgiving_settles observed year Hy))
    as (m & Hm & L).
  destruct (writes_run _ _ (usgs_thanksgiving_alone observed year Hy))
    as (m2 & Hm2 & F).
  assert (m2 = m) as -> by congruence.
  exists m, (nth_weekday TH 4 (_ymd2ord year NOV 1)).
  split; [done |]. split; [done |].
  destruct (nth_weekday_spec TH 4 (_ymd2ord year NOV 1)) as [Hw Hr]; [lia.. |].
  split; [done |].
  split; [rewrite !ymd2ord_unfold in *; cbn in *; lia |].
  repeat split; (eapply map_Forall_absent; [exact F |]); cbn; intros _; lia.
Qed.

Lemma usgs_thanksgiving_day_witness :
  valid_year 2022
  ∧ ∃ m d, run (_populate true 2022) = Ok m
           ∧ m !! d = Some "Thanksgiving Day"
           ∧ weekday d = TH
           ∧ _ymd2ord 2022 NOV 22 <= d <= _ymd2ord 2022 NOV 28
           ∧ m !! (d - 1) = None ∧ m !! (d + 1) = None
           ∧ m !! (d - 7) = None ∧ m !! (d + 7) = None.
Proof.
  assert (Hy : valid_year 2022) by (unfold valid_year, MINYEAR, MAXYEAR; lia).
  split; [exact Hy |].
  exact (usgs_thanksgiving_day true 2022 Hy).
Defined.

(** X8. Veterans Day is kept on November 11 on a weekday and moved to
    the Monday after, marked as observed, from a Sunday; a year whose
    November 11 is a Saturday has no Veterans Day at all: no entry
    carries its name, and the Friday before, the day itself and the
    Sunday after are not holidays. *)
Theorem usgs_veterans_day (observed : bool) (year : Z) :
  valid_year year →
  ∃ m, run (_populate observed year) = Ok m
       ∧ (weekday (_ymd2ord year NOV 11) ≠ SA →
          m !! observed_date (_ymd2ord year NOV 11)
          = Some (observed_label (_ymd2ord year NOV 11) "Veteran's Day"))
       ∧ (weekday (_ymd2ord year NOV 11) = SA →
          no_label "Veteran's Day" m
          ∧ no_label "Veteran's Day (Observed)" m
          ∧ m !! (_ymd2ord year NOV 11 - 1) = None
          ∧ m !! _ymd2ord year NOV 11 = None
          ∧ m !! (_ymd2ord year NOV 11 + 1) = None).
Proof.
  intros Hy.
  destruct (_is_saturday (_ymd2ord year NOV 11)) eqn:Hsat.
  - destruct (writes_run _ _
      (usgs_no_veterans_on_saturday observed year Hy Hsat)) as (m & Hm & F).
    apply Z.eqb_eq in Hsat.
    exists m. split; [done |]. split; [done |]. intros _.
    split; [| split; [| split; [| split]]].
    + eapply map_Forall_no_label; [exact F |]. intros d (H & _). by apply H.
    + eapply map_Forall_no_label; [exact F |].
      intros d (_ & H & _). by apply H.
    + eapply map_Forall_absent; [exact F |].
      intros l (_ & _ & H & _). by apply H.
    + eapply map_Forall_absent; [exact F |].
      intros l (_ & _ & _ & H & _). by apply H.
    + eapply map_Forall_absent; [exact F |].
      intros l (_ & _ & _ & _ & H). by apply H.
  - destruct (settles_run _ _ _
      (usgs_veterans_settles observed year Hy Hsat)) as (m & Hm & L).
    apply Z.eqb_neq in Hsat.
    exists m. split; [done |]. split; [done |]. intros H. by destruct Hsat.
Qed.

Lemma usgs_veterans_day_witness :
  valid_year 2023
  ∧ ∃ m, run (_populate true 2023) = Ok m
         ∧ no_label "Veteran's Day" m
         ∧ no_label "Veteran's Day (Observed)" m
         ∧ m !! (_ymd2ord 2023 NOV 11 - 1) = None
         ∧ m !! _ymd2ord 2023 NOV 11 = None
         ∧ m !! (_ymd2ord 2023 NOV 11 + 1) = None.
Proof.
  assert (Hy : valid_year 2023) by (unfold valid_year, MINYEAR, MAXYEAR; lia).
  split; [exact Hy |].
  destruct (usgs_veterans_day true 2023 Hy) as (m & Hm & _ & H).
  exists m. split; [exact Hm |]. apply H. reflexivity.
Defined.

(** X9. Christmas Day is in the map of every year on exactly one of
    December 24, 25 and 26: on December 25 when that is a weekday, on the
    Friday before, marked as observed, when it is a Saturday, on the
    Monday after when it is a Sunday; no other day from December 23 to 27
    is a holiday. *)
Theorem usgs_christmas_day (observed : bool) (year : Z) :
  valid_year year →
  ∃ m, run (_populate observed year) = Ok m
       ∧ m !! observed_date (_ymd2ord year DEC 25)
         = Some (observed_label (_ymd2ord year DEC 25) "Christmas Day")
       ∧ ∀ d, _ymd2ord year DEC 23 <= d <= _ymd2ord year DEC 27 →
              d ≠ observed_date (_ymd2ord year DEC 25) →
              m !! d = None.
Proof.
  intros Hy.
  destruct (settles_run _ _ _ (usgs_christmas_settles observed year Hy))
    as (m & Hm & L).
  destruct (writes_run _ _ (usgs_christmas_alone observed year Hy))
    as (m2 & Hm2 & F).
  assert (m2 = m) as -> by congruence.
  exists m. split; [done |]. split; [done |].
  intros d Hd Hne. eapply map_Forall_absent; [exact F |].
  cbn. intros _ H. apply Hne, H.
  rewrite !ymd2ord_unfold in *. cbn in *. lia.
Qed.

Lemma usgs_christmas_day_witness :
  valid_year 2021
  ∧ ∃ m, run (_populate true 2021) = Ok m
         ∧ m !! _ymd2ord 2021 DEC 24 = Some "Christmas Day (Observed)"
         ∧ m !! _ymd2ord 2021 DEC 25 = None.
Proof.
  assert (Hy : valid_year 2021) by (unfold valid_year, MINYEAR, MAXYEAR; lia).
  split; [exact Hy |].
  destruct (usgs_christmas_day true 2021 Hy) as (m & Hm & H1 & H2).
  exists m. split; [exact Hm |]. split; [exact H1 |].
  apply H2; vm_compute; [split |]; discriminate.
Defined.

End usgs_floating_holidays.

(** ** Hungary *)

Section hungary_day_off_rule.
Import HolidayBase Hungary.

Lemma ends_with_app suffix p : ends_with suffix (p +:+ suffix) = true.
Proof.
  induction p as [| a p IH].
  - change (EmptyString +:+ suffix) with suffix.
    destruct suffix; cbn; [done |]. by rewrite Ascii.eqb_refl, String.eqb_refl.
  - change (String a p +:+ suffix) with (String a (p +:+ suffix)).
    cbn. rewrite IH. apply orb_true_r.
Qed.

(** The map [_add_with_observed_day_off] leaves. *)
Lemma day_off_eq observed d desc since before after m :
  valid_date d →
  _add_with_observed_day_off observed d desc since before after m
  = Ok (tt,
        if observed && (since <=? datetime.year d) then
          if (weekday d =? TU) && before
             && negb ((datetime.month d =? JAN) && (datetime.day d =? 1))
          then <[d - 1 := desc +:+ " előtti pihenőnap"]> (<[d := desc]> m)
          else if (weekday d =? TH) && after
          then <[d + 1 := desc +:+ " utáni pihenőnap"]> (<[d := desc]> m)
          else <[d := desc]> m
        else <[d := desc]> m).
Proof.
  intros Hd. destruct (tuesday_thursday_valid d Hd) as [Vtu Vth].
  unfold _add_with_observed_day_off, mbind, M_bind, setitem, when, lift, rd_days.
  destruct (observed && (since <=? datetime.year d)); [| done].
  destruct ((weekday d =? TU) && before
            && negb ((datetime.month d =? JAN) && (datetime.day d =? 1))) eqn:E1.
  - apply andb_true_iff in E1 as [[Ew%Z.eqb_eq _]%andb_true_iff _].
    rewrite add_days_ok by (specialize (Vtu Ew); unfold valid_date in Vtu; lia).
    by replace (d + -1) with (d - 1) by lia.
  - destruct ((weekday d =? TH) && after) eqn:E2; [| done].
    apply andb_true_iff in E2 as [Ew%Z.eqb_eq _].
    by rewrite add_days_ok by (by apply Vth).
Qed.

(** X10. [_add_with_observed_day_off] finishes on every date object and
    always leaves the holiday under its own name.  It adds at most one
    day off, and only when days off are observed and the year has
    reached [since]: the Monday before a Tuesday (never before
    January 1), or the Friday after a Thursday. *)
Theorem hungary_day_off_entry (observed : bool) (d : date) (desc : string)
    (since : Z) (before after : bool) (m : gmap Z string) :
  valid_date d →
  ∃ m', _add_with_observed_day_off observed d desc since before after m
        = Ok (tt, m')
        ∧ m' !! d = Some desc
        ∧ (m' = <[d := desc]> m
           ∨ observed = true ∧ since <= datetime.year d
             ∧ (weekday d = TU ∧ before = true
                ∧ ¬ (datetime.month d = JAN ∧ datetime.day d = 1)
                ∧ weekday (d - 1) = MO
                ∧ m' = <[d - 1 := desc +:+ " előtti pihenőnap"]>
                         (<[d := desc]> m)
                ∨ weekday d = TH ∧ after = true
                  ∧ weekday (d + 1) = FR
                  ∧ m' = <[d + 1 := desc +:+ " utáni pihenőnap"]>
                           (<[d := desc]> m)))
        ∧ (observed = false ∨ datetime.year d < since →
           m' = <[d := desc]> m).
Proof.
  intros Hd. rewrite (day_off_eq _ _ _ _ _ _ _ Hd).
  eexists. split; [reflexivity |].
  destruct (observed && (since <=? datetime.year d)) eqn:E0.
  - apply andb_true_iff in E0 as [-> E0%Z.leb_le].
    destruct ((weekday d =? TU) && before
              && negb ((datetime.month d =? JAN) && (datetime.day d =? 1)))
      eqn:E1; [| destruct ((weekday d =? TH) && after) eqn:E2].
    + apply andb_true_iff in E1 as [[Ew%Z.eqb_eq ->]%andb_true_iff En].
      split; [rewrite lookup_insert_ne by lia; apply lookup_insert_eq |].
      split; [| intros [? | ?]; [done | lia]].
      right. split; [done |]. split; [done |]. left.
      split; [done |]. split; [done |].
      split; [| split; [unfold weekday in *; Z.div_mod_to_equations; lia | done]].
      intros [Hm Hday]. rewrite Hm, Hday in En. done.
    + apply andb_true_iff in E2 as [Ew%Z.eqb_eq ->].
      split; [rewrite lookup_insert_ne by lia; apply lookup_insert_eq |].
      split; [| intros [? | ?]; [done | lia]].
      right. split; [done |]. split; [done |]. right.
      split; [done |]. split; [done |].
      split; [unfold weekday in *; Z.div_mod_to_equations; lia | done].
    + split; [apply lookup_insert_eq |]. split; [by left | done].
  - split; [apply lookup_insert_eq |]. split; [by left | done].
Qed.

Lemma hungary_day_off_entry_witness :
  valid_date (_ymd2ord 2022 MAR 15)
  ∧ _add_with_observed_day_off true (_ymd2ord 2022 MAR 15) "Nemzeti ünnep"
      2010 true true ∅
    = Ok (tt, <[_ymd2ord 2022 MAR 14 := "Nemzeti ünnep előtti pihenőnap"]>
                (<[_ymd2ord 2022 MAR 15 := "Nemzeti ünnep"]> ∅)).
Proof.
  assert (H : valid_date (_ymd2ord 2022 MAR 15))
    by (vm_compute; split; [reflexivity | discriminate]).
  split; [exact H |].
  destruct (hungary_day_off_entry true _ "Nemzeti ünnep" 2010 true true ∅ H)
    as (m' & Hm' & _ & [Hn | (_ & _ & [(_ & _ & _ & _ & Hb) | (Hth & _)])] & _).
  - exfalso. rewrite (day_off_eq _ _ _ _ _ _ _ H) in Hm'.
    injection Hm' as <-. revert Hn. vm_compute. discriminate.
  - rewrite Hm', Hb. reflexivity.
  - discriminate Hth.
Defined.

(** The holiday stays where it is: the day off is a neighbour. *)
Lemma settles_day_off_holiday observed d desc since before after :
  valid_date d →
  settles d desc (_add_with_observed_day_off observed d desc since before after).
Proof.
  intros Hd.
  set (w := if observed && (since <=? datetime.year d) then
          if (weekday d =? TU) && before
             && negb ((datetime.month d =? JAN) && (datetime.day d =? 1))
          then <[d - 1 := desc +:+ " előtti pihenőnap"]> (<[d := desc]> ∅)
          else if (weekday d =? TH) && after
          then <[d + 1 := desc +:+ " utáni pihenőnap"]> (<[d := desc]> ∅)
          else <[d := desc]> ∅
        else <[d := desc]> (∅ : gmap Z string)).
  exists w. subst w. split.
  - intros m. rewrite (day_off_eq _ _ _ _ _ _ _ Hd).
    repeat match goal with |- context [if ?b then _ else _] => destruct b end;
      by rewrite <- ?insert_union_l, (left_id_L ∅ (∪)).
  - repeat match goal with |- context [if ?b then _ else _] => destruct b end;
      rewrite ?lookup_insert_ne by lia; apply lookup_insert_eq.
Qed.

(** The Friday off after a Thursday. *)
Lemma settles_day_off_after d desc since before :
  valid_date d → since <= datetime.year d → weekday d = TH →
  settles (d + 1) (desc +:+ " utáni pihenőnap")
    (_add_with_observed_day_off true d desc since before true).
Proof.
  intros Hd Hs Hw.
  exists (<[d + 1 := desc +:+ " utáni pihenőnap"]> (<[d := desc]> ∅)).
  split; [| apply lookup_insert_eq].
  intros m. rewrite (day_off_eq _ _ _ _ _ _ _ Hd).
  replace (since <=? datetime.year d) with true by (symmetry; by apply Z.leb_le).
  rewrite Hw. cbn [andb Z.eqb].
  by rewrite <- !insert_union_l, (left_id_L ∅ (∪)).
Qed.

(** As [writes_day_off], the day off knowing that the year has
    reached [since]. *)
Lemma writes_day_off_since W observed d desc since before after :
  valid_date d →
  W d desc →
  (observed = true → since <= datetime.year d →
   (weekday d =? TU) = true → before = true →
   negb ((datetime.month d =? JAN) && (datetime.day d =? 1)) = true →
   W (d + -1) (desc +:+ " előtti pihenőnap")) →
  (observed = true → since <= datetime.year d →
   (weekday d =? TH) = true → after = true →
   W (d + 1) (desc +:+ " utáni pihenőnap")) →
  writes W
    (_add_with_observed_day_off observed d desc since before after) tt.
Proof.
  intros Hd H0 H1 H2. unfold _add_with_observed_day_off.
  destruct (tuesday_thursday_valid d Hd) as [Vtu Vth].
  eapply writes_bind; [by apply writes_setitem |].
  apply writes_when; intros [-> Hs%Z.leb_le]%andb_true_iff.
  destruct ((weekday d =? TU) && before
            && negb ((datetime.month d =? JAN) && (datetime.day d =? 1))) eqn:E1.
  - apply andb_true_iff in E1 as [[Ew Eb]%andb_true_iff En].
    eapply writes_bind.
    + apply writes_lift, add_days_ok. apply Z.eqb_eq in Ew.
      specialize (Vtu Ew). unfold valid_date in Vtu.
      by replace (d + -1) with (d - 1) by lia.
    + apply writes_setitem. auto.
  - destruct ((weekday d =? TH) && after) eqn:E2; [| apply writes_ret].
    apply andb_true_iff in E2 as [Ew Ea].
    eapply writes_bind.
    + apply writes_lift, add_days_ok. apply Z.eqb_eq in Ew. by apply Vth.
    + apply writes_setitem. auto.
Qed.

End hungary_day_off_rule.


Ltac writes_step_since :=
  cbv beta;
  lazymatch goal with
  | |- writes _ (Hungary._add_with_observed_day_off _ _ _ _ _ _) _ =>
      apply writes_day_off_since; [| | intros ? ? ? ? ? | intros ? ? ? ?]
  | _ => writes_step
  end.


(** Walk to the last statement of a population. *)
Ltac settles_last total :=
  cbv beta;
  lazymatch goal with
  | |- settles _ _ (mbind _ _) =>
      eapply settles_skip; [total | settles_last total]
  | _ => idtac
  end.

Section hungary_more.
Import HolidayBase Hungary.

Variable observed : bool.
Variable year : Z.
Hypothesis Hy : valid_year year.

(** Without the observed days nothing but the holidays is written. *)
Lemma hungary_unobserved_writes :
  observed = false →
  writes (λ _ name, day_off_label name = false
                    ∧ name ≠ "Szenteste" ∧ name ≠ "Szilveszter")
    (_populate observed year) tt.
Proof.
  intros ->.
  destruct (easter_facts year Hy) as (e & He & Hsun & Hrange).
  unfold _populate.
  repeat writes_step.
  all: first [ discriminate
             | split; [reflexivity | split; label_neq]
             | date_lia ].
Qed.

Section easter_feasts.
Variable e : Z.
Hypothesis He : easter year = Ok e.
Hypothesis Hsun : weekday e = SU.
Hypothesis Hrange : _ymd2ord year MAR 22 <= e <= _ymd2ord year APR 25.

Lemma hungary_easter_settles :
  settles e "Húsvét" (_populate observed year).
Proof.
  pose proof (new_year_month_day year Hy) as [Hm Hd].
  unfold _populate.
  settles_nav "Húsvét" finishes.
  - apply settles_setitem.
  - repeat writes_step. all: date_lia.
Qed.

Lemma hungary_easter_monday_settles :
  year ≠ 1955 →
  settles (e + 1) "Húsvét Hétfő" (_populate observed year).
Proof.
  intros Hne.
  pose proof (new_year_month_day year Hy) as [Hm Hd].
  unfold _populate.
  settles_nav "Húsvét Hétfő" finishes.
  - apply settles_when; [apply negb_true_iff, Z.eqb_neq; lia |].
    eapply settles_skip; [apply writes_lift; lift_ok; date_lia |].
    cbv beta. apply settles_setitem.
  - repeat writes_step. all: date_lia.
Qed.

Lemma hungary_pentecost_settles :
  settles (e + 49) "Pünkösd" (_populate observed year).
Proof.
  pose proof (new_year_month_day year Hy) as [Hm Hd].
  unfold _populate.
  settles_nav "Pünkösd" finishes.
  - apply settles_setitem.
  - repeat writes_step. all: date_lia.
Qed.

Lemma hungary_pentecost_monday_settles :
  year <= 1952 ∨ 1992 <= year →
  settles (e + 50) "Pünkösdhétfő" (_populate observed year).
Proof.
  intros Hera.
  pose proof (new_year_month_day year Hy) as [Hm Hd].
  unfold _populate.
  settles_nav "Pünkösdhétfő" finishes.
  - apply settles_when.
    { apply orb_true_iff. rewrite !Z.leb_le. lia. }
    eapply settles_skip; [apply writes_lift; lift_ok; date_lia |].
    cbv beta. apply settles_setitem.
  - repeat writes_step. all: date_lia.
Qed.

Lemma hungary_no_pentecost_monday :
  1953 <= year <= 1991 →
  writes (λ d name, name ≠ "Pünkösdhétfő" ∧ d ≠ e + 50)
    (_populate observed year) tt.
Proof.
  intros Hera.
  pose proof (new_year_month_day year Hy) as [Hm Hd].
  unfold _populate.
  repeat writes_step.
  all: first [ split; [first [label_neq | date_lia] | date_lia] | date_lia ].
Qed.

End easter_feasts.

(** The labels of the Soviet era. *)
Lemma hungary_no_soviet_labels :
  year < 1950 ∨ 1989 < year →
  writes (λ _ name, name ≠ "A Tanácsköztársaság kikiáltásának ünnepe"
                    ∧ name ≠ "A felszabadulás ünnepe"
                    ∧ name ≠ "A nagy októberi szocialista forradalom ünnepe"
                    ∧ name ≠ "A kenyér ünnepe")
    (_populate observed year) tt.
Proof.
  intros Hera.
  destruct (easter_facts year Hy) as (e & He & Hsun & Hrange).
  pose proof (new_year_month_day year Hy) as [Hm Hd].
  unfold _populate.
  repeat writes_step.
  all: first [ split; [label_neq | split; [label_neq | split; label_neq]]
             | date_lia ].
Qed.

Lemma hungary_council_republic_settles :
  1950 <= year <= 1989 →
  settles (_ymd2ord year MAR 21) "A Tanácsköztársaság kikiáltásának ünnepe"
    (_populate observed year).
Proof.
  intros Hera.
  destruct (easter_facts year Hy) as (e & He & Hsun & Hrange).
  pose proof (new_year_month_day year Hy) as [Hm Hd].
  unfold _populate.
  settles_nav "A Tanácsköztársaság kikiáltásának ünnepe" finishes.
  - apply settles_when.
    { apply andb_true_iff. rewrite !Z.leb_le. lia. }
    eapply settles_skip; [apply writes_lift; lift_ok |].
    cbv beta. apply settles_then; [apply settles_setitem |].
    repeat writes_step. all: date_lia.
  - repeat writes_step. all: date_lia.
Qed.

Lemma hungary_liberation_settles e :
  easter year = Ok e → weekday e = SU →
  _ymd2ord year MAR 22 <= e <= _ymd2ord year APR 25 →
  1950 <= year <= 1989 →
  e ≠ _ymd2ord year APR 4 → e + 1 ≠ _ymd2ord year APR 4 →
  settles (_ymd2ord year APR 4) "A felszabadulás ünnepe"
    (_populate observed year).
Proof.
  intros He Hsun Hrange Hera Hne Hne1.
  pose proof (new_year_month_day year Hy) as [Hm Hd].
  unfold _populate.
  settles_nav "A felszabadulás ünnepe" finishes.
  - apply settles_when.
    { apply andb_true_iff. rewrite !Z.leb_le. lia. }
    eapply settles_skip; [finishes |]. cbv beta.
    eapply settles_skip; [finishes |]. cbv beta.
    eapply settles_skip; [apply writes_lift; lift_ok |].
    cbv beta. apply settles_then; [apply settles_setitem |].
    repeat writes_step. all: date_lia.
  - repeat writes_step. all: date_lia.
Qed.

Lemma hungary_october_revolution_settles :
  1950 <= year <= 1989 → year ≠ 1956 → year ≠ 1989 →
  settles (_ymd2ord year NOV 7)
    "A nagy októberi szocialista forradalom ünnepe"
    (_populate observed year).
Proof.
  intros Hera H56 H89.
  destruct (easter_facts year Hy) as (e & He & Hsun & Hrange).
  pose proof (new_year_month_day year Hy) as [Hm Hd].
  unfold _populate.
  settles_nav "A nagy októberi szocialista forradalom ünnepe" finishes.
  - apply settles_when.
    { apply andb_true_iff. rewrite !Z.leb_le. lia. }
    eapply settles_skip; [finishes |]. cbv beta.
    eapply settles_skip; [finishes |]. cbv beta.
    eapply settles_skip; [finishes |]. cbv beta.
    eapply settles_skip; [finishes |]. cbv beta.
    apply settles_when.
    { apply negb_true_iff, orb_false_iff. rewrite !Z.eqb_neq. lia. }
    eapply settles_skip; [apply writes_lift; lift_ok |].
    cbv beta. apply settles_setitem.
  - repeat writes_step. all: date_lia.
Qed.

Lemma hungary_no_october_revolution :
  year = 1956 ∨ year = 1989 →
  writes (λ d name, name ≠ "A nagy októberi szocialista forradalom ünnepe"
                    ∧ d ≠ _ymd2ord year NOV 7)
    (_populate observed year) tt.
Proof.
  intros Hera.
  destruct (easter_facts year Hy) as (e & He & Hsun & Hrange).
  pose proof (new_year_month_day year Hy) as [Hm Hd].
  unfold _populate.
  repeat writes_step.
  all: first [ split; [first [label_neq | date_lia] | date_lia] | date_lia ].
Qed.

(** August 20. *)
Lemma hungary_august_20_settles :
  settles (_ymd2ord year AUG 20)
    (if (1950 <=? year) && (year <? 1990)
     then "A kenyér ünnepe" else "Az államalapítás ünnepe")
    (_populate observed year).
Proof.
  destruct (easter_facts year Hy) as (e & He & Hsun & Hrange).
  pose proof (new_year_month_day year Hy) as [Hm Hd].
  unfold _populate.
  settles_nav "A kenyér ünnepe" finishes.
  - destruct ((1950 <=? year) && (year <? 1990)).
    + eapply settles_skip; [apply writes_lift; lift_ok |].
      cbv beta. apply settles_setitem.
    + eapply settles_skip; [apply writes_lift; lift_ok |].
      cbv beta. apply settles_day_off_holiday. date_lia.
  - repeat writes_step. all: date_lia.
Qed.

(** The turn of the year. *)
Lemma hungary_new_year_settles :
  settles (_ymd2ord year JAN 1) "Újév" (_populate observed year).
Proof.
  destruct (easter_facts year Hy) as (e & He & Hsun & Hrange).
  pose proof (new_year_month_day year Hy) as [Hm Hd].
  unfold _populate.
  eapply settles_skip; [finishes |]. cbv beta.
  eapply settles_skip; [apply writes_lift; lift_ok |]. cbv beta.
  apply settles_then.
  - apply settles_day_off_holiday. date_lia.
  - repeat writes_step. all: date_lia.
Qed.

Lemma hungary_szilveszter_settles :
  observed = true → 2014 <= year → weekday (_ymd2ord year DEC 31) = MO →
  settles (_ymd2ord year DEC 31) "Szilveszter" (_populate observed year).
Proof.
  intros Ho Hge Hmo.
  destruct (easter_facts year Hy) as (e & He & Hsun & Hrange).
  pose proof (new_year_month_day year Hy) as [Hm Hd].
  unfold _populate.
  settles_last finishes.
  apply settles_when.
  { apply andb_true_iff. rewrite Z.leb_le. by split. }
  eapply settles_skip; [apply writes_lift; lift_ok |]. cbv beta.
  apply settles_when; [by apply Z.eqb_eq |]. apply settles_setitem.
Qed.

(** Whatever is written with the label of the day off before New Year
    is written on December 31, and December 31 is written only on the
    Monday of an observed year from 2014. *)
Lemma hungary_december_31_writes :
  writes (λ d name, name = "Újév előtti pihenőnap" ∨ d = _ymd2ord year DEC 31 →
                    d = _ymd2ord year DEC 31
                    ∧ observed = true ∧ 2014 <= year
                    ∧ weekday (_ymd2ord year DEC 31) = MO)
    (_populate observed year) tt.
Proof.
  destruct (easter_facts year Hy) as (e & He & Hsun & Hrange).
  pose proof (new_year_month_day year Hy) as [Hm Hd].
  unfold _populate.
  repeat writes_step.
  all: try date_lia.
  all: intros [Hl | Hd31];
    [ first [ exfalso; revert Hl; label_neq
            | split; [reflexivity |]; bool_hyps; subst; repeat split; date_lia
            | exfalso; date_lia ]
    | first [ split; [exact Hd31 |]; bool_hyps; subst; repeat split; date_lia
            | exfalso; date_lia ] ].
Qed.

(** Christmas. *)
Lemma hungary_christmas_eve_settles :
  observed = true → 2010 <= year → weekday (_ymd2ord year DEC 24) <= FR →
  settles (_ymd2ord year DEC 24) "Szenteste" (_populate observed year).
Proof.
  intros Ho Hge Hwd.
  destruct (easter_facts year Hy) as (e & He & Hsun & Hrange).
  pose proof (new_year_month_day year Hy) as [Hm Hd].
  unfold _populate.
  settles_nav "Szenteste" finishes.
  - apply settles_when.
    { apply andb_true_iff. rewrite Z.leb_le. by split. }
    eapply settles_skip; [apply writes_lift; lift_ok |]. cbv beta.
    apply settles_when; [| apply settles_setitem].
    apply negb_true_iff. unfold _is_weekend, _is_saturday, _is_sunday.
    apply orb_false_iff. rewrite !Z.eqb_neq. lia.
  - repeat writes_step. all: date_lia.
Qed.

Lemma hungary_christmas_settles :
  settles (_ymd2ord year DEC 25) "Karácsony" (_populate observed year).
Proof.
  destruct (easter_facts year Hy) as (e & He & Hsun & Hrange).
  pose proof (new_year_month_day year Hy) as [Hm Hd].
  unfold _populate.
  settles_nav "Karácsony" finishes.
  - apply settles_setitem.
  - repeat writes_step. all: date_lia.
Qed.

Lemma hungary_second_christmas_settles :
  year ≠ 1955 →
  settles (_ymd2ord year DEC 26) "Karácsony másnapja"
    (_populate observed year).
Proof.
  intros Hne.
  destruct (easter_facts year Hy) as (e & He & Hsun & Hrange).
  pose proof (new_year_month_day year Hy) as [Hm Hd].
  unfold _populate.
  settles_nav "Karácsony másnapja" finishes.
  - apply settles_when; [apply negb_true_iff, Z.eqb_neq; lia |].
    eapply settles_skip; [apply writes_lift; lift_ok |]. cbv beta.
    apply settles_day_off_holiday. date_lia.
  - repeat writes_step. all: date_lia.
Qed.

Lemma hungary_christmas_day_off_settles :
  observed = true → 2013 <= year → weekday (_ymd2ord year DEC 26) = TH →
  settles (_ymd2ord year DEC 26 + 1) "Karácsony másnapja utáni pihenőnap"
    (_populate observed year).
Proof.
  intros Ho Hge Hth.
  destruct (easter_facts year Hy) as (e & He & Hsun & Hrange).
  pose proof (new_year_month_day year Hy) as [Hm Hd].
  unfold _populate.
  settles_nav "Karácsony másnapja" finishes.
  - apply settles_when; [apply negb_true_iff, Z.eqb_neq; lia |].
    eapply settles_skip; [apply writes_lift; lift_ok |]. cbv beta.
    rewrite Ho.
    apply (settles_day_off_after _ "Karácsony másnapja");
      [date_lia | | done].
    rewrite year_ymd2ord; [lia | done | lia | cbn; lia].
  - repeat writes_step. all: date_lia.
Qed.

Lemma hungary_christmas_writes :
  writes (λ d _,
            (d = _ymd2ord year DEC 24 →
             observed = true ∧ 2010 <= year
             ∧ weekday (_ymd2ord year DEC 24) <= FR)
            ∧ (d = _ymd2ord year DEC 26 → year ≠ 1955)
            ∧ (d = _ymd2ord year DEC 26 + 1 →
               observed = true ∧ 2013 <= year
               ∧ weekday (_ymd2ord year DEC 26) = TH))
    (_populate observed year) tt.
Proof.
  destruct (easter_facts year Hy) as (e & He & Hsun & Hrange).
  pose proof (new_year_month_day year Hy) as [Hm Hd].
  unfold _populate.
  repeat writes_step_since.
  all: try date_lia.
  all: bool_hyps; subst;
    (split; [| split]); intros Hd'; first [ exfalso; date_lia | idtac ].
  all: try (rewrite year_ymd2ord in * by first [done | lia | cbn; lia]).
  all: repeat split; first [done | date_lia].
Qed.

End hungary_more.

Section hungary_more_holidays.
Import HolidayBase Hungary.

Ltac same_run :=
  repeat match goal with
    | H1 : run ?c = Ok ?m1, H2 : run ?c = Ok ?m2 |- _ =>
        assert (m2 = m1) as -> by congruence; clear H2
    end.

Lemma day_off_label_spec desc :
  day_off_label (desc +:+ " előtti pihenőnap") = true
  ∧ day_off_label (desc +:+ " utáni pihenőnap") = true.
Proof.
  unfold day_off_label. split.
  - induction desc as [| a desc IH]; [reflexivity |].
    change (String a desc +:+ ?s) with (String a (desc +:+ s)).
    cbn [ends_with]. rewrite IH. apply orb_true_r.
  - induction desc as [| a desc IH]; [reflexivity |].
    change (String a desc +:+ ?s) with (String a (desc +:+ s)).
    cbn [ends_with]. rewrite IH. apply orb_true_r.
Qed.

(** X11. When the observed days are switched off, the map has the
    holidays only: no entry is a day off (a label ending in
    "pihenőnap", as every day off written by
    [_add_with_observed_day_off] has), Christmas Eve or New Year's
    Eve. *)
Theorem hungary_unobserved (year : Z) :
  valid_year year →
  ∃ m, run (_populate false year) = Ok m
       ∧ (∀ d name, m !! d = Some name →
                    day_off_label name = false
                    ∧ name ≠ "Szenteste" ∧ name ≠ "Szilveszter")
       ∧ ∀ desc, day_off_label (desc +:+ " előtti pihenőnap") = true
                 ∧ day_off_label (desc +:+ " utáni pihenőnap") = true.
Proof.
  intros Hy.
  destruct (writes_run _ _ (hungary_unobserved_writes false year Hy eq_refl))
    as (m & Hm & F).
  exists m. split; [done |]. split; [| apply day_off_label_spec].
  intros d name Hd. exact (F d name Hd).
Qed.

Lemma hungary_unobserved_witness :
  valid_year 2015
  ∧ ∃ m, run (_populate false 2015) = Ok m
         ∧ ∀ d name, m !! d = Some name →
                     day_off_label name = false
                     ∧ name ≠ "Szenteste" ∧ name ≠ "Szilveszter".
Proof.
  assert (Hy : valid_year 2015) by (unfold valid_year, MINYEAR, MAXYEAR; lia).
  split; [exact Hy |].
  destruct (hungary_unobserved 2015 Hy) as (m & Hm & H & _).
  exists m. split; [exact Hm | exact H].
Defined.

(** X12. Easter Sunday and Pentecost, seven weeks later, are in the map
    of every year; Easter Monday in every year but 1955; Whit Monday,
    fifty days after Easter, up to 1952 and from 1992, and from 1953 to
    1991 neither the date nor the label is in the map. *)
Theorem hungary_easter_feasts (observed : bool) (year : Z) :
  valid_year year →
  ∃ m e, run (_populate observed year) = Ok m
         ∧ easter year = Ok e
         ∧ m !! e = Some "Húsvét"
         ∧ (year ≠ 1955 → m !! (e + 1) = Some "Húsvét Hétfő")
         ∧ m !! (e + 49) = Some "Pünkösd"
         ∧ (year <= 1952 ∨ 1992 <= year →
            m !! (e + 50) = Some "Pünkösdhétfő")
         ∧ (1953 <= year <= 1991 →
            m !! (e + 50) = None ∧ no_label "Pünkösdhétfő" m).
Proof.
  intros Hy. destruct (easter_facts year Hy) as (e & He & Hsun & Hrange).
  destruct (settles_run _ _ _
    (hungary_easter_settles observed year Hy e He Hsun Hrange))
    as (m & Hm & L).
  destruct (settles_run _ _ _
    (hungary_pentecost_settles observed year Hy e He Hsun Hrange))
    as (m1 & Hm1 & L1).
  same_run.
  exists m, e. split; [done |]. split; [done |]. split; [done |].
  split; [| split; [done |]; split].
  - intros Hne.
    destruct (settles_run _ _ _
      (hungary_easter_monday_settles observed year Hy e He Hsun Hrange Hne))
      as (m2 & Hm2 & L2).
    by same_run.
  - intros Hera.
    destruct (settles_run _ _ _
      (hungary_pentecost_monday_settles observed year Hy e He Hsun Hrange Hera))
      as (m2 & Hm2 & L2).
    by same_run.
  - intros Hera.
    destruct (writes_run _ _
      (hungary_no_pentecost_monday observed year Hy e He Hsun Hrange Hera))
      as (m2 & Hm2 & F).
    same_run. split.
    + eapply map_Forall_absent; [exact F |]. intros l [_ H]. by apply H.
    + eapply map_Forall_no_label; [exact F |]. intros d [H _]. by apply H.
Qed.

Lemma hungary_easter_feasts_witness :
  valid_year 1960
  ∧ ∃ m e, run (_populate true 1960) = Ok m
           ∧ easter 1960 = Ok e
           ∧ m !! e = Some "Húsvét"
           ∧ m !! (e + 49) = Some "Pünkösd"
           ∧ m !! (e + 50) = None.
Proof.
  assert (Hy : valid_year 1960) by (unfold valid_year, MINYEAR, MAXYEAR; lia).
  split; [exact Hy |].
  destruct (hungary_easter_feasts true 1960 Hy)
    as (m & e & Hm & He & H1 & _ & H2 & _ & H3).
  exists m, e. split; [exact Hm |]. split; [exact He |].
  split; [exact H1 |]. split; [exact H2 |].
  apply H3. lia.
Defined.

(** X13. The holidays of the Soviet era are in the map from 1950 to 1989
    only: March 21 and, in place of the State Foundation Day of the
    other years, the Day of the Bread on August 20; November 7 too,
    except in 1956 and 1989, when neither the date nor the label is in
    the map.  Outside these years none of the four labels of the era
    appears. *)
Theorem hungary_soviet_era (observed : bool) (year : Z) :
  valid_year year →
  ∃ m, run (_populate observed year) = Ok m
       ∧ (year < 1950 ∨ 1989 < year →
          no_label "A Tanácsköztársaság kikiáltásának ünnepe" m
          ∧ no_label "A felszabadulás ünnepe" m
          ∧ no_label "A nagy októberi szocialista forradalom ünnepe" m
          ∧ no_label "A kenyér ünnepe" m
          ∧ m !! _ymd2ord year AUG 20 = Some "Az államalapítás ünnepe")
       ∧ (1950 <= year <= 1989 →
          m !! _ymd2ord year MAR 21
          = Some "A Tanácsköztársaság kikiáltásának ünnepe"
          ∧ m !! _ymd2ord year AUG 20 = Some "A kenyér ünnepe"
          ∧ (year ≠ 1956 → year ≠ 1989 →
             m !! _ymd2ord year NOV 7
             = Some "A nagy októberi szocialista forradalom ünnepe")
          ∧ (year = 1956 ∨ year = 1989 →
             m !! _ymd2ord year NOV 7 = None
             ∧ no_label "A nagy októberi szocialista forradalom ünnepe" m)).
Proof.
  intros Hy.
  destruct (settles_run _ _ _ (hungary_august_20_settles observed year Hy))
    as (m & Hm & L).
  exists m. split; [done |]. split.
  - intros Hera.
    destruct (writes_run _ _ (hungary_no_soviet_labels observed year Hy Hera))
      as (m2 & Hm2 & F).
    same_run.
    split; [| split; [| split; [| split]]].
    + eapply map_Forall_no_label; [exact F |]. intros d (H & _). by apply H.
    + eapply map_Forall_no_label; [exact F |].
      intros d (_ & H & _). by apply H.
    + eapply map_Forall_no_label; [exact F |].
      intros d (_ & _ & H & _). by apply H.
    + eapply map_Forall_no_label; [exact F |].
      intros d (_ & _ & _ & H). by apply H.
    + rewrite L.
      replace ((1950 <=? year) && (year <? 1990)) with false; [done |].
      symmetry. apply andb_false_iff. rewrite Z.leb_gt, Z.ltb_ge. lia.
  - intros Hera.
    destruct (settles_run _ _ _
      (hungary_council_republic_settles observed year Hy Hera))
      as (m2 & Hm2 & L2).
    same_run. split; [done |]. split; [| split].
    + rewrite L.
      replace ((1950 <=? year) && (year <? 1990)) with true; [done |].
      symmetry. apply andb_true_iff. rewrite Z.leb_le, Z.ltb_lt. lia.
    + intros H56 H89.
      destruct (settles_run _ _ _
        (hungary_october_revolution_settles observed year Hy Hera H56 H89))
        as (m2 & Hm2 & L3).
      by same_run.
    + intros Hyears.
      destruct (writes_run _ _
        (hungary_no_october_revolution observed year Hy Hyears))
        as (m2 & Hm2 & F).
      same_run. split.
      * eapply map_Forall_absent; [exact F |]. intros l [_ H]. by apply H.
      * eapply map_Forall_no_label; [exact F |]. intros d [H _]. by apply H.
Qed.

Lemma hungary_soviet_era_witness :
  valid_year 1956
  ∧ ∃ m, run (_populate true 1956) = Ok m
         ∧ m !! _ymd2ord 1956 AUG 20 = Some "A kenyér ünnepe"
         ∧ m !! _ymd2ord 1956 NOV 7 = None.
Proof.
  assert (Hy : valid_year 1956) by (unfold valid_year, MINYEAR, MAXYEAR; lia).
  split; [exact Hy |].
  destruct (hungary_soviet_era true 1956 Hy) as (m & Hm & _ & H).
  destruct (H ltac:(lia)) as (_ & H1 & _ & H2).
  exists m. split; [exact Hm |]. split; [exact H1 |].
  apply H2. by left.
Defined.

(** X14. From 1950 to 1989 April 4 is always in the map, but Liberation
    Day gives way to Easter: when Easter Sunday or Easter Monday falls
    on April 4, the later assignment wins and the date carries the
    Easter label. *)
Theorem hungary_liberation_day (observed : bool) (year : Z) :
  valid_year year →
  1950 <= year <= 1989 →
  ∃ m e, run (_populate observed year) = Ok m
         ∧ easter year = Ok e
         ∧ m !! _ymd2ord year APR 4
           = Some (if e =? _ymd2ord year APR 4 then "Húsvét"
                   else if e + 1 =? _ymd2ord year APR 4 then "Húsvét Hétfő"
                   else "A felszabadulás ünnepe").
Proof.
  intros Hy Hera. destruct (easter_facts year Hy) as (e & He & Hsun & Hrange).
  destruct (e =? _ymd2ord year APR 4) eqn:E0;
    [| destruct (e + 1 =? _ymd2ord year APR 4) eqn:E1].
  - pose proof (proj1 (Z.eqb_eq _ _) E0) as E.
    destruct (settles_run _ _ _
      (hungary_easter_settles observed year Hy e He Hsun Hrange))
      as (m & Hm & L).
    exists m, e. split; [done |]. split; [done |]. by rewrite E0, <- E.
  - pose proof (proj1 (Z.eqb_eq _ _) E1) as E.
    assert (Hne : year ≠ 1955).
    { intros ->. revert E. vm_compute in He. injection He as <-.
      vm_compute. discriminate. }
    destruct (settles_run _ _ _
      (hungary_easter_monday_settles observed year Hy e He Hsun Hrange Hne))
      as (m & Hm & L).
    exists m, e. split; [done |]. split; [done |]. by rewrite E0, E1, <- E.
  - pose proof (proj1 (Z.eqb_neq _ _) E0) as N0.
    pose proof (proj1 (Z.eqb_neq _ _) E1) as N1.
    destruct (settles_run _ _ _
      (hungary_liberation_settles observed year Hy e He Hsun Hrange Hera N0 N1))
      as (m & Hm & L).
    exists m, e. split; [done |]. split; [done |]. by rewrite E0, E1.
Qed.

Lemma hungary_liberation_day_witness :
  valid_year 1983 ∧ 1950 <= 1983 <= 1989
  ∧ ∃ m, run (_populate true 1983) = Ok m
         ∧ m !! _ymd2ord 1983 APR 4 = Some "Húsvét Hétfő".
Proof.
  assert (Hy : valid_year 1983) by (unfold valid_year, MINYEAR, MAXYEAR; lia).
  assert (Hera : 1950 <= 1983 <= 1989) by lia.
  split; [exact Hy |]. split; [exact Hera |].
  destruct (hungary_liberation_day true 1983 Hy Hera) as (m & e & Hm & He & H).
  exists m. split; [exact Hm |].
  assert (E : Ok e = Ok (_ymd2ord 1983 APR 3))
    by (rewrite <- He; reflexivity).
  injection E as ->. exact H.
Defined.

(** X15. New Year's Day is in the map of every year.  December 31 is in
    it exactly when the observed days are on, the year is 2014 or later
    and the day is a Monday, and then as "Szilveszter": the day off
    before New Year written earlier on the same date is always
    overwritten, and New Year's Day never gets a day off before it, so
    that no entry carries that label. *)
Theorem hungary_turn_of_the_year (observed : bool) (year : Z) :
  valid_year year →
  ∃ m, run (_populate observed year) = Ok m
       ∧ m !! _ymd2ord year JAN 1 = Some "Újév"
       ∧ no_label "Újév előtti pihenőnap" m
       ∧ (observed = true ∧ 2014 <= year
          ∧ weekday (_ymd2ord year DEC 31) = MO →
          m !! _ymd2ord year DEC 31 = Some "Szilveszter")
       ∧ (¬ (observed = true ∧ 2014 <= year
             ∧ weekday (_ymd2ord year DEC 31) = MO) →
          m !! _ymd2ord year DEC 31 = None).
Proof.
  intros Hy.
  destruct (settles_run _ _ _ (hungary_new_year_settles observed year Hy))
    as (m & Hm & L).
  destruct (writes_run _ _ (hungary_december_31_writes observed year Hy))
    as (m2 & Hm2 & F).
  same_run.
  assert (S : observed = true ∧ 2014 <= year
              ∧ weekday (_ymd2ord year DEC 31) = MO →
              m !! _ymd2ord year DEC 31 = Some "Szilveszter").
  { intros (Ho & Hge & Hmo).
    destruct (settles_run _ _ _
      (hungary_szilveszter_settles observed year Hy Ho Hge Hmo))
      as (m2 & Hm2 & L2).
    by same_run. }
  exists m. split; [done |]. split; [done |]. split; [| split; [done |]].
  - intros d Hd.
    destruct (F d _ Hd (or_introl eq_refl)) as [-> Hc].
    rewrite (S Hc) in Hd. discriminate Hd.
  - intros Hn. destruct (m !! _ymd2ord year DEC 31) as [l |] eqn:E; [| done].
    destruct Hn. exact (proj2 (F _ l E (or_intror eq_refl))).
Qed.

Lemma hungary_turn_of_the_year_witness :
  valid_year 2018
  ∧ ∃ m, run (_populate true 2018) = Ok m
         ∧ m !! _ymd2ord 2018 JAN 1 = Some "Újév"
         ∧ no_label "Újév előtti pihenőnap" m
         ∧ m !! _ymd2ord 2018 DEC 31 = Some "Szilveszter".
Proof.
  assert (Hy : valid_year 2018) by (unfold valid_year, MINYEAR, MAXYEAR; lia).
  split; [exact Hy |].
  destruct (hungary_turn_of_the_year true 2018 Hy) as (m & Hm & H1 & H2 & H3 & _).
  exists m. split; [exact Hm |]. split; [exact H1 |]. split; [exact H2 |].
  apply H3. split; [reflexivity |]. split; [lia | reflexivity].
Defined.

(** X16. Christmas: December 25 is in the map of every year and
    December 26 in every year but 1955.  December 24 is in it, as
    "Szenteste", exactly when the observed days are on, the year is 2010
    or later and the day is not on a weekend; December 27 exactly when
    the observed days are on, the year is 2013 or later and December 26
    is a Thursday, as the day off after it. *)
Theorem hungary_christmas (observed : bool) (year : Z) :
  valid_year year →
  ∃ m, run (_populate observed year) = Ok m
       ∧ m !! _ymd2ord year DEC 25 = Some "Karácsony"
       ∧ m !! _ymd2ord year DEC 26
         = (if year =? 1955 then None else Some "Karácsony másnapja")
       ∧ m !! _ymd2ord year DEC 24
         = (if observed && (2010 <=? year)
               && negb (_is_weekend (_ymd2ord year DEC 24))
            then Some "Szenteste" else None)
       ∧ m !! (_ymd2ord year DEC 26 + 1)
         = (if observed && (2013 <=? year)
               && (weekday (_ymd2ord year DEC 26) =? TH)
            then Some "Karácsony másnapja utáni pihenőnap" else None).
Proof.
  intros Hy.
  destruct (settles_run _ _ _ (hungary_christmas_settles observed year Hy))
    as (m & Hm & L).
  destruct (writes_run _ _ (hungary_christmas_writes observed year Hy))
    as (m2 & Hm2 & F).
  same_run.
  exists m. split; [done |]. split; [done |].
  split; [| split].
  - destruct (year =? 1955) eqn:E.
    + apply Z.eqb_eq in E.
      destruct (m !! _ymd2ord year DEC 26) as [l |] eqn:E26; [| done].
      destruct (F _ l E26) as (_ & H & _). by destruct (H eq_refl).
    + apply Z.eqb_neq in E.
      destruct (settles_run _ _ _
        (hungary_second_christmas_settles observed year Hy E))
        as (m2 & Hm2 & L2).
      by same_run.
  - destruct (observed && (2010 <=? year)
              && negb (_is_weekend (_ymd2ord year DEC 24))) eqn:E.
    + apply andb_true_iff in E as [[Ho Hge%Z.leb_le]%andb_true_iff Hw].
      assert (Hwd : weekday (_ymd2ord year DEC 24) <= FR).
      { clear -Hw. unfold _is_weekend, _is_saturday, _is_sunday, weekday in *.
        apply negb_true_iff, orb_false_iff in Hw as [H1%Z.eqb_neq H2%Z.eqb_neq].
        Z.div_mod_to_equations. lia. }
      destruct (settles_run _ _ _
        (hungary_christmas_eve_settles observed year Hy Ho Hge Hwd))
        as (m2 & Hm2 & L2).
      by same_run.
    + destruct (m !! _ymd2ord year DEC 24) as [l |] eqn:E24; [| done].
      destruct (F _ l E24) as (H & _). destruct (H eq_refl) as (Ho & Hge & Hwd).
      exfalso. revert E. rewrite Ho.
      replace (2010 <=? year) with true by (symmetry; by apply Z.leb_le).
      unfold _is_weekend, _is_saturday, _is_sunday.
      replace (weekday (_ymd2ord year DEC 24) =? SA) with false
        by (symmetry; apply Z.eqb_neq; lia).
      replace (weekday (_ymd2ord year DEC 24) =? SU) with false
        by (symmetry; apply Z.eqb_neq; lia).
      discriminate.
  - destruct (observed && (2013 <=? year)
              && (weekday (_ymd2ord year DEC 26) =? TH)) eqn:E.
    + apply andb_true_iff in E
        as [[Ho Hge%Z.leb_le]%andb_true_iff Hth%Z.eqb_eq].
      destruct (settles_run _ _ _
        (hungary_christmas_day_off_settles observed year Hy Ho Hge Hth))
        as (m2 & Hm2 & L2).
      by same_run.
    + destruct (m !! (_ymd2ord year DEC 26 + 1)) as [l |] eqn:E27; [| done].
      destruct (F _ l E27) as (_ & _ & H).
      destruct (H eq_refl) as (Ho & Hge & Hth).
      exfalso. revert E. rewrite Ho, Hth.
      replace (2013 <=? year) with true by (symmetry; by apply Z.leb_le).
      discriminate.
Qed.

Lemma hungary_christmas_witness :
  valid_year 2019
  ∧ ∃ m, run (_populate true 2019) = Ok m
         ∧ m !! _ymd2ord 2019 DEC 24 = Some "Szenteste"
         ∧ m !! _ymd2ord 2019 DEC 25 = Some "Karácsony"
         ∧ m !! _ymd2ord 2019 DEC 26 = Some "Karácsony másnapja"
         ∧ m !! _ymd2ord 2019 DEC 27
           = Some "Karácsony másnapja utáni pihenőnap".
Proof.
  assert (Hy : valid_year 2019) by (unfold valid_year, MINYEAR, MAXYEAR; lia).
  split; [exact Hy |].
  destruct (hungary_christmas true 2019 Hy) as (m & Hm & H1 & H2 & H3 & H4).
  exists m. split; [exact Hm |].
  split; [exact H3 |]. split; [exact H1 |]. split; [exact H2 | exact H4].
Defined.

End hungary_more_holidays.


(** ** Thailand *)

Lemma raeknakhwan_dates_years y month day :
  Thailand.lookup_year Thailand.raeknakhwan_dates y = Some (month, day) →
  1997 <= y <= 2023 ∧ y ≠ 1999.
Proof.
  intros H%lookup_year_elem_of.
  assert (F : Forall (λ e : Z * (Z * Z), 1997 <= e.1 <= 2023 ∧ e.1 ≠ 1999)
                Thailand.raeknakhwan_dates).
  { repeat constructor; cbn; lia. }
  rewrite Forall_forall in F. exact (F _ H).
Qed.

Ltac writes_step_years :=
  cbv beta;
  lazymatch goal with
  | |- writes _ (match Thailand.lookup_year Thailand.raeknakhwan_dates ?y
                 with Some _ => _ | None => _ end) _ =>
      let E := fresh "E" in
      destruct (Thailand.lookup_year Thailand.raeknakhwan_dates y)
        as [[? ?] |] eqn:E;
      [pose proof (raeknakhwan_dates_years _ _ _ E);
       apply raeknakhwan_dates_may in E as [-> ?] |]
  | _ => writes_step
  end.

(** The era of a label, as a condition on the year. *)
Ltac era_goal :=
  lazymatch goal with
  | |- thailand_era ?l ?y = true =>
      let l' := eval vm_compute in l in
      change (thailand_era l' y = true)
  end;
  unfold thailand_era;
  repeat match goal with
    | |- context [String.eqb ?a ?b] =>
        let r := eval vm_compute in (String.eqb a b) in
        change (String.eqb a b) with r
    | |- context [in_lieu_label ?a] =>
        let r := eval vm_compute in (in_lieu_label a) in
        change (in_lieu_label a) with r
    end;
  cbv iota;
  unfold Thailand.in_lieu_years in *;
  rewrite ?orb_true_iff, ?andb_true_iff, ?negb_true_iff,
    ?Z.leb_le, ?Z.eqb_neq;
  bool_hyps;
  first [reflexivity | lia].

Section thailand_more.
Import HolidayBase Thailand.

Variable thls : _ThaiLuniSolar.
Variable observed : bool.
Variable year : Z.
Hypothesis Hy : valid_year year.

Lemma thailand_special_eras :
  table_forall (λ y month day name,
                  month_day_ok month day && thailand_era name y)
    special_holidays = true.
Proof. vm_compute. reflexivity. Qed.

Lemma thailand_rules_eras :
  feasts_between thls year 1 (_MAXORDINAL - 3) →
  writes (λ _ name, thailand_era name year = true)
    (rules thls observed year) tt.
Proof.
  intros Hf. cbv beta zeta delta [rules].
  repeat writes_step_years.
  all: first [ era_goal | date_lia ].
Qed.

Lemma thailand_populate_eras :
  feasts_between thls year 1 (_MAXORDINAL - 3) →
  writes (λ _ name, thailand_era name year = true)
    (_populate thls observed year) tt.
Proof.
  intros Hf. unfold _populate.
  destruct (year <=? 1940); [apply writes_ret |].
  eapply writes_bind; [| by apply thailand_rules_eras].
  eapply writes_populate_special; [done | apply thailand_special_eras |].
  intros month day name [H1 H2]%andb_true_iff. by split.
Qed.

End thailand_more.


Section thailand_more_lemmas.
Import HolidayBase Thailand.

Variable thls : _ThaiLuniSolar.
Variable observed : bool.
Variable year : Z.
Hypothesis Hy : valid_year year.
Hypothesis Hf : feasts_between thls year 1 (_MAXORDINAL - 3).

Lemma thailand_special_finishes :
  writes (λ _ _, True) (HolidayBase._populate special_holidays year) tt.
Proof. by apply thailand_special_writes. Qed.

(** After 1940 the map is settled by the rules. *)
Lemma thailand_populate_settles k v :
  1940 < year →
  settles k v (rules thls observed year) →
  settles k v (_populate thls observed year).
Proof.
  intros H1940 S. unfold _populate.
  replace (year <=? 1940) with false by (symmetry; apply Z.leb_gt; lia).
  eapply settles_skip; [apply thailand_special_finishes | exact S].
Qed.

(** The entries of the special-holiday table, as they are written. *)
Lemma thailand_special_entries :
  writes (λ d name, ∃ month day,
            (month, day, name) ∈ get special_holidays year
            ∧ d = _ymd2ord year month day)
    (HolidayBase._populate special_holidays year) tt.
Proof.
  apply writes_add_special; [done |].
  pose proof (get_forall (λ _ month day _, month_day_ok month day)
                special_holidays year eq_refl) as F.
  rewrite Forall_forall in F. apply Forall_forall.
  intros [[month day] name] He. split; [exact (F _ He) |].
  by exists month, day.
Qed.

Lemma thailand_unobserved_writes :
  observed = false →
  writes (λ d name, in_lieu_label name = true →
            ∃ month day, (month, day, name) ∈ get special_holidays year
                         ∧ d = _ymd2ord year month day)
    (_populate thls observed year) tt.
Proof.
  intros ->. unfold _populate.
  destruct (year <=? 1940); [apply writes_ret |].
  eapply writes_bind.
  { eapply writes_weaken; [| apply thailand_special_entries]. auto. }
  cbv beta zeta delta [rules].
  repeat writes_step.
  all: first [ discriminate
             | intros Hl; vm_compute in Hl; discriminate Hl
             | date_lia ].
Qed.

(** The Royal Ploughing Ceremony is the last rule: nothing overwrites
    it. *)
Lemma thailand_ploughing_settles month day :
  lookup_year raeknakhwan_dates year = Some (month, day)
  ∨ lookup_year raeknakhwan_dates year = None
    ∧ 1957 <= year <= 1996 ∧ month = MAY ∧ day = 13 →
  settles (_ymd2ord year month day) "Royal Ploughing Ceremony"
    (rules thls observed year).
Proof.
  intros H. cbv beta zeta delta [rules].
  settles_last finishes.
  destruct H as [E | (E & Hera & -> & ->)]; rewrite E.
  - apply raeknakhwan_dates_may in E as [-> Hday].
    eapply settles_skip; [apply writes_lift; lift_ok |]. cbv beta.
    apply settles_add_with_observed. date_lia.
  - apply settles_when.
    { apply andb_true_iff. rewrite !Z.leb_le. lia. }
    eapply settles_skip; [apply writes_lift; lift_ok |]. cbv beta.
    apply settles_add_with_observed. date_lia.
Qed.

End thailand_more_lemmas.


Section thailand_in_lieu.
Import HolidayBase Thailand.

(** December 31 is the day before January 1. *)
Lemma previous_new_years_eve y :
  _ymd2ord (y - 1) DEC 31 = _ymd2ord y JAN 1 - 1.
Proof.
  rewrite !ymd2ord_unfold. cbn.
  pose proof (days_before_next_year (y - 1)) as H.
  replace (y - 1 + 1) with y in H by lia. lia.
Qed.

(** The day in lieu of a holiday on a weekend. *)
Lemma settles_in_lieu year dt name :
  valid_date dt →
  in_lieu_years year = true → _is_weekend dt = true →
  settles (in_lieu_date dt) (name +:+ " (in lieu)")
    (_add_with_observed true year dt name).
Proof.
  intros Hdt Hera Hw.
  exists (<[in_lieu_date dt := name +:+ " (in lieu)"]> (<[dt := name]> ∅)).
  split; [| apply lookup_insert_eq].
  intros m. rewrite (add_with_observed_eq _ _ _ _ _ Hdt), Hera, Hw.
  cbn [andb]. by rewrite <- !insert_union_l, (left_id_L ∅ (∪)).
Qed.

End thailand_in_lieu.

Section thailand_new_year.
Import HolidayBase Thailand.

Variable thls : _ThaiLuniSolar.
Variable year : Z.
Hypothesis Hy : valid_year year.
Hypothesis Hf :
  feasts_between thls year (_ymd2ord year JAN 4) (_MAXORDINAL - 3).

Lemma thailand_new_year_settles observed :
  settles (_ymd2ord year JAN 1) "New Year's Day" (rules thls observed year).
Proof.
  cbv beta zeta delta [rules].
  apply settles_then.
  - eapply settles_skip; [apply writes_lift; lift_ok |]. cbv beta.
    apply settles_add_with_observed. date_lia.
  - repeat writes_step. all: date_lia.
Qed.

Lemma thailand_new_year_in_lieu_settles n :
  in_lieu_years year = true →
  weekday (_ymd2ord year JAN 1) = SA ∧ n = 2
  ∨ weekday (_ymd2ord year JAN 1) = SU ∧ n = 1 →
  settles (_ymd2ord year JAN 1 + n) "New Year's Day (in lieu)"
    (rules thls true year).
Proof.
  intros Hera Hwd. cbv beta zeta delta [rules].
  apply settles_then.
  - eapply settles_skip; [apply writes_lift; lift_ok |]. cbv beta.
    replace (_ymd2ord year JAN 1 + n)
      with (in_lieu_date (_ymd2ord year JAN 1)).
    + apply (settles_in_lieu _ _ "New Year's Day"); [date_lia | done |].
      unfold _is_weekend, _is_saturday, _is_sunday.
      destruct Hwd as [[-> _] | [-> _]]; reflexivity.
    + unfold in_lieu_date, _is_saturday.
      destruct Hwd as [[-> ->] | [-> ->]]; reflexivity.
  - destruct Hwd as [[Hwd ->] | [Hwd ->]].
    + repeat writes_step.
      all: rewrite ?previous_new_years_eve in *.
      all: date_lia.
    + repeat writes_step.
      all: rewrite ?previous_new_years_eve in *.
      all: date_lia.
Qed.

Lemma thailand_eve_in_lieu_settles n :
  1995 <= year <= 1997 ∨ 2001 <= year →
  weekday (_ymd2ord year JAN 1) = SU ∧ n = 2
  ∨ weekday (_ymd2ord year JAN 1) = MO ∧ n = 1 →
  settles (_ymd2ord year JAN 1 + n) "New Year's Eve (in lieu)"
    (rules thls true year).
Proof.
  intros Hera Hwd. cbv beta zeta delta [rules].
  settles_nav "New Year's Eve (in lieu)" finishes.
  - apply settles_when.
    { cbn [andb]. apply orb_true_iff. rewrite andb_true_iff, !Z.leb_le. lia. }
    eapply settles_skip; [apply writes_lift; lift_ok |]. cbv beta.
    rewrite previous_new_years_eve.
    unfold _is_saturday, _is_sunday.
    destruct Hwd as [[Hwd ->] | [Hwd ->]].
    + replace (weekday (_ymd2ord year JAN 1 - 1) =? SA) with true
        by (symmetry; apply Z.eqb_eq; unfold weekday in *;
            Z.div_mod_to_equations; lia).
      eapply settles_skip; [apply writes_lift; lift_ok |]. cbv beta.
      apply settles_setitem_eq. rewrite !ymd2ord_unfold. cbn. lia.
    + replace (weekday (_ymd2ord year JAN 1 - 1) =? SA) with false
        by (symmetry; apply Z.eqb_neq; unfold weekday in *;
            Z.div_mod_to_equations; lia).
      replace (weekday (_ymd2ord year JAN 1 - 1) =? SU) with true
        by (symmetry; apply Z.eqb_eq; unfold weekday in *;
            Z.div_mod_to_equations; lia).
      eapply settles_skip; [apply writes_lift; lift_ok |]. cbv beta.
      apply settles_setitem_eq. rewrite !ymd2ord_unfold. cbn. lia.
  - assert (Hn : 1 <= n <= 2) by lia. clear Hwd.
    repeat writes_step. all: date_lia.
Qed.

End thailand_new_year.


Section thailand_mothers_day.
Import HolidayBase Thailand.

Variable thls : _ThaiLuniSolar.
Variable observed : bool.
Variable year : Z.
Hypothesis Hy : valid_year year.
Hypothesis Hf : feasts_between thls year 1 (_ymd2ord year AUG 8).
Hypothesis H1976 : 1976 <= year.

Lemma thailand_mothers_day_settles :
  settles (_ymd2ord year AUG 12) "National Mother's Day"
    (rules thls observed year).
Proof.
  cbv beta zeta delta [rules].
  settles_nav "National Mother's Day" finishes.
  - replace ((1950 <=? year) && (year <=? 1957)) with false
      by (symmetry; apply andb_false_iff; rewrite Z.leb_gt, Z.leb_gt; lia).
    replace (1976 <=? year) with true by (symmetry; apply Z.leb_le; lia).
    eapply settles_skip; [apply writes_lift; lift_ok |]. cbv beta.
    apply settles_add_with_observed. date_lia.
  - repeat writes_step. all: date_lia.
Qed.

Lemma thailand_mothers_day_in_lieu_settles :
  observed = true → in_lieu_years year = true →
  _is_weekend (_ymd2ord year AUG 12) = true →
  settles (in_lieu_date (_ymd2ord year AUG 12))
    "National Mother's Day (in lieu)" (rules thls observed year).
Proof.
  intros Ho Hera Hw. cbv beta zeta delta [rules].
  settles_nav "National Mother's Day" finishes.
  - replace ((1950 <=? year) && (year <=? 1957)) with false
      by (symmetry; apply andb_false_iff; rewrite Z.leb_gt, Z.leb_gt; lia).
    replace (1976 <=? year) with true by (symmetry; apply Z.leb_le; lia).
    eapply settles_skip; [apply writes_lift; lift_ok |]. cbv beta.
    rewrite Ho.
    apply (settles_in_lieu _ _ "National Mother's Day"); [date_lia | done | done].
  - repeat writes_step. all: date_lia.
Qed.

Lemma thailand_special_no_queen :
  table_forall (λ _ month day name,
                  month_day_ok month day && negb (queen_sirikit_label name))
    special_holidays = true.
Proof. vm_compute. reflexivity. Qed.

(** The birthday of the Queen is written on August 12 and on its day in
    lieu, nowhere else. *)
Lemma thailand_queen_writes :
  writes (λ d name, queen_sirikit_label name = true →
            d = _ymd2ord year AUG 12
            ∨ d = in_lieu_date (_ymd2ord year AUG 12)
              ∧ observed = true ∧ in_lieu_years year = true
              ∧ _is_weekend (_ymd2ord year AUG 12) = true)
    (_populate thls observed year) tt.
Proof.
  unfold _populate.
  destruct (year <=? 1940); [apply writes_ret |].
  eapply writes_bind.
  { eapply writes_populate_special; [done | apply thailand_special_no_queen |].
    intros month day name [H1 H2%negb_true_iff]%andb_true_iff.
    split; [done |]. intros Hl. congruence. }
  cbv beta zeta delta [rules].
  repeat writes_step.
  all: first [ intros Hl; vm_compute in Hl; discriminate Hl
             | intros _; by left
             | intros _; right; by repeat split
             | date_lia ].
Qed.

End thailand_mothers_day.


(** The feasts away from a range of dates. *)
Ltac use_outside :=
  repeat match goal with
    | Hf : feasts_outside ?t ?y _ _, E : makha_bucha_date ?t ?y = Some ?d |- _ =>
        pose proof (Hf d (or_introl E)); clear E
    | Hf : feasts_outside ?t ?y _ _, E : visakha_bucha_date ?t ?y = Some ?d |- _ =>
        pose proof (Hf d (or_intror (or_introl E))); clear E
    | Hf : feasts_outside ?t ?y _ _, E : asarnha_bucha_date ?t ?y = Some ?d |- _ =>
        pose proof (Hf d (or_intror (or_intror (or_introl E)))); clear E
    | Hf : feasts_outside ?t ?y _ _, E : khao_phansa_date ?t ?y = Some ?d |- _ =>
        pose proof (Hf d (or_intror (or_intror (or_intror E)))); clear E
    end.

Ltac finishes_outside :=
  solve [repeat writes_step; first [exact I | use_outside; date_lia]].

Section thailand_songkran_rules.
Import HolidayBase Thailand.

Variable thls : _ThaiLuniSolar.
Variable observed : bool.
Variable year : Z.
Hypothesis Hy : valid_year year.
Hypothesis Hf :
  feasts_outside thls year (_ymd2ord year APR 9) (_ymd2ord year APR 15).

Ltac put_settles :=
  eapply settles_skip; [apply writes_lift; lift_ok |]; cbv beta;
  apply settles_setitem.

Ltac year_cases :=
  repeat match goal with
    | |- settles _ _ (if ?b then _ else _) =>
        let E := fresh "E" in destruct b eqn:E
    end.

Lemma thailand_songkran_13_settles :
  1948 <= year <= 1953 ∨ 1957 <= year ∧ year ≠ 2020 →
  settles (_ymd2ord year APR 13) "Songkran Festival"
    (rules thls observed year).
Proof.
  intros Hera. cbv beta zeta delta [rules].
  settles_nav "Songkran Festival" finishes_outside.
  - year_cases.
    + apply settles_then; [put_settles |].
      repeat writes_step. all: date_lia.
    + eapply settles_skip; [apply writes_lift; lift_ok |]. cbv beta.
      apply settles_add_with_observed. date_lia.
    + eapply settles_skip; [finishes_outside |]. cbv beta.
      apply settles_then; [put_settles |].
      repeat writes_step. all: date_lia.
    + apply settles_then; [put_settles |].
      repeat writes_step. all: date_lia.
    + exfalso. bool_hyps; lia.
  - repeat writes_step. all: use_outside; date_lia.
Qed.

Lemma thailand_songkran_15_settles :
  1948 <= year <= 1949 ∨ 1998 <= year ∧ year ≠ 2020 →
  settles (_ymd2ord year APR 15) "Songkran Festival"
    (rules thls observed year).
Proof.
  intros Hera. cbv beta zeta delta [rules].
  settles_nav "Songkran Festival" finishes_outside.
  - year_cases; try (exfalso; bool_hyps; lia).
    + eapply settles_skip; [finishes_outside |]. cbv beta.
      eapply settles_skip; [finishes_outside |]. cbv beta.
      put_settles.
    + eapply settles_skip; [finishes_outside |]. cbv beta.
      eapply settles_skip; [finishes_outside |]. cbv beta.
      put_settles.
  - repeat writes_step. all: use_outside; date_lia.
Qed.

Lemma thailand_mothers_day_april_settles :
  1950 <= year <= 1957 →
  settles (_ymd2ord year APR 15) "National Mother's Day"
    (rules thls observed year).
Proof.
  intros Hera. cbv beta zeta delta [rules].
  settles_nav "National Mother's Day" finishes_outside.
  - replace ((1950 <=? year) && (year <=? 1957)) with true
      by (symmetry; apply andb_true_iff; rewrite !Z.leb_le; lia).
    eapply settles_skip; [apply writes_lift; lift_ok |]. cbv beta.
    apply settles_add_with_observed. date_lia.
  - repeat writes_step. all: use_outside; date_lia.
Qed.

End thailand_songkran_rules.


Section thailand_more_holidays.
Import HolidayBase Thailand.

Ltac same_run :=
  repeat match goal with
    | H1 : run ?c = Ok ?m1, H2 : run ?c = Ok ?m2 |- _ =>
        assert (m2 = m1) as -> by congruence; clear H2
    end.

Lemma feasts_2011_in_2011 :
  feasts_between feasts_2011 2011 (_ymd2ord 2011 JAN 4) (_ymd2ord 2011 AUG 8).
Proof.
  intros d [H | [H | [H | H]]]; injection H as <-; vm_compute;
    split; discriminate.
Qed.

Lemma feasts_between_weaken thls year lo hi lo' hi' :
  lo' <= lo → hi <= hi' →
  feasts_between thls year lo hi → feasts_between thls year lo' hi'.
Proof. intros H1 H2 Hf d Hd. specialize (Hf d Hd). lia. Qed.

Lemma feasts_2011_valid :
  feasts_between feasts_2011 2011 1 (_MAXORDINAL - 3).
Proof.
  eapply feasts_between_weaken; [| | apply feasts_2011_in_2011];
    vm_compute; discriminate.
Qed.

(** X17. Every label is within the years the rules give it: whatever the
    year, an entry of Thailand's map carries a label only in the era of
    that label (no Songkran Festival in 1954-1956 nor in 2020, no
    Coronation Day in 2017-2019, no Royal Ploughing Ceremony in 1999 nor
    after 2023, no National Day after 1959, and so on), and a day in
    lieu only in the years of the automatic in-lieu rule. *)
Theorem thailand_holiday_eras (thls : _ThaiLuniSolar) (observed : bool)
    (year : Z) :
  valid_year year →
  feasts_between thls year 1 (_MAXORDINAL - 3) →
  ∃ m, run (_populate thls observed year) = Ok m
       ∧ ∀ d name, m !! d = Some name → thailand_era name year = true.
Proof.
  intros Hy Hf.
  destruct (writes_run _ _ (thailand_populate_eras thls observed year Hy Hf))
    as (m & Hm & F).
  exists m. split; [done |]. intros d name Hd. exact (F d name Hd).
Qed.

Lemma thailand_holiday_eras_witness :
  (valid_year 2011 ∧ feasts_between feasts_2011 2011 1 (_MAXORDINAL - 3))
  ∧ ∃ m, run (_populate feasts_2011 true 2011) = Ok m
         ∧ no_label "National Day" m.
Proof.
  assert (Hy : valid_year 2011) by (unfold valid_year, MINYEAR, MAXYEAR; lia).
  split; [exact (conj Hy feasts_2011_valid) |].
  destruct (thailand_holiday_eras feasts_2011 true 2011 Hy feasts_2011_valid)
    as (m & Hm & H).
  exists m. split; [exact Hm |].
  intros d Hd. specialize (H d _ Hd). discriminate H.
Defined.

(** X18. With the observed days switched off the rules add no day in
    lieu: every entry whose label ends in " (in lieu)" is an entry of
    the special-holiday table of the year. *)
Theorem thailand_unobserved (thls : _ThaiLuniSolar) (year : Z) :
  valid_year year →
  feasts_between thls year 1 (_MAXORDINAL - 3) →
  ∃ m, run (_populate thls false year) = Ok m
       ∧ (∀ d name, m !! d = Some name → in_lieu_label name = true →
            ∃ month day, (month, day, name) ∈ get special_holidays year
                         ∧ d = _ymd2ord year month day)
       ∧ ∀ name, in_lieu_label (name +:+ " (in lieu)") = true.
Proof.
  intros Hy Hf.
  destruct (writes_run _ _
    (thailand_unobserved_writes thls false year Hy Hf eq_refl))
    as (m & Hm & F).
  exists m. split; [done |]. split.
  - intros d name Hd. exact (F d name Hd).
  - intros name. apply ends_with_app.
Qed.

Lemma thailand_unobserved_witness :
  (valid_year 2011 ∧ feasts_between feasts_2011 2011 1 (_MAXORDINAL - 3))
  ∧ ∃ m, run (_populate feasts_2011 false 2011) = Ok m
         ∧ ∀ d name, m !! d = Some name → in_lieu_label name = false.
Proof.
  assert (Hy : valid_year 2011) by (unfold valid_year, MINYEAR, MAXYEAR; lia).
  split; [exact (conj Hy feasts_2011_valid) |].
  destruct (thailand_unobserved feasts_2011 2011 Hy feasts_2011_valid)
    as (m & Hm & H & _).
  exists m. split; [exact Hm |].
  intros d name Hd. destruct (in_lieu_label name) eqn:E; [| reflexivity].
  destruct (H d name Hd E) as (month & day & Hin & _).
  exfalso. revert E. clear -Hin.
  cbn in Hin. rewrite !elem_of_cons in Hin. rewrite elem_of_nil in Hin.
  destruct Hin as [Hin | [Hin | [Hin | [Hin | []]]]];
    injection Hin as _ _ ->; vm_compute; discriminate.
Defined.

(** X19. The Royal Ploughing Ceremony is the last rule, so nothing
    overwrites it: it is in the map on May 13 from 1957 to 1996 and on
    the date of the table from 1997 to 2023; the table has no entry for
    1999 and ends in 2023, and no entry carries the label in 1999, after
    2023 or before 1957. *)
Theorem thailand_royal_ploughing (thls : _ThaiLuniSolar) (observed : bool)
    (year : Z) :
  valid_year year →
  feasts_between thls year 1 (_MAXORDINAL - 3) →
  ∃ m, run (_populate thls observed year) = Ok m
       ∧ (∀ month day,
            lookup_year raeknakhwan_dates year = Some (month, day) →
            m !! _ymd2ord year month day = Some "Royal Ploughing Ceremony")
       ∧ (1957 <= year <= 1996 →
          m !! _ymd2ord year MAY 13 = Some "Royal Ploughing Ceremony")
       ∧ (year <= 1956 ∨ year = 1999 ∨ 2024 <= year →
          no_label "Royal Ploughing Ceremony" m).
Proof.
  intros Hy Hf.
  destruct (writes_run _ _ (thailand_populate_eras thls observed year Hy Hf))
    as (m & Hm & F).
  exists m. split; [done |]. split; [| split].
  - intros month day E.
    pose proof (raeknakhwan_dates_years _ _ _ E) as [Hyears _].
    destruct (settles_run _ _ _
      (thailand_populate_settles thls observed year Hy _ _ ltac:(lia)
         (thailand_ploughing_settles thls observed year Hy Hf month day
            (or_introl E)))) as (m2 & Hm2 & L).
    by same_run.
  - intros Hera.
    assert (E : lookup_year raeknakhwan_dates year = None).
    { destruct (lookup_year raeknakhwan_dates year) as [[month day] |] eqn:E;
        [| done].
      apply raeknakhwan_dates_years in E. lia. }
    destruct (settles_run _ _ _
      (thailand_populate_settles thls observed year Hy _ _ ltac:(lia)
         (thailand_ploughing_settles thls observed year Hy Hf MAY 13
            (or_intror (conj E (conj Hera (conj eq_refl eq_refl)))))))
      as (m2 & Hm2 & L).
    by same_run.
  - intros Hout d Hd. specialize (F d _ Hd). cbv beta in F.
    revert F. change (thailand_era "Royal Ploughing Ceremony" year)
      with ((1957 <=? year) && (year <=? 2023) && negb (year =? 1999)).
    rewrite !andb_true_iff, negb_true_iff, !Z.leb_le, Z.eqb_neq. lia.
Qed.

Lemma thailand_royal_ploughing_witness :
  (valid_year 2011 ∧ feasts_between feasts_2011 2011 1 (_MAXORDINAL - 3))
  ∧ ∃ m, run (_populate feasts_2011 true 2011) = Ok m
         ∧ m !! _ymd2ord 2011 MAY 13 = Some "Royal Ploughing Ceremony".
Proof.
  assert (Hy : valid_year 2011) by (unfold valid_year, MINYEAR, MAXYEAR; lia).
  split; [exact (conj Hy feasts_2011_valid) |].
  destruct (thailand_royal_ploughing feasts_2011 true 2011 Hy feasts_2011_valid)
    as (m & Hm & H & _).
  exists m. split; [exact Hm |]. apply H. reflexivity.
Defined.

(** X20. The long New Year weekend, with the observed days, in the years
    of the automatic in-lieu rule that also move New Year's Eve
    (1995-1997 and from 2001): January 1 is New Year's Day; on a
    Saturday its day in lieu is Monday, January 3; on a Sunday its day
    in lieu is Monday, January 2, and New Year's Eve, a Saturday, is
    moved to Tuesday, January 3; on a Monday, New Year's Eve, a Sunday,
    is moved to Tuesday, January 2.  The lunisolar feasts are taken to
    fall from January 4 on. *)
Theorem thailand_new_year_weekend (thls : _ThaiLuniSolar) (year : Z) :
  valid_year year →
  1995 <= year <= 1997 ∨ 2001 <= year →
  feasts_between thls year (_ymd2ord year JAN 4) (_MAXORDINAL - 3) →
  ∃ m, run (_populate thls true year) = Ok m
       ∧ m !! _ymd2ord year JAN 1 = Some "New Year's Day"
       ∧ (weekday (_ymd2ord year JAN 1) = SA →
          m !! _ymd2ord year JAN 3 = Some "New Year's Day (in lieu)")
       ∧ (weekday (_ymd2ord year JAN 1) = SU →
          m !! _ymd2ord year JAN 2 = Some "New Year's Day (in lieu)"
          ∧ m !! _ymd2ord year JAN 3 = Some "New Year's Eve (in lieu)")
       ∧ (weekday (_ymd2ord year JAN 1) = MO →
          m !! _ymd2ord year JAN 2 = Some "New Year's Eve (in lieu)").
Proof.
  intros Hy Hera Hf.
  assert (H1940 : 1940 < year) by lia.
  assert (Hlieu : in_lieu_years year = true).
  { unfold in_lieu_years. rewrite !orb_true_iff, !andb_true_iff, !Z.leb_le.
    lia. }
  assert (J2 : _ymd2ord year JAN 2 = _ymd2ord year JAN 1 + 1)
    by (rewrite !ymd2ord_unfold; cbn; lia).
  assert (J3 : _ymd2ord year JAN 3 = _ymd2ord year JAN 1 + 2)
    by (rewrite !ymd2ord_unfold; cbn; lia).
  rewrite J2, J3.
  destruct (settles_run _ _ _
    (thailand_populate_settles thls true year Hy _ _ H1940
       (thailand_new_year_settles thls year Hy Hf true))) as (m & Hm & L).
  exists m. split; [done |]. split; [done |]. split; [| split].
  - intros Hwd.
    destruct (settles_run _ _ _
      (thailand_populate_settles thls true year Hy _ _ H1940
         (thailand_new_year_in_lieu_settles thls year Hy Hf 2 Hlieu
            (or_introl (conj Hwd eq_refl))))) as (m2 & Hm2 & L2).
    by same_run.
  - intros Hwd. split.
    + destruct (settles_run _ _ _
        (thailand_populate_settles thls true year Hy _ _ H1940
           (thailand_new_year_in_lieu_settles thls year Hy Hf 1 Hlieu
              (or_intror (conj Hwd eq_refl))))) as (m2 & Hm2 & L2).
      by same_run.
    + destruct (settles_run _ _ _
        (thailand_populate_settles thls true year Hy _ _ H1940
           (thailand_eve_in_lieu_settles thls year Hy Hf 2 Hera
              (or_introl (conj Hwd eq_refl))))) as (m2 & Hm2 & L2).
      by same_run.
  - intros Hwd.
    destruct (settles_run _ _ _
      (thailand_populate_settles thls true year Hy _ _ H1940
         (thailand_eve_in_lieu_settles thls year Hy Hf 1 Hera
            (or_intror (conj Hwd eq_refl))))) as (m2 & Hm2 & L2).
    by same_run.
Qed.

Lemma thailand_new_year_weekend_witness :
  (valid_year 2011 ∧ (1995 <= 2011 <= 1997 ∨ 2001 <= 2011)
   ∧ feasts_between feasts_2011 2011 (_ymd2ord 2011 JAN 4) (_MAXORDINAL - 3))
  ∧ ∃ m, run (_populate feasts_2011 true 2011) = Ok m
         ∧ m !! _ymd2ord 2011 JAN 1 = Some "New Year's Day"
         ∧ m !! _ymd2ord 2011 JAN 3 = Some "New Year's Day (in lieu)".
Proof.
  assert (Hy : valid_year 2011) by (unfold valid_year, MINYEAR, MAXYEAR; lia).
  assert (Hera : 1995 <= 2011 <= 1997 ∨ 2001 <= 2011) by lia.
  assert (Hf : feasts_between feasts_2011 2011 (_ymd2ord 2011 JAN 4)
                 (_MAXORDINAL - 3)).
  { eapply feasts_between_weaken; [| | apply feasts_2011_in_2011];
      vm_compute; discriminate. }
  split; [exact (conj Hy (conj Hera Hf)) |].
  destruct (thailand_new_year_weekend feasts_2011 2011 Hy Hera Hf)
    as (m & Hm & H1 & H2 & _).
  exists m. split; [exact Hm |]. split; [exact H1 |].
  apply H2. reflexivity.
Defined.

(** X21. From 1976 on August 12 is National Mother's Day: the rule
    comes after the birthday of Queen Sirikit on the same date and
    overwrites it, the day in lieu included, so that no entry of the
    map carries a label of the Queen's birthday.  The lunisolar feasts
    are taken to fall up to August 8. *)
Theorem thailand_queen_birthday (thls : _ThaiLuniSolar) (observed : bool)
    (year : Z) :
  valid_year year →
  1976 <= year →
  feasts_between thls year 1 (_ymd2ord year AUG 8) →
  ∃ m, run (_populate thls observed year) = Ok m
       ∧ m !! _ymd2ord year AUG 12 = Some "National Mother's Day"
       ∧ ∀ d name, m !! d = Some name → queen_sirikit_label name = false.
Proof.
  intros Hy H1976 Hf.
  assert (H1940 : 1940 < year) by lia.
  destruct (settles_run _ _ _
    (thailand_populate_settles thls observed year Hy _ _ H1940
       (thailand_mothers_day_settles thls observed year Hy Hf H1976)))
    as (m & Hm & L).
  destruct (writes_run _ _ (thailand_queen_writes thls observed year Hy Hf H1976))
    as (m2 & Hm2 & F).
  same_run.
  exists m. split; [done |]. split; [done |].
  intros d name Hd. destruct (queen_sirikit_label name) eqn:E; [| done].
  exfalso. destruct (F d name Hd E) as [-> | (-> & Ho & Hera & Hw)].
  - rewrite L in Hd. injection Hd as <-. discriminate E.
  - destruct (settles_run _ _ _
      (thailand_populate_settles thls observed year Hy _ _ H1940
         (thailand_mothers_day_in_lieu_settles thls observed year Hy Hf H1976
            Ho Hera Hw))) as (m2 & Hm2 & L2).
    same_run. rewrite L2 in Hd. injection Hd as <-. discriminate E.
Qed.

Lemma thailand_queen_birthday_witness :
  (valid_year 2011 ∧ 1976 <= 2011
   ∧ feasts_between feasts_2011 2011 1 (_ymd2ord 2011 AUG 8))
  ∧ ∃ m, run (_populate feasts_2011 true 2011) = Ok m
         ∧ m !! _ymd2ord 2011 AUG 12 = Some "National Mother's Day"
         ∧ no_label "HM Queen Sirikit's Birthday" m.
Proof.
  assert (Hy : valid_year 2011) by (unfold valid_year, MINYEAR, MAXYEAR; lia).
  assert (H1976 : 1976 <= 2011) by lia.
  assert (Hf : feasts_between feasts_2011 2011 1 (_ymd2ord 2011 AUG 8)).
  { eapply feasts_between_weaken; [| | apply feasts_2011_in_2011];
      vm_compute; discriminate. }
  split; [exact (conj Hy (conj H1976 Hf)) |].
  destruct (thailand_queen_birthday feasts_2011 true 2011 Hy H1976 Hf)
    as (m & Hm & H1 & H2).
  exists m. split; [exact Hm |]. split; [exact H1 |].
  intros d Hd. specialize (H2 d _ Hd). discriminate H2.
Defined.

Lemma feasts_outside_valid thls year lo hi :
  feasts_outside thls year lo hi →
  feasts_between thls year 1 (_MAXORDINAL - 3).
Proof. intros Hf d Hd. destruct (Hf d Hd) as [H _]. lia. Qed.

(** X22. Songkran: April 13 is Songkran Festival in every year that has
    the festival (1948-1953, and from 1957 except 2020).  April 15 is
    Songkran Festival in 1948-1949 and from 1998 except 2020, but
    National Mother's Day from 1950 to 1957: in 1950-1953 the rule of
    Mother's Day comes later and replaces the third day of Songkran.
    The lunisolar feasts are taken to fall outside April 9 to 15. *)
Theorem thailand_songkran (thls : _ThaiLuniSolar) (observed : bool)
    (year : Z) :
  valid_year year →
  feasts_outside thls year (_ymd2ord year APR 9) (_ymd2ord year APR 15) →
  ∃ m, run (_populate thls observed year) = Ok m
       ∧ (1948 <= year <= 1953 ∨ 1957 <= year ∧ year ≠ 2020 →
          m !! _ymd2ord year APR 13 = Some "Songkran Festival")
       ∧ (1948 <= year <= 1949 ∨ 1998 <= year ∧ year ≠ 2020 →
          m !! _ymd2ord year APR 15 = Some "Songkran Festival")
       ∧ (1950 <= year <= 1957 →
          m !! _ymd2ord year APR 15 = Some "National Mother's Day").
Proof.
  intros Hy Hf.
  destruct (writes_run _ _
    (thailand_populate_eras thls observed year Hy
       (feasts_outside_valid _ _ _ _ Hf))) as (m & Hm & _).
  exists m. split; [done |]. split; [| split].
  - intros Hera.
    destruct (settles_run _ _ _
      (thailand_populate_settles thls observed year Hy _ _ ltac:(lia)
         (thailand_songkran_13_settles thls observed year Hy Hf Hera)))
      as (m2 & Hm2 & L).
    by same_run.
  - intros Hera.
    destruct (settles_run _ _ _
      (thailand_populate_settles thls observed year Hy _ _ ltac:(lia)
         (thailand_songkran_15_settles thls observed year Hy Hf Hera)))
      as (m2 & Hm2 & L).
    by same_run.
  - intros Hera.
    destruct (settles_run _ _ _
      (thailand_populate_settles thls observed year Hy _ _ ltac:(lia)
         (thailand_mothers_day_april_settles thls observed year Hy Hf Hera)))
      as (m2 & Hm2 & L).
    by same_run.
Qed.

Lemma thailand_songkran_witness :
  (valid_year 2011
   ∧ feasts_outside feasts_2011 2011 (_ymd2ord 2011 APR 9)
       (_ymd2ord 2011 APR 15))
  ∧ ∃ m, run (_populate feasts_2011 true 2011) = Ok m
         ∧ m !! _ymd2ord 2011 APR 13 = Some "Songkran Festival"
         ∧ m !! _ymd2ord 2011 APR 15 = Some "Songkran Festival".
Proof.
  assert (Hy : valid_year 2011) by (unfold valid_year, MINYEAR, MAXYEAR; lia).
  assert (Hf : feasts_outside feasts_2011 2011 (_ymd2ord 2011 APR 9)
                 (_ymd2ord 2011 APR 15)).
  { intros d [H | [H | [H | H]]]; injection H as <-; vm_compute;
      (split; [split; [reflexivity | discriminate] |]);
      first [left; reflexivity | right; reflexivity]. }
  split; [exact (conj Hy Hf) |].
  destruct (thailand_songkran feasts_2011 true 2011 Hy Hf)
    as (m & Hm & H1 & H2 & _).
  exists m. split; [exact Hm |].
  split; [apply H1 | apply H2]; right; split; [lia | discriminate | lia | discriminate].
Defined.

End thailand_more_holidays.


